(** * A todo-list manager: its three persistence back ends

    The development embeds the sort helper ([lib/sort.js]), the
    session-backed store ([lib/session-persistence.js]), the two
    relational stores (single-user and multi-user [PgPersistence]) and
    the routes of [todos.js] that take no id from the path, and proves
    properties of their operations.

    JavaScript values are modelled as follows.  A string is a sequence of
    code units below 256 ([string]); an integer id is a [Z]; an array that
    the code mutates in place lives in a heap of arrays indexed by
    references; a store is threaded explicitly through every call; a
    rejected promise or a thrown exception is the [Throw] outcome. *)

From Stdlib Require Import ZArith String Ascii List Bool Lia.
From Stdlib Require Import Sorting.Sorted Sorting.Permutation.
From stdpp Require Import base option list gmap strings sorting.

Open Scope Z_scope.

(** ** JavaScript primitives used by the code *)

Module JS.

(** [String.prototype.toLowerCase], on one code unit: the ASCII capitals
    and the Latin-1 capitals (every code unit from 192 to 222 but the
    multiplication sign 215) move up by 32; nothing else changes. *)
Definition lower_unit (c : ascii) : ascii :=
  let n := nat_of_ascii c in
  if ((65 <=? n)%nat && (n <=? 90)%nat)
     || ((192 <=? n)%nat && (n <=? 222)%nat && negb (n =? 215)%nat)
  then ascii_of_nat (n + 32)
  else c.

Fixpoint toLowerCase (s : string) : string :=
  match s with
  | EmptyString => EmptyString
  | String c s' => String (lower_unit c) (toLowerCase s')
  end.

(** [a < b] on strings: lexicographic on code units, a proper prefix
    being smaller. *)
Definition str_lt (a b : string) : bool :=
  match String.compare a b with Lt => true | _ => false end.

(** [Array.prototype.sort(cmp)].  The language requires the sort to be
    stable, so with a consistent comparator the result is the one of a
    stable insertion sort: an element goes in front of the first element
    it does not have to follow. *)
Section Sort.
Context {A : Type} (cmp : A -> A -> Z).

Fixpoint insert (x : A) (l : list A) : list A :=
  match l with
  | [] => [x]
  | y :: l' => if 0 <? cmp x y then y :: insert x l' else x :: y :: l'
  end.

Definition sort (l : list A) : list A := foldr insert [] l.
End Sort.

(** [Array.prototype.findIndex]: the first index whose element satisfies
    the predicate, [-1] when there is none. *)
Fixpoint findIndex {A : Type} (p : A -> bool) (l : list A) : Z :=
  match l with
  | [] => -1
  | x :: l' =>
      if p x then 0
      else let i := findIndex p l' in if i <? 0 then -1 else i + 1
  end.

(** [Array.prototype.splice(start, deleteCount)]: a negative [start]
    counts from the end of the array and is clamped at 0, a [start] past
    the end is clamped at the length. *)
Definition splice {A : Type} (start : Z) (deleteCount : nat) (l : list A)
  : list A :=
  let len := Z.of_nat (length l) in
  let from := if start <? 0 then Z.max (len + start) 0 else Z.min start len in
  take (Z.to_nat from) l ++ drop (Z.to_nat from + deleteCount) l.

(** [!n] for a number [n]: true exactly for zero. *)
Definition not_number (n : Z) : bool := n =? 0.

(** White space and line terminators among the code units below 256:
    tab, line feed, vertical tab, form feed, carriage return, space and
    the no-break space. *)
Definition is_space (c : ascii) : bool :=
  let n := nat_of_ascii c in
  ((9 <=? n)%nat && (n <=? 13)%nat) || (n =? 32)%nat || (n =? 160)%nat.

Fixpoint trimStart (s : string) : string :=
  match s with
  | EmptyString => EmptyString
  | String c s' => if is_space c then trimStart s' else s
  end.

Fixpoint trimEnd (s : string) : string :=
  match s with
  | EmptyString => EmptyString
  | String c s' =>
      match trimEnd s' with
      | EmptyString => if is_space c then EmptyString else String c EmptyString
      | t => String c t
      end
  end.

(** [String.prototype.trim] *)
Definition trim (s : string) : string := trimEnd (trimStart s).

(** What a call hands back to its caller. *)
Inductive outcome (E A : Type) : Type :=
| Return (a : A)
| Throw (e : E).
Arguments Return {E A} a.
Arguments Throw {E A} e.

End JS.

(** ** [lib/sort.js] *)

Class Titled (A : Type) := title_of : A -> string.

Module Sort.

(** Compare object titles alphabetically (case insensitive). *)
Definition compareByTitle {A} `{Titled A} (itemA itemB : A) : Z :=
  let titleA := JS.toLowerCase (title_of itemA) in
  let titleB := JS.toLowerCase (title_of itemB) in
  if JS.str_lt titleA titleB then -1
  else if JS.str_lt titleB titleA then 1
  else 0.

(** The arrays of the program: a reference names an array, and two
    references may name the same one. *)
Abbreviation ref := nat (only parsing).
Abbreviation arrays A := (gmap nat (list A)) (only parsing).

Definition read {A} (h : arrays A) (r : ref) : list A := default [] (h !! r).

(** [sortTodoItems(undone, done)]: both arguments are sorted in place,
    then a new array is built from them.  The new array is returned with
    the heap the call leaves behind. *)
Definition sortTodoItems {A} `{Titled A} (undone done : ref) (h : arrays A)
  : list A * arrays A :=
  let h1 := <[undone := JS.sort compareByTitle (read h undone)]> h in
  let h2 := <[done := JS.sort compareByTitle (read h1 done)]> h1 in
  (read h2 undone ++ read h2 done, h2).

End Sort.

(** An error value: [String(error)] is its name, a colon and its message. *)
Record Error := { name : string; message : string }.

Definition String_of_error (e : Error) : string :=
  if String.eqb (name e) "" then message e
  else if String.eqb (message e) "" then name e
  else (name e +:+ ": " +:+ message e)%string.

(** The type error of reading a property of [undefined]. *)
Definition TypeError_undefined (property : string) : Error :=
  {| name := "TypeError";
     message := ("Cannot read properties of undefined (reading '"
                 +:+ property +:+ "')")%string |}.

(** ** [lib/session-persistence.js] *)

Module SessionPersistence.

Record Todo := { todo_id : Z; todo_title : string; done : bool }.
Record TodoList := { id : Z; list_title : string; todos : list Todo }.

#[global] Instance Todo_titled : Titled Todo := todo_title.
#[global] Instance TodoList_titled : Titled TodoList := list_title.

(** The store: [_todoLists] is the array held by the session (the
    constructor writes the same reference back into the session, so the
    session sees every change), [currentId] the counter behind [nextId]. *)
Record t := { _todoLists : list TodoList; currentId : Z }.

Definition set_todos (todoList : TodoList) (ts : list Todo) : TodoList :=
  {| id := id todoList; list_title := list_title todoList; todos := ts |}.
Definition set_title (todoList : TodoList) (s : string) : TodoList :=
  {| id := id todoList; list_title := s; todos := todos todoList |}.
Definition set_done (todo : Todo) (b : bool) : Todo :=
  {| todo_id := todo_id todo; todo_title := todo_title todo; done := b |}.
Definition set_lists (self : t) (ls : list TodoList) : t :=
  {| _todoLists := ls; currentId := currentId self |}.

(** Modelled from the spec: [deepCopy] ([lib/deep-copy.js] is not among
    the sources) returns a deep copy, a value equal to its argument that
    shares nothing with it. *)
Definition deepCopy {A : Type} (x : A) : A := x.

(** Modelled from the spec: [nextId] ([lib/next-id.js] is not among the
    sources) returns a previously-unused integer on each call. *)
Definition nextId (self : t) : Z * t :=
  let n := currentId self + 1 in
  (n, {| _todoLists := _todoLists self; currentId := n |}).

(** [new SessionPersistence(session)]: the session's lists when it has
    some, a copy of the seed data otherwise. *)
Definition constructor (session_todoLists : option (list TodoList))
    (SeedData : list TodoList) (counter : Z) : t :=
  {| _todoLists := default (deepCopy SeedData) session_todoLists;
     currentId := counter |}.

(** An assignment through the reference that [find] returned: the first
    element that satisfies [p] is the one that changes. *)
Fixpoint update_first {A : Type} (p : A -> bool) (f : A -> A) (l : list A)
  : list A :=
  match l with
  | [] => []
  | x :: l' => if p x then f x :: l' else x :: update_first p f l'
  end.

Definition _findTodoList (todoListId : Z) (self : t) : option TodoList :=
  List.find (fun todoList => id todoList =? todoListId) (_todoLists self).

Definition _findTodo (todoListId todoId : Z) (self : t) : option Todo :=
  match _findTodoList todoListId self with
  | None => None
  | Some todoList =>
      List.find (fun todo => todo_id todo =? todoId) (todos todoList)
  end.

Definition loadTodoList (todoListId : Z) (self : t) : option TodoList * t :=
  (deepCopy (_findTodoList todoListId self), self).

Definition loadTodo (todoListId todoId : Z) (self : t) : option Todo * t :=
  (deepCopy (_findTodo todoListId todoId self), self).

Definition isDoneTodoList (todoList : TodoList) : bool :=
  (0 <? length (todos todoList))%nat && forallb done (todos todoList).

(** The two arrays that [filter] builds are new: they are the only
    arrays of the heap that [sortTodoItems] works on. *)
Definition sortedTodoLists (self : t) : list TodoList * t :=
  let todoLists := deepCopy (_todoLists self) in
  let undone := List.filter (fun todoList => negb (isDoneTodoList todoList)) todoLists in
  let done := List.filter (fun todoList => isDoneTodoList todoList) todoLists in
  (fst (Sort.sortTodoItems 0%nat 1%nat {[ 0%nat := undone; 1%nat := done ]}), self).

Definition sortedTodos (todoList : TodoList) (self : t) : list Todo * t :=
  let todos := deepCopy (todos todoList) in
  let done_ := List.filter (fun todo => done todo) todos in
  let undone := List.filter (fun todo => negb (done todo)) todos in
  (fst (Sort.sortTodoItems 0%nat 1%nat {[ 0%nat := undone; 1%nat := done_ ]}), self).

Definition hasUndoneTodos (todoList : TodoList) : bool :=
  existsb (fun todo => negb (done todo)) (todos todoList).

Definition existsTodoListTitle (title : string) (self : t) : bool * t :=
  (existsb (fun todoList => String.eqb (list_title todoList) title)
     (_todoLists self), self).

Definition deleteTodoList (todoListId : Z) (self : t) : bool * t :=
  let todoListIndex :=
    JS.findIndex (fun todoList => id todoList =? todoListId) (_todoLists self) in
  if todoListIndex =? -1 then (false, self)
  else (true, set_lists self (JS.splice todoListIndex 1 (_todoLists self))).

Definition createdTodoList (todoListTitle : string) (self : t) : bool * t :=
  let (n, self) := nextId self in
  let newTodoList := {| id := n; list_title := todoListTitle; todos := [] |} in
  (true, set_lists self (_todoLists self ++ [newTodoList])).

(** A method without a [return] hands back [undefined]. *)
Inductive returned := undefined | boolean (b : bool).

Definition toggleTodo (todoListId todoId : Z) (self : t)
  : JS.outcome Error returned * t :=
  let todoList := _findTodoList todoListId self in
  let todo := _findTodo todoListId todoId self in
  match todo with
  | None => (JS.Throw (TypeError_undefined "done"), self)
  | Some _ =>
      (JS.Return undefined,
       set_lists self
         (update_first (fun l => id l =? todoListId)
            (fun l => set_todos l
               (update_first (fun todo => todo_id todo =? todoId)
                  (fun todo => set_done todo (negb (done todo))) (todos l)))
            (_todoLists self)))
  end.

Definition deleteTodo (todoListId todoId : Z) (self : t) : returned * t :=
  match _findTodoList todoListId self with
  | None => (undefined, self)
  | Some todoList =>
      let todoIndex :=
        JS.findIndex (fun todo => todo_id todo =? todoId) (todos todoList) in
      if JS.not_number todoIndex then (undefined, self)
      else
        (undefined,
         set_lists self
           (update_first (fun l => id l =? todoListId)
              (fun l => set_todos l (JS.splice todoIndex 1 (todos l)))
              (_todoLists self)))
  end.

Definition addedTodo (todoListId : Z) (todoTitle : string) (self : t)
  : bool * t :=
  match _findTodoList todoListId self with
  | None => (false, self)
  | Some _ =>
      let (n, self) := nextId self in
      (true,
       set_lists self
         (update_first (fun l => id l =? todoListId)
            (fun l => set_todos l
               (todos l ++ [{| todo_id := n; todo_title := todoTitle; done := false |}]))
            (_todoLists self)))
  end.

Definition completeAllTodos (todoListId : Z) (self : t) : bool * t :=
  match _findTodoList todoListId self with
  | None => (false, self)
  | Some _ =>
      (true,
       set_lists self
         (update_first (fun l => id l =? todoListId)
            (fun l => set_todos l (map (fun todo => set_done todo true) (todos l)))
            (_todoLists self)))
  end.

Definition setTodoListTitle (todoListId : Z) (todoListTitle : string)
    (self : t) : bool * t :=
  match _findTodoList todoListId self with
  | None => (false, self)
  | Some _ =>
      (true,
       set_lists self
         (update_first (fun l => id l =? todoListId)
            (fun l => set_title l todoListTitle) (_todoLists self)))
  end.

End SessionPersistence.


(** ** The database behind [dbQuery]

    Neither [lib/db-query.js] nor the schema is among the sources.  This
    module models them from what the statements of the two stores, their
    comments and the specification say: the tables, the statements that
    the code sends, and what the server does with them. *)

Module Pg.

Inductive table := todolists | todos | users.
Inductive column := id | title | done | todolist_id | username | password.
Inductive value := NULL | VInt (n : Z) | VText (s : string) | VBool (b : bool).

#[global] Instance table_eq_dec : EqDecision table.
Proof. solve_decision. Defined.
#[global] Instance column_eq_dec : EqDecision column.
Proof. solve_decision. Defined.
#[global] Instance value_eq_dec : EqDecision value.
Proof. solve_decision. Defined.

(** Modelled from the spec: the persisted schema (the schema file is not
    among the sources).  [todolists(id PK, title, username)],
    [todos(id PK, title, done, todolist_id, username)] and
    [users(username PK, password)]; the [username] columns of the first two
    exist in the multi-user schema only and are null in the single-user
    one. *)
Record TodoListRow :=
  { tl_id : Z; tl_title : string; tl_username : option string }.
Record TodoRow :=
  { td_id : Z; td_title : string; td_done : bool; td_todolist_id : Z;
    td_username : option string }.
Record UserRow := { u_username : string; u_password : string }.

Definition row (t : table) : Type :=
  match t with
  | todolists => TodoListRow
  | todos => TodoRow
  | users => UserRow
  end.

(** The state of the database: which of the two schemas it has, its three
    tables in storage order and the two sequences behind the serial ids. *)
Record Database :=
  { multi_user : bool;
    todolists_table : list TodoListRow;
    todos_table : list TodoRow;
    users_table : list UserRow;
    todolists_id_seq : Z;
    todos_id_seq : Z }.

Definition rows_of (t : table) (d : Database) : list (row t) :=
  match t with
  | todolists => todolists_table d
  | todos => todos_table d
  | users => users_table d
  end.

Definition text_or_null (o : option string) : value :=
  match o with Some s => VText s | None => NULL end.

(** The value of a column in a row; a column the table lacks reads as null. *)
Definition col (t : table) (c : column) : row t -> value :=
  match t with
  | todolists => fun r =>
      match c with
      | id => VInt (tl_id r)
      | title => VText (tl_title r)
      | username => text_or_null (tl_username r)
      | _ => NULL
      end
  | todos => fun r =>
      match c with
      | id => VInt (td_id r)
      | title => VText (td_title r)
      | done => VBool (td_done r)
      | todolist_id => VInt (td_todolist_id r)
      | username => text_or_null (td_username r)
      | _ => NULL
      end
  | users => fun r =>
      match c with
      | username => VText (u_username r)
      | password => VText (u_password r)
      | _ => NULL
      end
  end.

(** [a = b] in a WHERE clause: a comparison with null selects nothing. *)
Definition sql_eq (a b : value) : bool :=
  match a, b with
  | VInt x, VInt y => x =? y
  | VText x, VText y => String.eqb x y
  | VBool x, VBool y => Bool.eqb x y
  | _, _ => false
  end.

(** *** Statements

    The statements of the code are conjunctions of [column = $n] tests,
    one assignment, a column list to insert, and an ordering. *)
Definition cond : Type := column * nat.

Inductive assignment :=
| set_param (c : column) (n : nat)      (* SET c = $n *)
| set_not (c : column) (c' : column)    (* SET c = NOT c' *)
| set_true (c : column).                (* SET c = TRUE *)

Inductive order := by_col (c : column) | by_lower (c : column).

Inductive statement :=
| SELECT_FROM (t : table) (where_ : list cond) (order_by : list order)
| DELETE_FROM (t : table) (where_ : list cond)
| UPDATE (t : table) (set : assignment) (where_ : list cond)
| INSERT_INTO (t : table) (cols : list column).

Definition table_of (s : statement) : table :=
  match s with
  | SELECT_FROM t _ _ | DELETE_FROM t _ | UPDATE t _ _ | INSERT_INTO t _ => t
  end.

Definition where_of (s : statement) : list cond :=
  match s with
  | SELECT_FROM _ w _ | DELETE_FROM _ w | UPDATE _ _ w => w
  | INSERT_INTO _ _ => []
  end.

(** The number of parameters a statement takes: its largest placeholder. *)
Definition placeholders (s : statement) : list nat :=
  match s with
  | SELECT_FROM _ w _ | DELETE_FROM _ w => map snd w
  | UPDATE _ (set_param _ n) w => n :: map snd w
  | UPDATE _ _ w => map snd w
  | INSERT_INTO _ cols => seq 1 (length cols)
  end.

Definition arity (s : statement) : nat := foldr Nat.max 0%nat (placeholders s).

(** [$n] in a statement run with the parameters [ps]. *)
Definition param (ps : list value) (n : nat) : value := nth (n - 1) ps NULL.

Definition holds {t : table} (w : list cond) (ps : list value) (r : row t)
  : bool :=
  forallb (fun c : cond => sql_eq (col t (fst c) r) (param ps (snd c))) w.

(** *** ORDER BY: false before true, integers by value, text by code unit
    (after [LOWER] when asked), nulls last; rows that compare equal keep
    their storage order. *)
Definition value_cmp (a b : value) : Z :=
  match a, b with
  | VInt x, VInt y => match x ?= y with Lt => -1 | Eq => 0 | Gt => 1 end
  | VText x, VText y =>
      if JS.str_lt x y then -1 else if JS.str_lt y x then 1 else 0
  | VBool x, VBool y =>
      if Bool.eqb x y then 0 else if y then -1 else 1
  | NULL, NULL => 0
  | NULL, _ => 1
  | _, NULL => -1
  | _, _ => 0
  end.

Definition LOWER (v : value) : value :=
  match v with VText s => VText (JS.toLowerCase s) | _ => v end.

Definition order_key {t : table} (o : order) (r : row t) : value :=
  match o with
  | by_col c => col t c r
  | by_lower c => LOWER (col t c r)
  end.

Fixpoint order_cmp {t : table} (o : list order) (a b : row t) : Z :=
  match o with
  | [] => 0
  | k :: o' =>
      let c := value_cmp (order_key k a) (order_key k b) in
      if c =? 0 then order_cmp o' a b else c
  end.

Definition ordered {t : table} (o : list order) (rs : list (row t))
  : list (row t) :=
  match o with
  | [] => rs
  | _ => JS.sort (order_cmp o) rs
  end.

(** *** Errors of the server *)
Definition db_error (msg : string) : Error := {| name := "error"; message := msg |}.

Definition unique_violation (constraint : string) : Error :=
  db_error ("duplicate key value violates unique constraint " +:+ constraint).
Definition foreign_key_violation (constraint : string) : Error :=
  db_error ("insert or update on table violates foreign key constraint "
            +:+ constraint).
Definition not_null_violation (c : string) : Error :=
  db_error ("null value violates not-null constraint in column " +:+ c).
Definition bind_error : Error :=
  db_error "bind message supplies the wrong number of parameters for the prepared statement".
Definition datatype_mismatch : Error :=
  db_error "column is of another type than the expression".
Definition permission_denied : Error :=
  db_error "permission denied for table users".

Record QueryResult (t : table) := { rowCount : nat; rows : list (row t) }.
Arguments rowCount {t} _.
Arguments rows {t} _.

Definition with_todolists (d : Database) (rs : list TodoListRow) : Database :=
  {| multi_user := multi_user d; todolists_table := rs;
     todos_table := todos_table d; users_table := users_table d;
     todolists_id_seq := todolists_id_seq d; todos_id_seq := todos_id_seq d |}.

Definition with_todos (d : Database) (rs : list TodoRow) : Database :=
  {| multi_user := multi_user d; todolists_table := todolists_table d;
     todos_table := rs; users_table := users_table d;
     todolists_id_seq := todolists_id_seq d; todos_id_seq := todos_id_seq d |}.

(** A serial id is drawn from its sequence when the row is formed; the
    sequence keeps the draw even when the insert then fails. *)
Definition nextval (t : table) (d : Database) : Database :=
  {| multi_user := multi_user d; todolists_table := todolists_table d;
     todos_table := todos_table d; users_table := users_table d;
     todolists_id_seq :=
       match t with todolists => todolists_id_seq d + 1 | _ => todolists_id_seq d end;
     todos_id_seq :=
       match t with todos => todos_id_seq d + 1 | _ => todos_id_seq d end |}.

(** Modelled from the spec: SELECT answers with the rows that the WHERE
    clause selects, in the order asked for, and with their number. *)
Definition select {t : table} (w : list cond) (o : list order)
    (ps : list value) (d : Database) : QueryResult t :=
  let rs := ordered o (List.filter (holds w ps) (rows_of t d)) in
  {| rowCount := length rs; rows := rs |}.

(** The number of rows that a WHERE clause selects, which is the row
    count of an UPDATE or a DELETE, and the rows it does not select. *)
Definition count_where {t : table} (w : list cond) (ps : list value)
    (rs : list (row t)) : nat :=
  length (List.filter (holds w ps) rs).

Definition remaining {t : table} (w : list cond) (ps : list value)
    (rs : list (row t)) : list (row t) :=
  List.filter (fun r => negb (holds w ps r)) rs.

Definition refers_to (gone : list TodoListRow) (r : TodoRow) : bool :=
  existsb (fun l => tl_id l =? td_todolist_id r) gone.

(** Modelled from the spec: DELETE removes the rows that the WHERE clause
    selects; with a todo list go the todos that refer to it
    ([todos.todolist_id] references [todolists.id] ON DELETE CASCADE). *)
Definition delete_todolists (w : list cond) (ps : list value) (d : Database)
  : Database :=
  let gone := List.filter (holds (t := todolists) w ps) (todolists_table d) in
  with_todos
    (with_todolists d (remaining (t := todolists) w ps (todolists_table d)))
    (List.filter (fun r => negb (refers_to gone r)) (todos_table d)).

Definition delete_todos (w : list cond) (ps : list value) (d : Database)
  : Database :=
  with_todos d (remaining (t := todos) w ps (todos_table d)).

(** Modelled from the spec: UPDATE assigns to the rows that the WHERE
    clause selects; the code assigns [title] and [done] only. *)
Definition set_col (t : table) (c : column) (v : value)
  : row t -> option (row t) :=
  match t with
  | todolists => fun r =>
      match c, v with
      | title, VText s =>
          Some {| tl_id := tl_id r; tl_title := s; tl_username := tl_username r |}
      | _, _ => None
      end
  | todos => fun r =>
      match c, v with
      | title, VText s =>
          Some {| td_id := td_id r; td_title := s; td_done := td_done r;
                  td_todolist_id := td_todolist_id r;
                  td_username := td_username r |}
      | done, VBool b =>
          Some {| td_id := td_id r; td_title := td_title r; td_done := b;
                  td_todolist_id := td_todolist_id r;
                  td_username := td_username r |}
      | _, _ => None
      end
  | users => fun _ => None
  end.

Definition assigned {t : table} (a : assignment) (ps : list value) (r : row t)
  : option (row t) :=
  match a with
  | set_param c n => set_col t c (param ps n) r
  | set_not c c' =>
      match col t c' r with
      | VBool b => set_col t c (VBool (negb b)) r
      | _ => None
      end
  | set_true c => set_col t c (VBool true) r
  end.

Fixpoint updated {t : table} (a : assignment) (w : list cond)
    (ps : list value) (rs : list (row t)) : option (list (row t)) :=
  match rs with
  | [] => Some []
  | r :: rs' =>
      match (if holds w ps r then assigned a ps r else Some r) with
      | None => None
      | Some r' =>
          match updated a w ps rs' with
          | None => None
          | Some rs'' => Some (r' :: rs'')
          end
      end
  end.

(** The uniqueness of titles: over the whole table in the single-user
    schema, per owner in the multi-user one. *)
Definition same_title (multi : bool) (a b : TodoListRow) : bool :=
  String.eqb (tl_title a) (tl_title b)
  && (if multi
      then sql_eq (text_or_null (tl_username a)) (text_or_null (tl_username b))
      else true).

Definition title_key (multi : bool) : string :=
  if multi then "todolists_title_username_key" else "todolists_title_key".

(** After an update, a row that the statement wrote must be the only one
    with its title. *)
Definition title_clash (multi : bool) (w : list cond) (ps : list value)
    (before after : list TodoListRow) : bool :=
  existsb
    (fun p : TodoListRow * TodoListRow =>
       holds (t := todolists) w ps (fst p)
       && (1 <? length (List.filter (same_title multi (snd p)) after))%nat)
    (combine before after).

(** In an INSERT the value of a column is the parameter at its place in
    the column list; a column that is not listed takes its default. *)
Fixpoint value_at (cols : list column) (ps : list value) (c : column) : value :=
  match cols, ps with
  | c' :: cols', v :: ps' =>
      if decide (c' = c) then v else value_at cols' ps' c
  | _, _ => NULL
  end.

(** Modelled from the spec: INSERT into [todolists].  The id is drawn
    from the sequence; the row must have a title, an id and a title (per
    owner in the multi-user schema) that no row has yet, and in the
    multi-user schema an owner who is in [users]. *)
Definition insert_todolist (cols : list column) (ps : list value)
    (d : Database) : Error + Database :=
  let d := nextval todolists d in
  if negb (multi_user d) && existsb (fun c => bool_decide (c = username)) cols
  then inl datatype_mismatch
  else
    match value_at cols ps title with
    | VText s =>
        let u := match value_at cols ps username with
                 | VText u => Some u
                 | _ => None
                 end in
        let r := {| tl_id := todolists_id_seq d; tl_title := s; tl_username := u |} in
        if existsb (fun r' => tl_id r' =? tl_id r) (todolists_table d)
        then inl (unique_violation "todolists_pkey")
        else if existsb (same_title (multi_user d) r) (todolists_table d)
        then inl (unique_violation (title_key (multi_user d)))
        else if multi_user d
                && negb (existsb
                           (fun usr => sql_eq (VText (u_username usr)) (text_or_null u))
                           (users_table d))
        then inl (match u with
                  | Some _ => foreign_key_violation "todolists_username_fkey"
                  | None => not_null_violation "username"
                  end)
        else inr (with_todolists d (todolists_table d ++ [r]))
    | NULL => inl (not_null_violation "title")
    | _ => inl datatype_mismatch
    end.

(** Modelled from the spec: INSERT into [todos].  The id is drawn from
    the sequence and [done] starts false; the row must have a title, an
    id that no row has yet, and a todo list that exists. *)
Definition insert_todo (cols : list column) (ps : list value) (d : Database)
  : Error + Database :=
  let d := nextval todos d in
  if negb (multi_user d) && existsb (fun c => bool_decide (c = username)) cols
  then inl datatype_mismatch
  else
    match value_at cols ps title, value_at cols ps todolist_id with
    | VText s, VInt l =>
        let u := match value_at cols ps username with
                 | VText u => Some u
                 | _ => None
                 end in
        let r := {| td_id := todos_id_seq d; td_title := s; td_done := false;
                    td_todolist_id := l; td_username := u |} in
        if existsb (fun r' => td_id r' =? td_id r) (todos_table d)
        then inl (unique_violation "todos_pkey")
        else if negb (existsb (fun l' => tl_id l' =? l) (todolists_table d))
        then inl (foreign_key_violation "todos_todolist_id_fkey")
        else inr (with_todos d (todos_table d ++ [r]))
    | NULL, _ => inl (not_null_violation "title")
    | _, NULL => inl (not_null_violation "todolist_id")
    | _, _ => inl datatype_mismatch
    end.

(** The result of a statement that returns no rows. *)
Definition no_rows (t : table) (n : nat) : QueryResult t :=
  {| rowCount := n; rows := [] |}.

(** Modelled from the spec: the server runs one statement.  It refuses
    a statement that is not given exactly the parameters it names, and
    it lets the stores read [users] but not write it. *)
Definition execute (s : statement) (ps : list value) (d : Database)
  : (Error + QueryResult (table_of s)) * Database :=
  if negb (length ps =? arity s)%nat then (inl bind_error, d)
  else
    match s return (Error + QueryResult (table_of s)) * Database with
    | SELECT_FROM t w o => (inr (select w o ps d), d)
    | DELETE_FROM t w =>
        match t return (Error + QueryResult t) * Database with
        | todolists =>
            (inr (no_rows todolists (count_where (t := todolists) w ps (todolists_table d))),
             delete_todolists w ps d)
        | todos =>
            (inr (no_rows todos (count_where (t := todos) w ps (todos_table d))),
             delete_todos w ps d)
        | users => (inl permission_denied, d)
        end
    | UPDATE t a w =>
        match t return (Error + QueryResult t) * Database with
        | todolists =>
            match updated (t := todolists) a w ps (todolists_table d) with
            | None => (inl datatype_mismatch, d)
            | Some rs =>
                if title_clash (multi_user d) w ps (todolists_table d) rs
                then (inl (unique_violation (title_key (multi_user d))), d)
                else
                  (inr (no_rows todolists
                          (count_where (t := todolists) w ps (todolists_table d))),
                   with_todolists d rs)
            end
        | todos =>
            match updated (t := todos) a w ps (todos_table d) with
            | None => (inl datatype_mismatch, d)
            | Some rs =>
                (inr (no_rows todos (count_where (t := todos) w ps (todos_table d))),
                 with_todos d rs)
            end
        | users => (inl permission_denied, d)
        end
    | INSERT_INTO t cols =>
        match t return (Error + QueryResult t) * Database with
        | todolists =>
            match insert_todolist cols ps d with
            | inl e => (inl e, nextval todolists d)
            | inr d' => (inr (no_rows todolists 1), d')
            end
        | todos =>
            match insert_todo cols ps d with
            | inl e => (inl e, nextval todos d)
            | inr d' => (inr (no_rows todos 1), d')
            end
        | users => (inl permission_denied, d)
        end
    end.

(** *** [dbQuery]

    Modelled from the spec: [dbQuery(statement, ...parameters)]
    ([lib/db-query.js] is not among the sources) sends the statement with
    its parameters to the database and resolves to the result, or rejects
    with the error of the server.  The world of a store is the database
    and the list of the queries sent so far, the newest last. *)
Record Query := { text : statement; parameters : list value }.

Record World := { database : Database; sent : list Query }.

Definition M (A : Type) : Type := World -> JS.outcome Error A * World.

Definition ret {A} (a : A) : M A := fun w => (JS.Return a, w).
Definition throw {A} (e : Error) : M A := fun w => (JS.Throw e, w).
Definition bind {A B} (m : M A) (k : A -> M B) : M B :=
  fun w =>
    match m w with
    | (JS.Return a, w') => k a w'
    | (JS.Throw e, w') => (JS.Throw e, w')
    end.

(** [try { m } catch (error) { h error }] *)
Definition try_catch {A} (m : M A) (h : Error -> M A) : M A :=
  fun w =>
    match m w with
    | (JS.Return a, w') => (JS.Return a, w')
    | (JS.Throw e, w') => h e w'
    end.

Definition dbQuery (s : statement) (ps : list value)
  : M (QueryResult (table_of s)) :=
  fun w =>
    let q := {| text := s; parameters := ps |} in
    match execute s ps (database w) with
    | (inr r, d) => (JS.Return r, {| database := d; sent := sent w ++ [q] |})
    | (inl e, d) => (JS.Throw e, {| database := d; sent := sent w ++ [q] |})
    end.

(** [Promise.all([a, b])] over two queries that are already under way: the
    server may run them in either order, [b_first] tells which; the result
    keeps the order of the array.  When one of them fails the other one
    still runs, and the promise rejects. *)
Definition Promise_all {A B} (b_first : bool) (a : M A) (b : M B) : M (A * B) :=
  fun w =>
    if b_first then
      let (rb, w1) := b w in
      let (ra, w2) := a w1 in
      match ra, rb with
      | JS.Return x, JS.Return y => (JS.Return (x, y), w2)
      | _, JS.Throw e => (JS.Throw e, w2)
      | JS.Throw e, _ => (JS.Throw e, w2)
      end
    else
      let (ra, w1) := a w in
      let (rb, w2) := b w1 in
      match ra, rb with
      | JS.Return x, JS.Return y => (JS.Return (x, y), w2)
      | JS.Throw e, _ => (JS.Throw e, w2)
      | _, JS.Throw e => (JS.Throw e, w2)
      end.

(** A row of [todolists] after the code has stored an array of todos in
    its [todos] property. *)
Record TodoList := { list_row : TodoListRow; list_todos : list TodoRow }.

#[global] Instance TodoList_titled : Titled TodoList :=
  fun todoList => tl_title (list_row todoList).

Notation "c =$ n" := (c, n%nat) (at level 70, only parsing).
Notation "x <- m ;; k" := (bind m (fun x => k))
  (at level 100, m at next level, right associativity, only parsing).

(** The methods that both relational stores spell the same way. *)
Definition isDoneTodoList (todoList : TodoList) : bool :=
  (0 <? length (list_todos todoList))%nat
  && forallb td_done (list_todos todoList).

Definition hasUndoneTodos (todoList : TodoList) : bool :=
  existsb (fun todo => negb (td_done todo)) (list_todos todoList).

Definition _partitionTodoLists (todoLists : list TodoList) : list TodoList :=
  let both :=
    fold_left
      (fun (acc : list TodoList * list TodoList) todoList =>
         if isDoneTodoList todoList
         then (fst acc, snd acc ++ [todoList])
         else (fst acc ++ [todoList], snd acc))
      todoLists ([], []) in
  fst both ++ snd both.

(** [/duplicate key value violates unique constraint/.test(s)] *)
Fixpoint includes (needle s : string) : bool :=
  String.prefix needle s
  || match s with
     | EmptyString => false
     | String _ s' => includes needle s'
     end.

Definition isUniqueConstraintViolation (error : Error) : bool :=
  includes "duplicate key value violates unique constraint"
    (String_of_error error).

End Pg.

(** ** [PgPersistence], the single-user relational store *)

Module PgSingleUser.
Import Pg.

Definition loadTodoList (b_first : bool) (todoListId : Z)
  : M (option TodoList) :=
  let GET_TODOLIST := SELECT_FROM todolists [id =$ 1] [] in
  let GET_TODOS := SELECT_FROM todos [todolist_id =$ 1] [] in
  let todoListResult := dbQuery GET_TODOLIST [VInt todoListId] in
  let todosResult := dbQuery GET_TODOS [VInt todoListId] in
  resultBoth <- Promise_all b_first todoListResult todosResult ;;
  match rows (fst resultBoth) with
  | [] => ret None
  | todoList :: _ =>
      ret (Some {| list_row := todoList; list_todos := rows (snd resultBoth) |})
  end.

Definition loadTodo (todoListId todoId : Z) : M (option TodoRow) :=
  let FIND_TODO := SELECT_FROM todos [todolist_id =$ 1; id =$ 2] [] in
  result <- dbQuery FIND_TODO [VInt todoListId; VInt todoId] ;;
  ret (head (rows result)).

Definition isDoneTodoList := Pg.isDoneTodoList.

(** The loop of [sortedTodoLists]: one query for the todos of each list. *)
Fixpoint with_todos_of (todoLists : list TodoListRow) : M (list TodoList) :=
  let FIND_TODOS := SELECT_FROM todos [todolist_id =$ 1] [] in
  match todoLists with
  | [] => ret []
  | todoList :: rest =>
      result <- dbQuery FIND_TODOS [VInt (tl_id todoList)] ;;
      rest' <- with_todos_of rest ;;
      ret ({| list_row := todoList; list_todos := rows result |} :: rest')
  end.

Definition sortedTodoLists : M (list TodoList) :=
  let ALL_TODO_LISTS := SELECT_FROM todolists [] [by_lower title] in
  result <- dbQuery ALL_TODO_LISTS [] ;;
  todoLists <- with_todos_of (rows result) ;;
  ret (_partitionTodoLists todoLists).

Definition sortedTodos (todoList : TodoList) : M (list TodoRow) :=
  let FIND_TODOS :=
    SELECT_FROM todos [todolist_id =$ 1] [by_col done; by_lower title] in
  result <- dbQuery FIND_TODOS [VInt (tl_id (list_row todoList))] ;;
  ret (rows result).

Definition hasUndoneTodos := Pg.hasUndoneTodos.

Definition existsTodoListTitle (title_ : string) : M bool :=
  let TITLE_EXISTS := SELECT_FROM todolists [title =$ 1] [] in
  result <- dbQuery TITLE_EXISTS [VText title_] ;;
  ret (0 <? rowCount result)%nat.

(** [CHECK_TODOS] is declared and never sent: the second query is the
    DELETE once more. *)
Definition deleteTodoList (todoListId : Z) : M bool :=
  let DELETE_TODO_LIST := DELETE_FROM todolists [id =$ 1] in
  let CHECK_TODOS := SELECT_FROM todos [todolist_id =$ 1] [] in
  deleteResult <- dbQuery DELETE_TODO_LIST [VInt todoListId] ;;
  confirmResult <- dbQuery DELETE_TODO_LIST [VInt todoListId] ;;
  ret ((0 <? rowCount deleteResult)%nat && (rowCount confirmResult =? 0)%nat).

Definition isUniqueConstraintViolation := Pg.isUniqueConstraintViolation.

Definition createdTodoList (todoListTitle : string) : M bool :=
  let CREATE_TODO_LIST := INSERT_INTO todolists [title] in
  try_catch
    (result <- dbQuery CREATE_TODO_LIST [VText todoListTitle] ;;
     ret (0 <? rowCount result)%nat)
    (fun error =>
       if isUniqueConstraintViolation error then ret false else throw error).

Definition toggleTodo (todoListId todoId : Z) : M bool :=
  let UPDATE_TODO_STATUS :=
    UPDATE todos (set_not done done) [todolist_id =$ 1; id =$ 2] in
  result <- dbQuery UPDATE_TODO_STATUS [VInt todoListId; VInt todoId] ;;
  ret (0 <? rowCount result)%nat.

Definition deleteTodo (todoListId todoId : Z) : M bool :=
  let DELETE_TODO := DELETE_FROM todos [todolist_id =$ 1; id =$ 2] in
  result <- dbQuery DELETE_TODO [VInt todoListId; VInt todoId] ;;
  ret (0 <? rowCount result)%nat.

Definition addedTodo (todoListId : Z) (todoTitle : string) : M bool :=
  let ADD_TODO := INSERT_INTO todos [title; todolist_id] in
  result <- dbQuery ADD_TODO [VText todoTitle; VInt todoListId] ;;
  ret (rowCount result =? 1)%nat.

Definition completeAllTodos (b_first : bool) (todoListId : Z) : M bool :=
  let MARK_ALL_COMPLETE := UPDATE todos (set_true done) [todolist_id =$ 1] in
  let NUM_TODOS := SELECT_FROM todos [todolist_id =$ 1] [] in
  let markCompleteResult := dbQuery MARK_ALL_COMPLETE [VInt todoListId] in
  let numTodosResult := dbQuery NUM_TODOS [VInt todoListId] in
  bothResults <- Promise_all b_first markCompleteResult numTodosResult ;;
  ret (rowCount (fst bothResults) =? rowCount (snd bothResults))%nat.

Definition setTodoListTitle (todoListId : Z) (todoListTitle : string)
  : M bool :=
  let SET_TODO_LIST_TITLE := UPDATE todolists (set_param title 1) [id =$ 2] in
  result <- dbQuery SET_TODO_LIST_TITLE [VText todoListTitle; VInt todoListId] ;;
  ret (0 <? rowCount result)%nat.

End PgSingleUser.

(** ** [PgPersistence], the multi-user relational store *)

Module PgMultiUser.
Import Pg.

(** The session of a request; [username] is absent until a user signs in. *)
Record Session := { session_username : option string; signedIn : bool }.

Record t := { username_ : option string }.

Definition constructor (session : Session) : t :=
  {| username_ := session_username session |}.

(** [this.username] as a query parameter: an absent value is sent as null. *)
Definition this_username (self : t) : value := text_or_null (username_ self).

Definition loadTodoList (self : t) (b_first : bool) (todoListId : Z)
  : M (option TodoList) :=
  let GET_TODOLIST := SELECT_FROM todolists [id =$ 1; username =$ 2] [] in
  let GET_TODOS := SELECT_FROM todos [todolist_id =$ 1; username =$ 2] [] in
  let todoListResult := dbQuery GET_TODOLIST [VInt todoListId; this_username self] in
  let todosResult := dbQuery GET_TODOS [VInt todoListId; this_username self] in
  resultBoth <- Promise_all b_first todoListResult todosResult ;;
  match rows (fst resultBoth) with
  | [] => ret None
  | todoList :: _ =>
      ret (Some {| list_row := todoList; list_todos := rows (snd resultBoth) |})
  end.

Definition loadTodo (self : t) (todoListId todoId : Z) : M (option TodoRow) :=
  let FIND_TODO :=
    SELECT_FROM todos [todolist_id =$ 1; id =$ 2; username =$ 3] [] in
  result <- dbQuery FIND_TODO [VInt todoListId; VInt todoId; this_username self] ;;
  ret (head (rows result)).

Definition isDoneTodoList := Pg.isDoneTodoList.

Definition sortedTodoLists (self : t) (b_first : bool) : M (list TodoList) :=
  let ALL_TODO_LISTS := SELECT_FROM todolists [username =$ 1] [by_lower title] in
  let ALL_TODOS := SELECT_FROM todos [username =$ 1] [] in
  let todoListResult := dbQuery ALL_TODO_LISTS [this_username self] in
  let todosResult := dbQuery ALL_TODOS [this_username self] in
  result <- Promise_all b_first todoListResult todosResult ;;
  let allTodoLists := rows (fst result) in
  let allTodos := rows (snd result) in
  let allTodoLists :=
    map (fun todoList =>
           {| list_row := todoList;
              list_todos :=
                List.filter (fun todo => td_todolist_id todo =? tl_id todoList)
                  allTodos |})
      allTodoLists in
  ret (_partitionTodoLists allTodoLists).

Definition sortedTodos (self : t) (todoList : TodoList) : M (list TodoRow) :=
  let FIND_TODOS :=
    SELECT_FROM todos [todolist_id =$ 1; username =$ 2]
      [by_col done; by_lower title] in
  result <- dbQuery FIND_TODOS
              [VInt (tl_id (list_row todoList)); this_username self] ;;
  ret (rows result).

Definition hasUndoneTodos := Pg.hasUndoneTodos.

Definition existsTodoListTitle (self : t) (title_ : string) : M bool :=
  let TITLE_EXISTS := SELECT_FROM todolists [title =$ 1; username =$ 2] [] in
  result <- dbQuery TITLE_EXISTS [VText title_; this_username self] ;;
  ret (0 <? rowCount result)%nat.

Definition deleteTodoList (self : t) (todoListId : Z) : M bool :=
  let DELETE_TODO_LIST := DELETE_FROM todolists [id =$ 1; username =$ 2] in
  let CHECK_TODOS := SELECT_FROM todos [todolist_id =$ 1; username =$ 2] [] in
  deleteResult <- dbQuery DELETE_TODO_LIST [VInt todoListId; this_username self] ;;
  confirmResult <- dbQuery CHECK_TODOS [VInt todoListId; this_username self] ;;
  ret ((0 <? rowCount deleteResult)%nat && (rowCount confirmResult =? 0)%nat).

Definition isUniqueConstraintViolation := Pg.isUniqueConstraintViolation.

Definition createdTodoList (self : t) (todoListTitle : string) : M bool :=
  let CREATE_TODO_LIST := INSERT_INTO todolists [title; username] in
  try_catch
    (result <- dbQuery CREATE_TODO_LIST [VText todoListTitle; this_username self] ;;
     ret (0 <? rowCount result)%nat)
    (fun error =>
       if isUniqueConstraintViolation error then ret false else throw error).

Definition toggleTodo (self : t) (todoListId todoId : Z) : M bool :=
  let UPDATE_TODO_STATUS :=
    UPDATE todos (set_not done done)
      [todolist_id =$ 1; id =$ 2; username =$ 3] in
  result <- dbQuery UPDATE_TODO_STATUS
              [VInt todoListId; VInt todoId; this_username self] ;;
  ret (0 <? rowCount result)%nat.

(** The statement names three parameters and the call passes two:
    [this.username] is not among them. *)
Definition deleteTodo (self : t) (todoListId todoId : Z) : M bool :=
  let DELETE_TODO :=
    DELETE_FROM todos [todolist_id =$ 1; id =$ 2; username =$ 3] in
  result <- dbQuery DELETE_TODO [VInt todoListId; VInt todoId] ;;
  ret (0 <? rowCount result)%nat.

Definition addedTodo (self : t) (todoListId : Z) (todoTitle : string)
  : M bool :=
  let ADD_TODO := INSERT_INTO todos [title; todolist_id; username] in
  result <- dbQuery ADD_TODO [VText todoTitle; VInt todoListId; this_username self] ;;
  ret (rowCount result =? 1)%nat.

Definition completeAllTodos (self : t) (b_first : bool) (todoListId : Z)
  : M bool :=
  let MARK_ALL_COMPLETE :=
    UPDATE todos (set_true done) [todolist_id =$ 1; username =$ 2] in
  let NUM_TODOS := SELECT_FROM todos [todolist_id =$ 1; username =$ 2] [] in
  let markCompleteResult :=
    dbQuery MARK_ALL_COMPLETE [VInt todoListId; this_username self] in
  let numTodosResult := dbQuery NUM_TODOS [VInt todoListId; this_username self] in
  bothResults <- Promise_all b_first markCompleteResult numTodosResult ;;
  ret (rowCount (fst bothResults) =? rowCount (snd bothResults))%nat.

Definition setTodoListTitle (self : t) (todoListId : Z)
    (todoListTitle : string) : M bool :=
  let SET_TODO_LIST_TITLE :=
    UPDATE todolists (set_param title 1) [id =$ 2; username =$ 3] in
  result <- dbQuery SET_TODO_LIST_TITLE
              [VText todoListTitle; VInt todoListId; this_username self] ;;
  ret (0 <? rowCount result)%nat.

Section Login.
(** [bcrypt.compare(password, hash)], the check of the hashing library. *)
Variable bcrypt_compare : string -> string -> bool.

(** The statement selects the [password] column only. *)
Definition isValidLogin (self : t) (username_arg password_arg : string)
  : M bool :=
  let CHECK_LOGIN_STATUS := SELECT_FROM users [username =$ 1] [] in
  result <- dbQuery CHECK_LOGIN_STATUS [VText username_arg] ;;
  if (rowCount result =? 0)%nat then ret false
  else
    match rows result with
    | [] => throw (TypeError_undefined "password")
    | row0 :: _ => ret (bcrypt_compare password_arg (u_password row0))
    end.
End Login.

End PgMultiUser.

(** ** [todos.js]: the routes that take no id from the path

    The routes are modelled from the middlewares in front of them to the
    response.  A response is the redirect or the view that the handler
    ends with; the session of the request carries the user name, the
    signed-in flag and the flash messages.  The routes whose path holds an
    id convert it with unary plus and are not modelled. *)

Module Routes.
Import Pg.

(** The flash messages of a session: for each type, in the order in
    which the types came up, the messages of that type. *)
Definition Flash : Type := list (string * list string).

Fixpoint flash_add (type message : string) (f : Flash) : Flash :=
  match f with
  | [] => [(type, [message])]
  | (t, ms) :: f' =>
      if String.eqb t type then (t, ms ++ [message]) :: f'
      else (t, ms) :: flash_add type message f'
  end.

Record Request :=
  { session : PgMultiUser.Session; session_flash : Flash }.

(** [req.flash(type, message)] *)
Definition req_flash (type message : string) (req : Request) : Request :=
  {| session := session req;
     session_flash := flash_add type message (session_flash req) |}.

(** [req.flash()]: all the messages, which leave the session. *)
Definition req_flash_all (req : Request) : Flash * Request :=
  (session_flash req, {| session := session req; session_flash := [] |}).

Record Locals :=
  { store : PgMultiUser.t;
    username : option string;
    signedIn : bool;
    flash : Flash }.

(** The two middlewares in front of every route: the first builds the
    store of the request from its session, the second copies the user
    name, the signed-in flag and the flash messages of the session to
    [res.locals] and deletes the flash messages from the session. *)
Definition locals_of (req : Request) : Locals * Request :=
  ({| store := PgMultiUser.constructor (session req);
      username := PgMultiUser.session_username (session req);
      signedIn := PgMultiUser.signedIn (session req);
      flash := session_flash req |},
   {| session := session req; session_flash := [] |}).

Record TodosInfo :=
  { countAllTodos : nat; countDoneTodos : nat; isDone : bool }.

Inductive View :=
| lists (todoLists : list TodoList) (todosInfo : list TodosInfo)
| new_list (todoListTitle : string) (flash_ : Flash)
| signin (username_ : string) (flash_ : Flash).

(** What a handler ends with: [res.redirect] (with the status 302 when it
    is given none) or [res.render]. *)
Inductive Response :=
| redirect (status : nat) (path : string)
| render (view : View).

Definition requiresAuthentication (locals : Locals) (req : Request)
    (next : M (Response * Request)) : M (Response * Request) :=
  if negb (signedIn locals) then ret (redirect 302 "/users/signin", req)
  else next.

(** Render the list of todo lists. *)
Definition lists_handler (locals : Locals) (b_first : bool) (req : Request)
  : M (Response * Request) :=
  let store := store locals in
  todoLists <- PgMultiUser.sortedTodoLists store b_first ;;
  let todosInfo :=
    map (fun todoList =>
           {| countAllTodos := length (list_todos todoList);
              countDoneTodos :=
                length (List.filter (fun todo => td_done todo) (list_todos todoList));
              isDone := PgMultiUser.isDoneTodoList todoList |})
      todoLists in
  ret (render (lists todoLists todosInfo), req).

Definition GET_lists (b_first : bool) (req : Request) : M (Response * Request) :=
  let (locals, req) := locals_of req in
  requiresAuthentication locals req (lists_handler locals b_first req).

(** The validation chain of a title,
    [body(field).trim().isLength({ min: 1 }).withMessage(required)
     .isLength({ max: 100 }).withMessage(too_long)]:
    the field takes its trimmed value, and each of the two tests that
    fails reports its message. *)
Definition validated (required too_long : string) (field : string)
  : string * list string :=
  let value := JS.trim field in
  (value,
   (if (1 <=? String.length value)%nat then [] else [required])
   ++ (if (String.length value <=? 100)%nat then [] else [too_long])).

(** Create a new todo list. *)
Definition create_list_handler (locals : Locals) (errors : list string)
    (todoListTitle : string) (req : Request) : M (Response * Request) :=
  let store := store locals in
  let rerenderNewList (req : Request) : Response * Request :=
    let (flash_, req) := req_flash_all req in
    (render (new_list todoListTitle flash_), req) in
  match errors with
  | _ :: _ =>
      let req :=
        fold_left (fun req message => req_flash "error" message req) errors req in
      ret (rerenderNewList req)
  | [] =>
      existed <- PgMultiUser.existsTodoListTitle store todoListTitle ;;
      if existed : bool then
        let req := req_flash "error" "The list title must be unique." req in
        ret (rerenderNewList req)
      else
        created <- PgMultiUser.createdTodoList store todoListTitle ;;
        if negb created then
          let req := req_flash "error" "The list title must be unique." req in
          ret (rerenderNewList req)
        else
          let req := req_flash "success" "The todo list has been created." req in
          ret (redirect 302 "/lists", req)
  end.

Definition POST_lists (body_todoListTitle : string) (req : Request)
  : M (Response * Request) :=
  let (locals, req) := locals_of req in
  requiresAuthentication locals req
    (let (todoListTitle, errors) :=
       validated "The list title is required."
         "List title must be between 1 and 100 characters."
         body_todoListTitle in
     create_list_handler locals errors todoListTitle req).

Section Login.
Variable bcrypt_compare : string -> string -> bool.

(** Redirect to the lists page after a successful sign in. *)
Definition signin_handler (locals : Locals) (body_username body_password : string)
    (req : Request) : M (Response * Request) :=
  let username := JS.trim body_username in
  let password := body_password in
  let store := store locals in
  validLogin <- PgMultiUser.isValidLogin bcrypt_compare store username password ;;
  if negb validLogin then
    let req := req_flash "error" "Invalid credentials." req in
    let (flash_, req) := req_flash_all req in
    ret (render (signin body_username flash_), req)
  else
    let req :=
      {| session :=
           {| PgMultiUser.session_username := Some username;
              PgMultiUser.signedIn := PgMultiUser.signedIn (session req) |};
         session_flash := session_flash req |} in
    let req :=
      {| session :=
           {| PgMultiUser.session_username :=
                PgMultiUser.session_username (session req);
              PgMultiUser.signedIn := true |};
         session_flash := session_flash req |} in
    let req := req_flash "info" "Welcome!" req in
    ret (redirect 302 "/lists", req).

Definition POST_users_signin (body_username body_password : string)
    (req : Request) : M (Response * Request) :=
  let (locals, req) := locals_of req in
  signin_handler locals body_username body_password req.
End Login.

(** The sign out route controller. *)
Definition POST_users_signout (req : Request) : M (Response * Request) :=
  let (locals, req) := locals_of req in
  let req :=
    {| session :=
         {| PgMultiUser.session_username := None;
            PgMultiUser.signedIn := PgMultiUser.signedIn (session req) |};
       session_flash := session_flash req |} in
  let req :=
    {| session :=
         {| PgMultiUser.session_username :=
              PgMultiUser.session_username (session req);
            PgMultiUser.signedIn := false |};
       session_flash := session_flash req |} in
  ret (redirect 302 "/users/signin", req).

End Routes.

(** ** Sample stores, for the statements that name a concrete input *)

Module Sample.

Definition milk : SessionPersistence.Todo :=
  {| SessionPersistence.todo_id := 1;
     SessionPersistence.todo_title := "Milk";
     SessionPersistence.done := false |}.
Definition eggs : SessionPersistence.Todo :=
  {| SessionPersistence.todo_id := 2;
     SessionPersistence.todo_title := "Eggs";
     SessionPersistence.done := true |}.
Definition groceries : SessionPersistence.TodoList :=
  {| SessionPersistence.id := 1;
     SessionPersistence.list_title := "Groceries";
     SessionPersistence.todos := [milk; eggs] |}.
Definition chores : SessionPersistence.TodoList :=
  {| SessionPersistence.id := 2;
     SessionPersistence.list_title := "chores";
     SessionPersistence.todos := [] |}.

(** A session that holds two lists, the first with two todos. *)
Definition session_store : SessionPersistence.t :=
  {| SessionPersistence._todoLists := [groceries; chores];
     SessionPersistence.currentId := 2 |}.

(** The same session after the todo Eggs has gone. *)
Definition session_store_without_eggs : SessionPersistence.t :=
  {| SessionPersistence._todoLists :=
       [SessionPersistence.set_todos groceries [milk]; chores];
     SessionPersistence.currentId := 2 |}.

(** A multi-user database: two users, a list each, three todos. *)
Definition multi_db : Pg.Database :=
  {| Pg.multi_user := true;
     Pg.todolists_table :=
       [ {| Pg.tl_id := 1; Pg.tl_title := "Work"; Pg.tl_username := Some "admin"%string |};
         {| Pg.tl_id := 2; Pg.tl_title := "Home"; Pg.tl_username := Some "bob"%string |} ];
     Pg.todos_table :=
       [ {| Pg.td_id := 1; Pg.td_title := "report"; Pg.td_done := false;
            Pg.td_todolist_id := 1; Pg.td_username := Some "admin"%string |};
         {| Pg.td_id := 2; Pg.td_title := "Budget"; Pg.td_done := true;
            Pg.td_todolist_id := 1; Pg.td_username := Some "admin"%string |};
         {| Pg.td_id := 3; Pg.td_title := "laundry"; Pg.td_done := true;
            Pg.td_todolist_id := 2; Pg.td_username := Some "bob"%string |} ];
     Pg.users_table :=
       [ {| Pg.u_username := "admin"; Pg.u_password := "hash-of-secret" |};
         {| Pg.u_username := "bob"; Pg.u_password := "hash-of-hunter2" |} ];
     Pg.todolists_id_seq := 2;
     Pg.todos_id_seq := 3 |}.

(** A single-user database: the same lists and todos, without owners. *)
Definition single_db : Pg.Database :=
  {| Pg.multi_user := false;
     Pg.todolists_table :=
       [ {| Pg.tl_id := 1; Pg.tl_title := "Work"; Pg.tl_username := None |};
         {| Pg.tl_id := 2; Pg.tl_title := "Home"; Pg.tl_username := None |} ];
     Pg.todos_table :=
       [ {| Pg.td_id := 1; Pg.td_title := "report"; Pg.td_done := false;
            Pg.td_todolist_id := 1; Pg.td_username := None |};
         {| Pg.td_id := 2; Pg.td_title := "Budget"; Pg.td_done := true;
            Pg.td_todolist_id := 1; Pg.td_username := None |};
         {| Pg.td_id := 3; Pg.td_title := "laundry"; Pg.td_done := true;
            Pg.td_todolist_id := 2; Pg.td_username := None |} ];
     Pg.users_table := [];
     Pg.todolists_id_seq := 2;
     Pg.todos_id_seq := 3 |}.

(** A world in which no query has been sent yet. *)
Definition world (d : Pg.Database) : Pg.World :=
  {| Pg.database := d; Pg.sent := [] |}.

(** The stores of the user admin and of someone who is in no [users] row. *)
Definition admin : PgMultiUser.t := {| PgMultiUser.username_ := Some "admin"%string |}.
Definition stranger : PgMultiUser.t := {| PgMultiUser.username_ := Some "mallory"%string |}.

Definition bob : PgMultiUser.t := {| PgMultiUser.username_ := Some "bob"%string |}.

(** The todo that bob's [addedTodo] puts into list 1 of [multi_db]. *)
Definition bobs_note : Pg.TodoRow :=
  {| Pg.td_id := 4; Pg.td_title := "note"; Pg.td_done := false;
     Pg.td_todolist_id := 1; Pg.td_username := Some "bob"%string |}.

(** A stand-in for the comparison of the hashing library: the hash of a
    password is the password behind a fixed prefix. *)
Definition compare_by_prefix (password hash : string) : bool :=
  String.eqb ("hash-of-" +:+ password)%string hash.

(** [multi_db] with other rows for bob: his list renamed, his todo gone.
    The rows of admin are the same. *)
Definition multi_db_other_bob : Pg.Database :=
  {| Pg.multi_user := true;
     Pg.todolists_table :=
       [ {| Pg.tl_id := 1; Pg.tl_title := "Work"; Pg.tl_username := Some "admin"%string |};
         {| Pg.tl_id := 2; Pg.tl_title := "Work"; Pg.tl_username := Some "bob"%string |} ];
     Pg.todos_table :=
       [ {| Pg.td_id := 1; Pg.td_title := "report"; Pg.td_done := false;
            Pg.td_todolist_id := 1; Pg.td_username := Some "admin"%string |};
         {| Pg.td_id := 2; Pg.td_title := "Budget"; Pg.td_done := true;
            Pg.td_todolist_id := 1; Pg.td_username := Some "admin"%string |} ];
     Pg.users_table := Pg.users_table multi_db;
     Pg.todolists_id_seq := 2;
     Pg.todos_id_seq := 3 |}.

End Sample.

(** ** Notions used in the statements *)

(** [a] is not after [b] in the case-insensitive title order: the
    lower-cased title of [a] is not greater than the one of [b]. *)
Definition title_le {A} `{Titled A} (a b : A) : Prop :=
  String.compare (JS.toLowerCase (title_of a)) (JS.toLowerCase (title_of b)) <> Gt.

(** A sequence in ascending case-insensitive title order. *)
Definition title_ascending {A} `{Titled A} (l : list A) : Prop :=
  StronglySorted title_le l.

(** [result] is exactly the not-done members of [held] in ascending title
    order followed by exactly the done ones in ascending title order. *)
Definition undone_then_done {A} `{Titled A} (is_done : A -> bool)
    (held result : list A) : Prop :=
  exists undone done_,
    result = undone ++ done_
    /\ undone ≡ₚ List.filter (fun x => negb (is_done x)) held
    /\ done_ ≡ₚ List.filter is_done held
    /\ title_ascending undone
    /\ title_ascending done_.

(** A todo of the session store with its [done] flag flipped. *)
Definition session_toggled (todo : SessionPersistence.Todo)
  : SessionPersistence.Todo :=
  SessionPersistence.set_done todo (negb (SessionPersistence.done todo)).

(** The todo rows that a pair of ids names, and the ones a user owns. *)
Definition is_todo (todoListId todoId : Z) (r : Pg.TodoRow) : bool :=
  (Pg.td_todolist_id r =? todoListId) && (Pg.td_id r =? todoId).

Definition in_list (todoListId : Z) (r : Pg.TodoRow) : bool :=
  Pg.td_todolist_id r =? todoListId.

Definition todo_owned_by (u : option string) (r : Pg.TodoRow) : bool :=
  Pg.sql_eq (Pg.text_or_null (Pg.td_username r)) (Pg.text_or_null u).

Definition list_owned_by (u : option string) (r : Pg.TodoListRow) : bool :=
  Pg.sql_eq (Pg.text_or_null (Pg.tl_username r)) (Pg.text_or_null u).

(** A todo row with its [done] flag flipped, and a table in which the
    rows that satisfy [p] are flipped. *)
Definition pg_toggled (r : Pg.TodoRow) : Pg.TodoRow :=
  {| Pg.td_id := Pg.td_id r; Pg.td_title := Pg.td_title r;
     Pg.td_done := negb (Pg.td_done r);
     Pg.td_todolist_id := Pg.td_todolist_id r;
     Pg.td_username := Pg.td_username r |}.

Definition toggle_where (p : Pg.TodoRow -> bool) (rs : list Pg.TodoRow)
  : list Pg.TodoRow :=
  map (fun r => if p r then pg_toggled r else r) rs.

(** The todo row that a user's pair of ids names. *)
Definition is_todo_of (u : option string) (todoListId todoId : Z)
    (r : Pg.TodoRow) : bool :=
  is_todo todoListId todoId r && todo_owned_by u r.

(** What one call of a relational [toggleTodo] does to the database, for
    the predicate [p] that its WHERE clause amounts to. *)
Definition flips_once (p : Pg.TodoRow -> bool) (d : Pg.Database)
    (result : JS.outcome Error bool) (d' d'' : Pg.Database) : Prop :=
  if existsb p (Pg.todos_table d) then
    result = JS.Return true
    /\ d' = Pg.with_todos d (toggle_where p (Pg.todos_table d))
    /\ (NoDup (map Pg.td_id (Pg.todos_table d)) ->
        exists j r,
          Pg.todos_table d !! j = Some r /\ p r = true
          /\ Pg.todos_table d' = <[j := pg_toggled r]> (Pg.todos_table d))
    /\ d'' = d
  else result = JS.Return false /\ d' = d.

#[global] Instance TodoListRow_titled : Titled Pg.TodoListRow := Pg.tl_title.

(** The todo lists that a relational store holds, each with its todos, in
    storage order: all of them for the single-user store, the ones of its
    user for the multi-user store. *)
Definition single_held (d : Pg.Database) : list Pg.TodoList :=
  map (fun row =>
         {| Pg.list_row := row;
            Pg.list_todos :=
              List.filter (in_list (Pg.tl_id row)) (Pg.todos_table d) |})
    (Pg.todolists_table d).

Definition multi_held (u : option string) (d : Pg.Database)
  : list Pg.TodoList :=
  map (fun row =>
         {| Pg.list_row := row;
            Pg.list_todos :=
              List.filter (in_list (Pg.tl_id row))
                (List.filter (todo_owned_by u) (Pg.todos_table d)) |})
    (List.filter (list_owned_by u) (Pg.todolists_table d)).

(** The todo list rows that an id names, and the ones of a user. *)
Definition is_list (todoListId : Z) (r : Pg.TodoListRow) : bool :=
  Pg.tl_id r =? todoListId.

Definition is_list_of (u : option string) (todoListId : Z)
    (r : Pg.TodoListRow) : bool :=
  is_list todoListId r && list_owned_by u r.

(** The two statements of the multi-user [deleteTodoList] and the one of
    the single-user [deleteTodoList], as queries. *)
Definition multi_DELETE_TODO_LIST (self : PgMultiUser.t) (todoListId : Z)
  : Pg.Query :=
  {| Pg.text := Pg.DELETE_FROM Pg.todolists
                  [(Pg.id, 1%nat); (Pg.username, 2%nat)];
     Pg.parameters := [Pg.VInt todoListId; PgMultiUser.this_username self] |}.

Definition multi_CHECK_TODOS (self : PgMultiUser.t) (todoListId : Z)
  : Pg.Query :=
  {| Pg.text := Pg.SELECT_FROM Pg.todos
                  [(Pg.todolist_id, 1%nat); (Pg.username, 2%nat)] [];
     Pg.parameters := [Pg.VInt todoListId; PgMultiUser.this_username self] |}.

Definition single_DELETE_TODO_LIST (todoListId : Z) : Pg.Query :=
  {| Pg.text := Pg.DELETE_FROM Pg.todolists [(Pg.id, 1%nat)];
     Pg.parameters := [Pg.VInt todoListId] |}.

(** A query that reads and writes nothing. *)
Definition is_select (q : Pg.Query) : bool :=
  match Pg.text q with Pg.SELECT_FROM _ _ _ => true | _ => false end.

(** The insert that the single-user and the multi-user [createdTodoList]
    send. *)
Definition single_insert (todoListTitle : string)
  : Pg.M (Pg.QueryResult Pg.todolists) :=
  Pg.dbQuery (Pg.INSERT_INTO Pg.todolists [Pg.title]) [Pg.VText todoListTitle].

Definition multi_insert (self : PgMultiUser.t) (todoListTitle : string)
  : Pg.M (Pg.QueryResult Pg.todolists) :=
  Pg.dbQuery (Pg.INSERT_INTO Pg.todolists [Pg.title; Pg.username])
    [Pg.VText todoListTitle; PgMultiUser.this_username self].

(** What is asked of [createdTodoList], for the call [created] and
    the insert [ins] under it, in a world [w]. *)
Definition reports_unique_violation_as_false
    (created : Pg.M bool) (ins : Pg.M (Pg.QueryResult Pg.todolists))
    (w : Pg.World) : Prop :=
  (fst (created w) = JS.Return false
   <-> exists e, fst (ins w) = JS.Throw e
                 /\ Pg.isUniqueConstraintViolation e = true)
  /\ (forall e, fst (ins w) = JS.Throw e ->
                Pg.isUniqueConstraintViolation e = false ->
                fst (created w) = JS.Throw e)
  /\ (forall r, fst (ins w) = JS.Return r -> fst (created w) = JS.Return true)
  /\ snd (created w) = snd (ins w).

(** The [users] row of a user name: the first one, if any. *)
Definition user_row (username_arg : string) (d : Pg.Database)
  : option Pg.UserRow :=
  List.find (fun r => String.eqb (Pg.u_username r) username_arg)
    (Pg.users_table d).

(** A todo row marked done, and a table in which the rows that satisfy
    [p] are marked done. *)
Definition pg_completed (r : Pg.TodoRow) : Pg.TodoRow :=
  {| Pg.td_id := Pg.td_id r; Pg.td_title := Pg.td_title r;
     Pg.td_done := true;
     Pg.td_todolist_id := Pg.td_todolist_id r;
     Pg.td_username := Pg.td_username r |}.

Definition complete_where (p : Pg.TodoRow -> bool) (rs : list Pg.TodoRow)
  : list Pg.TodoRow :=
  map (fun r => if p r then pg_completed r else r) rs.

(** A query is scoped by the user name [u] when its statement tests the
    [username] column against a placeholder that the parameters bind to
    [u] or, for an insert, gives the [username] column the value [u]. *)
Definition scoped_by (u : Pg.value) (q : Pg.Query) : bool :=
  match Pg.text q with
  | Pg.INSERT_INTO _ cols =>
      existsb (fun c => bool_decide (c = Pg.username)) cols
      && bool_decide (Pg.value_at cols (Pg.parameters q) Pg.username = u)
  | s =>
      existsb
        (fun c : Pg.cond =>
           bool_decide (fst c = Pg.username)
           && bool_decide (nth_error (Pg.parameters q) (snd c - 1) = Some u))
        (Pg.where_of s)
  end.

(** The queries that a call sends, in the order in which it sends them. *)
Definition sent_by {A} (m : Pg.M A) (w : Pg.World) : list Pg.Query :=
  drop (length (Pg.sent w)) (Pg.sent (snd (m w))).

(** Every query that a call sends is scoped by [u], and it sends one. *)
Definition all_scoped {A} (u : Pg.value) (m : Pg.M A) : Prop :=
  forall w,
    Pg.sent (snd (m w)) = Pg.sent w ++ sent_by m w
    /\ sent_by m w <> []
    /\ forallb (scoped_by u) (sent_by m w) = true.

(** The query of the multi-user [deleteTodo]. *)
Definition multi_DELETE_TODO (todoListId todoId : Z) : Pg.Query :=
  {| Pg.text := Pg.DELETE_FROM Pg.todos
                  [(Pg.todolist_id, 1%nat); (Pg.id, 2%nat); (Pg.username, 3%nat)];
     Pg.parameters := [Pg.VInt todoListId; Pg.VInt todoId] |}.

(** The rows of a user, and the rows of everyone else. *)
Definition own_lists (u : option string) (d : Pg.Database)
  : list Pg.TodoListRow :=
  List.filter (list_owned_by u) (Pg.todolists_table d).

Definition own_todos (u : option string) (d : Pg.Database)
  : list Pg.TodoRow :=
  List.filter (todo_owned_by u) (Pg.todos_table d).

Definition other_lists (u : option string) (d : Pg.Database)
  : list Pg.TodoListRow :=
  List.filter (fun r => negb (list_owned_by u r)) (Pg.todolists_table d).

Definition other_todos (u : option string) (d : Pg.Database)
  : list Pg.TodoRow :=
  List.filter (fun r => negb (todo_owned_by u r)) (Pg.todos_table d).

(** The rows of the other users, and the [users] table, are in [d'] what
    they were in [d]. *)
Definition keeps_other_rows (u : option string) (d d' : Pg.Database) : Prop :=
  other_lists u d' = other_lists u d
  /\ other_todos u d' = other_todos u d
  /\ Pg.users_table d' = Pg.users_table d.

(** The same, but for the todos that referred to one of the todo lists
    [gone]: the cascade took them. *)
Definition keeps_other_rows_but_todos_of (gone : list Pg.TodoListRow)
    (u : option string) (d d' : Pg.Database) : Prop :=
  other_lists u d' = other_lists u d
  /\ other_todos u d'
     = List.filter (fun r => negb (Pg.refers_to gone r)) (other_todos u d)
  /\ Pg.users_table d' = Pg.users_table d.

(** A todo list row with another title. *)
Definition pg_retitled (s : string) (r : Pg.TodoListRow) : Pg.TodoListRow :=
  {| Pg.tl_id := Pg.tl_id r; Pg.tl_title := s; Pg.tl_username := Pg.tl_username r |}.

(** The test of [list_owned_by] with its sides swapped, as the
    uniqueness check of the server makes it. *)
Definition list_owned_by_sym (u : option string) (r : Pg.TodoListRow) : bool :=
  Pg.sql_eq (Pg.text_or_null u) (Pg.text_or_null (Pg.tl_username r)).

(** The user, or the store for the single-user schema, has a todo list
    with this title already. *)
Definition has_title (multi : bool) (u : option string) (title_ : string)
    (d : Pg.Database) : bool :=
  existsb
    (fun r => String.eqb title_ (Pg.tl_title r)
              && (if multi then list_owned_by_sym u r else true))
    (Pg.todolists_table d).

(** The next id of [todolists] is not the id of a row yet. *)
Definition next_list_id_free (d : Pg.Database) : bool :=
  negb (existsb (fun r => Pg.tl_id r =? Pg.todolists_id_seq d + 1)
          (Pg.todolists_table d)).

(** No id of [todolists] is ahead of the sequence that gives the ids. *)
Definition list_ids_below_seq (d : Pg.Database) : bool :=
  forallb (fun r => Pg.tl_id r <=? Pg.todolists_id_seq d) (Pg.todolists_table d).

(** The first todo of a session list has this id. *)
Definition heads_with (todoId : Z) (L : SessionPersistence.TodoList) : bool :=
  match SessionPersistence.todos L with
  | [] => false
  | todo :: _ => SessionPersistence.todo_id todo =? todoId
  end.

(** The ids of a session store are in order: no two lists have the same
    id, no two todos of a list have the same id, and no id is ahead of
    the counter that gives the next id. *)
Definition list_in_order (counter : Z) (L : SessionPersistence.TodoList)
  : Prop :=
  SessionPersistence.id L <= counter
  /\ NoDup (map SessionPersistence.todo_id (SessionPersistence.todos L))
  /\ Forall (fun todo => SessionPersistence.todo_id todo <= counter)
       (SessionPersistence.todos L).

Definition ids_in_order (self : SessionPersistence.t) : Prop :=
  NoDup (map SessionPersistence.id (SessionPersistence._todoLists self))
  /\ Forall (list_in_order (SessionPersistence.currentId self))
       (SessionPersistence._todoLists self).

#[global] Instance TodoRow_titled : Titled Pg.TodoRow := Pg.td_title.

(** The order of ORDER BY done, LOWER(title) on todo rows: a row that is
    not done is before a row that is done; between rows of the same state
    the title decides. *)
Definition done_then_title (a b : Pg.TodoRow) : Prop :=
  (Pg.td_done a = false /\ Pg.td_done b = true)
  \/ (Pg.td_done a = Pg.td_done b /\ title_le a b).

(** The todo rows that [sortedTodos] of the two relational stores reads:
    the ones of the list, and of the user in the multi-user store. *)
Definition in_list_of (u : option string) (todoListId : Z) (r : Pg.TodoRow)
  : bool :=
  in_list todoListId r && todo_owned_by u r.

(** A row of [todolists] joined with the rows of [todos] that [p]
    selects, as [loadTodoList] joins them. *)
Definition joined (p : Pg.TodoRow -> bool) (d : Pg.Database)
    (row : Pg.TodoListRow) : Pg.TodoList :=
  {| Pg.list_row := row;
     Pg.list_todos := List.filter p (Pg.todos_table d) |}.

(** The next id of [todos] is not the id of a row yet. *)
Definition next_todo_id_free (d : Pg.Database) : bool :=
  negb (existsb (fun r => Pg.td_id r =? Pg.todos_id_seq d + 1)
          (Pg.todos_table d)).

(** The row that [addedTodo] inserts into [d]. *)
Definition new_todo (u : option string) (todoListId : Z) (todoTitle : string)
    (d : Pg.Database) : Pg.TodoRow :=
  {| Pg.td_id := Pg.todos_id_seq d + 1; Pg.td_title := todoTitle;
     Pg.td_done := false; Pg.td_todolist_id := todoListId;
     Pg.td_username := u |}.

(** A joined todo list with every todo marked done. *)
Definition all_done (L : Pg.TodoList) : Pg.TodoList :=
  {| Pg.list_row := Pg.list_row L;
     Pg.list_todos := map pg_completed (Pg.list_todos L) |}.

(** A joined todo list with another title. *)
Definition retitled_list (s : string) (L : Pg.TodoList) : Pg.TodoList :=
  {| Pg.list_row := pg_retitled s (Pg.list_row L);
     Pg.list_todos := Pg.list_todos L |}.

(** A table of todo lists in which the rows that satisfy [p] have the
    title [s]. *)
Definition retitle_where (p : Pg.TodoListRow -> bool) (s : string)
    (rs : list Pg.TodoListRow) : list Pg.TodoListRow :=
  map (fun r => if p r then pg_retitled s r else r) rs.

(** The user has a row in [users]. *)
Definition known_user (u : string) (d : Pg.Database) : bool :=
  existsb (fun usr => String.eqb (Pg.u_username usr) u) (Pg.users_table d).

(** The request as the two middlewares in front of the routes leave it:
    the flash messages have left the session. *)
Definition without_flash (req : Routes.Request) : Routes.Request :=
  {| Routes.session := Routes.session req; Routes.session_flash := [] |}.

(** The row of [todolists] that the route POST /lists inserts. *)
Definition new_list_row (u : option string) (todoListTitle : string)
    (d : Pg.Database) : Pg.TodoListRow :=
  {| Pg.tl_id := Pg.todolists_id_seq d + 1; Pg.tl_title := todoListTitle;
     Pg.tl_username := u |}.

(** The user has a todo list with this title, as [existsTodoListTitle]
    of the multi-user store tests it. *)
Definition owns_title (u : option string) (todoListTitle : string)
    (d : Pg.Database) : bool :=
  existsb (fun r => String.eqb (Pg.tl_title r) todoListTitle && list_owned_by u r)
    (Pg.todolists_table d).

(** Three requests of one browser, one after the other: a sign-in, the
    creation of a todo list, and the page of the todo lists.  Each request
    finds the session as the one before it left it; the three responses
    are the result. *)
Definition signin_create_lists (bcrypt_compare : string -> string -> bool)
    (body_username body_password body_todoListTitle : string) (b_first : bool)
    (req : Routes.Request)
  : Pg.M (Routes.Response * Routes.Response * Routes.Response) :=
  Pg.bind
    (Routes.POST_users_signin bcrypt_compare body_username body_password req)
    (fun signed =>
       Pg.bind (Routes.POST_lists body_todoListTitle (snd signed))
         (fun created =>
            Pg.bind (Routes.GET_lists b_first (snd created))
              (fun listed => Pg.ret (fst signed, fst created, fst listed)))).


(** ** The order on strings *)

Lemma ascii_compare_lt_trans (a b c : ascii) :
  Ascii.compare a b = Lt -> Ascii.compare b c = Lt -> Ascii.compare a c = Lt.
Proof.
  unfold Ascii.compare. rewrite !N.compare_lt_iff. apply N.lt_trans.
Qed.

Lemma string_compare_lt_trans (a b c : string) :
  String.compare a b = Lt -> String.compare b c = Lt -> String.compare a c = Lt.
Proof.
  revert b c. induction a as [|x a IH]; intros [|y b] [|z c]; simpl; try congruence.
  destruct (Ascii.compare x y) eqn:Hxy; try congruence.
  - apply Ascii.compare_eq_iff in Hxy. subst y.
    destruct (Ascii.compare x z) eqn:Hxz; try congruence. apply IH.
  - destruct (Ascii.compare y z) eqn:Hyz; try congruence.
    + apply Ascii.compare_eq_iff in Hyz. subst z. now rewrite Hxy.
    + now rewrite (ascii_compare_lt_trans _ _ _ Hxy Hyz).
Qed.

Lemma string_compare_gt_lt (a b : string) :
  String.compare a b = Gt <-> String.compare b a = Lt.
Proof.
  rewrite (String.compare_antisym b a).
  destruct (String.compare a b); simpl; split; congruence.
Qed.

Lemma string_compare_not_gt_trans (a b c : string) :
  String.compare a b <> Gt -> String.compare b c <> Gt -> String.compare a c <> Gt.
Proof.
  intros Hab Hbc Hac.
  apply string_compare_gt_lt in Hac.
  destruct (String.compare a b) eqn:Eab; [| |congruence].
  - apply String.compare_eq_iff in Eab. subst b.
    apply string_compare_gt_lt in Hac. congruence.
  - destruct (String.compare b c) eqn:Ebc; [| |congruence].
    + apply String.compare_eq_iff in Ebc. subst c.
      apply string_compare_gt_lt in Hac. congruence.
    + pose proof (string_compare_lt_trans _ _ _ Hac Eab) as Hcb.
      apply string_compare_gt_lt in Hcb. congruence.
Qed.

#[global] Instance title_le_trans {A} `{Titled A} : Transitive (title_le (A := A)).
Proof. intros x y z. unfold title_le. apply string_compare_not_gt_trans. Qed.

(** ** [Array.prototype.sort] sorts and permutes *)

Section SortFacts.
Context {A : Type} (cmp : A -> A -> Z).

Lemma insert_Permutation (x : A) (l : list A) : JS.insert cmp x l ≡ₚ x :: l.
Proof.
  induction l as [|y l IH]; simpl; [reflexivity|].
  destruct (0 <? cmp x y); [|reflexivity].
  rewrite IH. apply Permutation_swap.
Qed.

Lemma sort_Permutation (l : list A) : JS.sort cmp l ≡ₚ l.
Proof.
  induction l as [|x l IH]; simpl; [reflexivity|].
  rewrite insert_Permutation. now rewrite IH.
Qed.

Context (R : relation A) `{!Transitive R}.
Hypothesis after_is_ge : forall x y, 0 < cmp x y -> R y x.
Hypothesis not_after_is_le : forall x y, ~ 0 < cmp x y -> R x y.

Lemma insert_StronglySorted (x : A) (l : list A) :
  StronglySorted R l -> StronglySorted R (JS.insert cmp x l).
Proof.
  induction l as [|y l IH]; intros Hl; simpl.
  - repeat constructor.
  - apply StronglySorted_inv in Hl as [Hl Hy].
    destruct (0 <? cmp x y) eqn:E.
    + apply Z.ltb_lt in E. constructor; [now apply IH|].
      rewrite insert_Permutation. constructor; [now apply after_is_ge|assumption].
    + apply Z.ltb_ge in E.
      assert (R x y) as Hxy by (apply not_after_is_le; lia).
      constructor; [now constructor|].
      constructor; [assumption|].
      eapply Forall_impl; [exact Hy|]. intros z Hz. now transitivity y.
Qed.

Lemma sort_StronglySorted (l : list A) : StronglySorted R (JS.sort cmp l).
Proof.
  induction l as [|x l IH]; simpl; [constructor|].
  now apply insert_StronglySorted.
Qed.

End SortFacts.

Lemma compareByTitle_after {A} `{Titled A} (x y : A) :
  0 < Sort.compareByTitle x y -> title_le y x.
Proof.
  unfold Sort.compareByTitle, title_le, JS.str_lt.
  rewrite (String.compare_antisym (JS.toLowerCase (title_of y))
             (JS.toLowerCase (title_of x))).
  destruct (String.compare (JS.toLowerCase (title_of x))
              (JS.toLowerCase (title_of y))) eqn:E1; simpl; try lia; congruence.
Qed.

Lemma compareByTitle_not_after {A} `{Titled A} (x y : A) :
  ~ 0 < Sort.compareByTitle x y -> title_le x y.
Proof.
  unfold Sort.compareByTitle, title_le, JS.str_lt.
  rewrite (String.compare_antisym (JS.toLowerCase (title_of y))
             (JS.toLowerCase (title_of x))).
  destruct (String.compare (JS.toLowerCase (title_of x))
              (JS.toLowerCase (title_of y))) eqn:E1; simpl; try lia; congruence.
Qed.

Lemma sort_by_title_ascending {A} `{Titled A} (l : list A) :
  title_ascending (JS.sort Sort.compareByTitle l).
Proof.
  apply sort_StronglySorted.
  - apply title_le_trans.
  - apply compareByTitle_after.
  - apply compareByTitle_not_after.
Qed.

(** ** [isDoneTodoList] *)

Lemma done_iff {A} (done_ : A -> bool) (l : list A) :
  (0 <? length l)%nat && forallb done_ l = true
  <-> l <> [] /\ Forall (fun x => done_ x = true) l.
Proof.
  rewrite andb_true_iff, Nat.ltb_lt, forallb_forall, Forall_forall.
  split; intros [Hl Hall]; split; try assumption.
  - intros ->. simpl in Hl. lia.
  - intros x Hx. apply Hall. now apply list_elem_of_In.
  - destruct l; [congruence|simpl; lia].
  - intros x Hx. apply Hall. now apply list_elem_of_In.
Qed.

(** C2.  In each of the three stores, [isDoneTodoList] answers true exactly
    for a list that has at least one todo and whose todos are all done; a
    list without todos is never done. *)
Theorem isDoneTodoList_spec :
  (forall L : SessionPersistence.TodoList,
      (SessionPersistence.isDoneTodoList L = true
       <-> SessionPersistence.todos L <> []
           /\ Forall (fun todo => SessionPersistence.done todo = true)
                (SessionPersistence.todos L))
      /\ (SessionPersistence.todos L = [] ->
          SessionPersistence.isDoneTodoList L = false))
  /\ (forall L : Pg.TodoList,
        (PgSingleUser.isDoneTodoList L = true
         <-> Pg.list_todos L <> []
             /\ Forall (fun todo => Pg.td_done todo = true) (Pg.list_todos L))
        /\ (Pg.list_todos L = [] -> PgSingleUser.isDoneTodoList L = false))
  /\ (forall L : Pg.TodoList,
        (PgMultiUser.isDoneTodoList L = true
         <-> Pg.list_todos L <> []
             /\ Forall (fun todo => Pg.td_done todo = true) (Pg.list_todos L))
        /\ (Pg.list_todos L = [] -> PgMultiUser.isDoneTodoList L = false)).
Proof.
  split; [|split]; intros L; (split; [|intros E]).
  - apply done_iff.
  - unfold SessionPersistence.isDoneTodoList. now rewrite E.
  - apply (done_iff Pg.td_done).
  - unfold PgSingleUser.isDoneTodoList, Pg.isDoneTodoList. now rewrite E.
  - apply (done_iff Pg.td_done).
  - unfold PgMultiUser.isDoneTodoList, Pg.isDoneTodoList. now rewrite E.
Qed.

(** ** [sortTodoItems] and the arrays of its caller *)

Lemma read_insert {A} (h : Sort.arrays A) (r : Sort.ref) (l : list A) :
  Sort.read (<[r := l]> h) r = l.
Proof. unfold Sort.read. now rewrite lookup_insert_eq. Qed.

Lemma read_insert_ne {A} (h : Sort.arrays A) (r r' : Sort.ref) (l : list A) :
  r <> r' -> Sort.read (<[r := l]> h) r' = Sort.read h r'.
Proof. intros Hne. unfold Sort.read. now rewrite lookup_insert_ne. Qed.

(** The call on two different arrays: what it returns and what it leaves
    in each of them. *)
Lemma sortTodoItems_distinct {A} `{Titled A} (undone done_ : Sort.ref)
    (h : Sort.arrays A) :
  undone <> done_ ->
  fst (Sort.sortTodoItems undone done_ h)
  = JS.sort Sort.compareByTitle (Sort.read h undone)
    ++ JS.sort Sort.compareByTitle (Sort.read h done_).
Proof.
  intros Hne. unfold Sort.sortTodoItems. simpl.
  rewrite read_insert.
  rewrite (read_insert_ne _ done_ undone) by congruence.
  rewrite read_insert.
  now rewrite (read_insert_ne _ undone done_) by congruence.
Qed.

(** C8, as the code has it.  [sortTodoItems] sorts each of the two arrays
    it is given in place: after the call each of them holds its former
    items in ascending case-insensitive title order, the array returned is
    a new one made of the undone array followed by the done array, and no
    other array has changed. *)
Theorem sortTodoItems_sorts_in_place {A} `{Titled A}
    (undone done_ : Sort.ref) (h : Sort.arrays A) :
  let result := fst (Sort.sortTodoItems undone done_ h) in
  let h' := snd (Sort.sortTodoItems undone done_ h) in
  result = Sort.read h' undone ++ Sort.read h' done_
  /\ Sort.read h' undone ≡ₚ Sort.read h undone
  /\ title_ascending (Sort.read h' undone)
  /\ Sort.read h' done_ ≡ₚ Sort.read h done_
  /\ title_ascending (Sort.read h' done_)
  /\ (forall r, r <> undone -> r <> done_ -> h' !! r = h !! r).
Proof.
  unfold Sort.sortTodoItems. simpl.
  split; [reflexivity|].
  rewrite read_insert.
  destruct (decide (undone = done_)) as [->|Hne].
  - rewrite !read_insert.
    repeat split.
    + now rewrite !sort_Permutation.
    + apply sort_by_title_ascending.
    + now rewrite !sort_Permutation.
    + apply sort_by_title_ascending.
    + intros r Hr _. now rewrite !lookup_insert_ne by congruence.
  - rewrite (read_insert_ne _ done_ undone) by congruence.
    rewrite read_insert.
    rewrite (read_insert_ne _ undone done_) by congruence.
    repeat split.
    + apply sort_Permutation.
    + apply sort_by_title_ascending.
    + apply sort_Permutation.
    + apply sort_by_title_ascending.
    + intros r Hr Hr'. now rewrite !lookup_insert_ne by congruence.
Qed.

(** C8 as it is stated fails: an undone array that holds the
    titles b, a in this order holds them in the order a, b after the
    call. *)
Lemma sortTodoItems_reorders_its_argument :
  exists (h : Sort.arrays SessionPersistence.Todo) (undone done_ : Sort.ref),
    Sort.read h undone
    = [ {| SessionPersistence.todo_id := 1;
           SessionPersistence.todo_title := "b";
           SessionPersistence.done := false |};
        {| SessionPersistence.todo_id := 2;
           SessionPersistence.todo_title := "a";
           SessionPersistence.done := false |} ]
    /\ Sort.read (snd (Sort.sortTodoItems undone done_ h)) undone
       = [ {| SessionPersistence.todo_id := 2;
              SessionPersistence.todo_title := "a";
              SessionPersistence.done := false |};
           {| SessionPersistence.todo_id := 1;
              SessionPersistence.todo_title := "b";
              SessionPersistence.done := false |} ]
    /\ Sort.read (snd (Sort.sortTodoItems undone done_ h)) undone
       <> Sort.read h undone.
Proof.
  exists {[ 0%nat :=
              [ {| SessionPersistence.todo_id := 1;
                   SessionPersistence.todo_title := "b";
                   SessionPersistence.done := false |};
                {| SessionPersistence.todo_id := 2;
                   SessionPersistence.todo_title := "a";
                   SessionPersistence.done := false |} ];
            1%nat := [] ]}, 0%nat, 1%nat.
  vm_compute. repeat split. discriminate.
Qed.

(** ** The session store: [deleteTodo] *)

(** C4.  The session store's [deleteTodo] does not do what is asked
    of it.  It never hands back a boolean; asked for the first todo of a
    list it removes nothing; and asked for a todo that the list does not
    have it removes the last todo of the list. *)
Theorem session_deleteTodo_defects :
  (forall todoListId todoId self,
      fst (SessionPersistence.deleteTodo todoListId todoId self)
      = SessionPersistence.undefined)
  /\ SessionPersistence._findTodo 1 1 Sample.session_store = Some Sample.milk
  /\ SessionPersistence.deleteTodo 1 1 Sample.session_store
     = (SessionPersistence.undefined, Sample.session_store)
  /\ SessionPersistence._findTodo 1 99 Sample.session_store = None
  /\ SessionPersistence.deleteTodo 1 99 Sample.session_store
     = (SessionPersistence.undefined, Sample.session_store_without_eggs).
Proof.
  split; [|repeat split].
  intros todoListId todoId self. unfold SessionPersistence.deleteTodo.
  destruct (SessionPersistence._findTodoList todoListId self); [|reflexivity].
  now destruct (JS.not_number _).
Qed.

(** ** Assignments through a reference found by [find] *)

Section UpdateFirst.
Context {A : Type} (p : A -> bool) (f : A -> A).

Lemma find_update_first (l : list A) :
  (forall x, p (f x) = p x) ->
  List.find p (SessionPersistence.update_first p f l)
  = option_map f (List.find p l).
Proof.
  intros Hp. induction l as [|x l IH]; simpl; [reflexivity|].
  destruct (p x) eqn:E; simpl.
  - now rewrite Hp, E.
  - now rewrite E.
Qed.

Lemma update_first_twice (l : list A) :
  (forall x, p (f x) = p x) ->
  (forall x, p x = true -> f (f x) = x) ->
  SessionPersistence.update_first p f (SessionPersistence.update_first p f l) = l.
Proof.
  intros Hp Hf. induction l as [|x l IH]; simpl; [reflexivity|].
  destruct (p x) eqn:E; simpl.
  - now rewrite Hp, E, Hf.
  - now rewrite E, IH.
Qed.

Lemma update_first_lookup (l : list A) (x : A) :
  List.find p l = Some x ->
  exists i, l !! i = Some x
            /\ SessionPersistence.update_first p f l = <[i := f x]> l.
Proof.
  induction l as [|y l IH]; simpl; [discriminate|].
  destruct (p y) eqn:E.
  - intros [= ->]. now exists 0%nat.
  - intros Hx. destruct (IH Hx) as (i & Hi & Hu).
    exists (S i). simpl. now rewrite Hu.
Qed.

End UpdateFirst.

(** ** The session store: [toggleTodo] *)

Lemma session_toggled_twice (todo : SessionPersistence.Todo) :
  session_toggled (session_toggled todo) = todo.
Proof. destruct todo as [i s d]. unfold session_toggled. simpl. now rewrite negb_involutive. Qed.

Lemma session_toggleTodo_spec (todoListId todoId : Z)
    (self : SessionPersistence.t) :
  match SessionPersistence._findTodo todoListId todoId self with
  | Some todo =>
      let self' := snd (SessionPersistence.toggleTodo todoListId todoId self) in
      fst (SessionPersistence.toggleTodo todoListId todoId self)
      = JS.Return SessionPersistence.undefined
      /\ SessionPersistence._findTodo todoListId todoId self'
         = Some (session_toggled todo)
      /\ (exists i j L,
             SessionPersistence._todoLists self !! i = Some L
             /\ SessionPersistence.todos L !! j = Some todo
             /\ SessionPersistence._todoLists self'
                = <[i := SessionPersistence.set_todos L
                           (<[j := session_toggled todo]>
                              (SessionPersistence.todos L))]>
                    (SessionPersistence._todoLists self))
      /\ SessionPersistence.currentId self' = SessionPersistence.currentId self
      /\ snd (SessionPersistence.toggleTodo todoListId todoId self') = self
  | None =>
      SessionPersistence.toggleTodo todoListId todoId self
      = (JS.Throw (TypeError_undefined "done"), self)
  end.
Proof.
  destruct self as [lists counter].
  unfold SessionPersistence.toggleTodo.
  destruct (SessionPersistence._findTodo todoListId todoId _) as [todo|] eqn:Hfind;
    [|reflexivity].
  cbn [fst snd].
  set (p := fun l => SessionPersistence.id l =? todoListId).
  set (q := fun todo => SessionPersistence.todo_id todo =? todoId).
  set (f := fun l => SessionPersistence.set_todos l
                       (SessionPersistence.update_first q session_toggled
                          (SessionPersistence.todos l))).
  change (fun todo0 => SessionPersistence.set_done todo0
                         (negb (SessionPersistence.done todo0)))
    with session_toggled.
  fold f.
  assert (Hp : forall x, p (f x) = p x) by reflexivity.
  assert (Hq : forall x, q (session_toggled x) = q x) by reflexivity.
  unfold SessionPersistence._findTodo, SessionPersistence._findTodoList in Hfind.
  simpl in Hfind. fold p in Hfind.
  destruct (List.find p lists) as [L|] eqn:HL; [|discriminate].
  fold q in Hfind.
  unfold SessionPersistence.set_lists.
  cbn [SessionPersistence._todoLists SessionPersistence.currentId].
  assert (Hfind' :
            SessionPersistence._findTodo todoListId todoId
              {| SessionPersistence._todoLists :=
                   SessionPersistence.update_first p f lists;
                 SessionPersistence.currentId := counter |}
            = Some (session_toggled todo)).
  { unfold SessionPersistence._findTodo, SessionPersistence._findTodoList.
    simpl. fold p. rewrite (find_update_first p f lists Hp), HL. simpl.
    fold q. rewrite (find_update_first q session_toggled _ Hq), Hfind.
    reflexivity. }
  split; [reflexivity|]. split; [exact Hfind'|]. split; [|split].
  - destruct (update_first_lookup p f lists L HL) as (i & Hi & Hu).
    destruct (update_first_lookup q session_toggled _ todo Hfind) as (j & Hj & Hv).
    exists i, j, L. split; [exact Hi|]. split; [exact Hj|].
    simpl. rewrite Hu. unfold f. now rewrite Hv.
  - reflexivity.
  - rewrite Hfind'.
    cbn [snd SessionPersistence._todoLists SessionPersistence.currentId].
    rewrite update_first_twice; [reflexivity|exact Hp|].
    intros [i s ts] _. unfold f, SessionPersistence.set_todos. simpl.
    rewrite update_first_twice; [reflexivity|exact Hq|].
    intros x _. apply session_toggled_twice.
Qed.

(** ** Running the statements of the relational stores *)

Lemma with_todos_same (d : Pg.Database) : Pg.with_todos d (Pg.todos_table d) = d.
Proof. now destruct d. Qed.

Lemma count_positive {A} (p : A -> bool) (l : list A) :
  (0 <? length (List.filter p l))%nat = existsb p l.
Proof.
  induction l as [|x l IH]; simpl; [reflexivity|].
  destruct (p x); simpl; [reflexivity|exact IH].
Qed.

Lemma filter_none {A} (p : A -> bool) (l : list A) :
  existsb p l = false -> List.filter p l = [].
Proof.
  induction l as [|x l IH]; simpl; [reflexivity|].
  destruct (p x); simpl; [discriminate|exact IH].
Qed.

Lemma toggle_where_none (p : Pg.TodoRow -> bool) (rs : list Pg.TodoRow) :
  existsb p rs = false -> toggle_where p rs = rs.
Proof.
  unfold toggle_where. induction rs as [|r rs IH]; simpl; [reflexivity|].
  destruct (p r); simpl; [discriminate|]. intros H. now rewrite IH.
Qed.

Lemma pg_toggled_twice (r : Pg.TodoRow) : pg_toggled (pg_toggled r) = r.
Proof. destruct r. unfold pg_toggled. simpl. now rewrite negb_involutive. Qed.

Lemma toggle_where_twice (p : Pg.TodoRow -> bool) (rs : list Pg.TodoRow) :
  (forall r, p (pg_toggled r) = p r) ->
  toggle_where p (toggle_where p rs) = rs.
Proof.
  intros Hp. unfold toggle_where. rewrite map_map.
  induction rs as [|r rs IH]; simpl; [reflexivity|].
  rewrite IH. destruct (p r) eqn:E.
  - now rewrite Hp, E, pg_toggled_twice.
  - now rewrite E.
Qed.

(** When ids are keys, the rows that a predicate on the id selects are at
    most one: flipping them is one update in place. *)
Lemma toggle_where_one (p : Pg.TodoRow -> bool) (key : Z)
    (rs : list Pg.TodoRow) :
  (forall r, p r = true -> Pg.td_id r = key) ->
  NoDup (map Pg.td_id rs) ->
  existsb p rs = true ->
  exists j r, rs !! j = Some r /\ p r = true
              /\ toggle_where p rs = <[j := pg_toggled r]> rs.
Proof.
  intros Hkey. induction rs as [|r rs IH]; simpl; [discriminate|].
  intros Hnd Hex. apply NoDup_cons in Hnd as [Hr Hnd].
  destruct (p r) eqn:E.
  - exists 0%nat, r. split; [reflexivity|]. split; [exact E|].
    simpl. f_equal. apply toggle_where_none.
    apply not_true_is_false. intros Hex'.
    apply existsb_exists in Hex' as (r' & Hin & Hp').
    apply Hr. apply list_elem_of_In. apply in_map_iff. exists r'. split; [|exact Hin].
    now rewrite (Hkey _ Hp'), (Hkey _ E).
  - simpl in Hex. destruct (IH Hnd Hex) as (j & r' & Hj & Hp' & Ht).
    exists (S j), r'. split; [exact Hj|]. split; [exact Hp'|].
    simpl. f_equal. exact Ht.
Qed.

Lemma updated_toggle (w : list Pg.cond) (ps : list Pg.value)
    (rs : list Pg.TodoRow) :
  Pg.updated (t := Pg.todos) (Pg.set_not Pg.done Pg.done) w ps rs
  = Some (toggle_where (Pg.holds (t := Pg.todos) w ps) rs).
Proof.
  induction rs as [|r rs IH]; simpl; [reflexivity|].
  rewrite IH. now destruct (Pg.holds (t := Pg.todos) w ps r).
Qed.

Lemma existsb_pointwise {A} (p q : A -> bool) (l : list A) :
  (forall x, p x = q x) -> existsb p l = existsb q l.
Proof.
  intros H. induction l as [|x l IH]; simpl; [reflexivity|]. now rewrite H, IH.
Qed.

Lemma toggle_where_pointwise (p q : Pg.TodoRow -> bool) (rs : list Pg.TodoRow) :
  (forall r, p r = q r) -> toggle_where p rs = toggle_where q rs.
Proof.
  intros H. unfold toggle_where. apply map_ext. intros r. now rewrite H.
Qed.

Lemma holds_is_todo (todoListId todoId : Z) (r : Pg.TodoRow) :
  Pg.holds (t := Pg.todos) [(Pg.todolist_id, 1%nat); (Pg.id, 2%nat)]
    [Pg.VInt todoListId; Pg.VInt todoId] r
  = is_todo todoListId todoId r.
Proof. unfold Pg.holds, is_todo. simpl. now rewrite andb_true_r. Qed.

Lemma holds_is_todo_of (self : PgMultiUser.t) (todoListId todoId : Z)
    (r : Pg.TodoRow) :
  Pg.holds (t := Pg.todos)
    [(Pg.todolist_id, 1%nat); (Pg.id, 2%nat); (Pg.username, 3%nat)]
    [Pg.VInt todoListId; Pg.VInt todoId; PgMultiUser.this_username self] r
  = is_todo todoListId todoId r
    && todo_owned_by (PgMultiUser.username_ self) r.
Proof.
  unfold Pg.holds, is_todo, todo_owned_by, PgMultiUser.this_username. simpl.
  now rewrite andb_true_r, andb_assoc.
Qed.

(** The single-user [toggleTodo], in full. *)
Lemma single_toggleTodo_run (todoListId todoId : Z) (w : Pg.World) :
  PgSingleUser.toggleTodo todoListId todoId w
  = (JS.Return (existsb (is_todo todoListId todoId)
                  (Pg.todos_table (Pg.database w))),
     {| Pg.database :=
          Pg.with_todos (Pg.database w)
            (toggle_where (is_todo todoListId todoId)
               (Pg.todos_table (Pg.database w)));
        Pg.sent :=
          Pg.sent w
          ++ [ {| Pg.text :=
                    Pg.UPDATE Pg.todos (Pg.set_not Pg.done Pg.done)
                      [(Pg.todolist_id, 1%nat); (Pg.id, 2%nat)];
                  Pg.parameters := [Pg.VInt todoListId; Pg.VInt todoId] |} ] |}).
Proof.
  unfold PgSingleUser.toggleTodo, Pg.bind, Pg.dbQuery, Pg.execute. simpl.
  rewrite updated_toggle. unfold Pg.ret. simpl.
  unfold Pg.count_where. rewrite count_positive.
  rewrite (existsb_pointwise _ _ _ (holds_is_todo todoListId todoId)).
  now rewrite (toggle_where_pointwise _ _ _ (holds_is_todo todoListId todoId)).
Qed.

(** The multi-user [toggleTodo], in full. *)
Lemma multi_toggleTodo_run (self : PgMultiUser.t) (todoListId todoId : Z)
    (w : Pg.World) :
  PgMultiUser.toggleTodo self todoListId todoId w
  = (JS.Return (existsb (is_todo_of (PgMultiUser.username_ self) todoListId todoId)
                  (Pg.todos_table (Pg.database w))),
     {| Pg.database :=
          Pg.with_todos (Pg.database w)
            (toggle_where (is_todo_of (PgMultiUser.username_ self) todoListId todoId)
               (Pg.todos_table (Pg.database w)));
        Pg.sent :=
          Pg.sent w
          ++ [ {| Pg.text :=
                    Pg.UPDATE Pg.todos (Pg.set_not Pg.done Pg.done)
                      [(Pg.todolist_id, 1%nat); (Pg.id, 2%nat);
                       (Pg.username, 3%nat)];
                  Pg.parameters :=
                    [Pg.VInt todoListId; Pg.VInt todoId;
                     PgMultiUser.this_username self] |} ] |}).
Proof.
  unfold PgMultiUser.toggleTodo, Pg.bind, Pg.dbQuery, Pg.execute. simpl.
  rewrite updated_toggle. unfold Pg.ret. simpl.
  unfold Pg.count_where. rewrite count_positive.
  rewrite (existsb_pointwise _ _ _ (holds_is_todo_of self todoListId todoId)).
  now rewrite (toggle_where_pointwise _ _ _ (holds_is_todo_of self todoListId todoId)).
Qed.

Lemma is_todo_key (todoListId todoId : Z) (r : Pg.TodoRow) :
  is_todo todoListId todoId r = true -> Pg.td_id r = todoId.
Proof. unfold is_todo. rewrite andb_true_iff, !Z.eqb_eq. tauto. Qed.

Lemma flips_once_intro (p : Pg.TodoRow -> bool) (key : Z) (d : Pg.Database) :
  (forall r, p (pg_toggled r) = p r) ->
  (forall r, p r = true -> Pg.td_id r = key) ->
  flips_once p d (JS.Return (existsb p (Pg.todos_table d)))
    (Pg.with_todos d (toggle_where p (Pg.todos_table d)))
    (Pg.with_todos
       (Pg.with_todos d (toggle_where p (Pg.todos_table d)))
       (toggle_where p (toggle_where p (Pg.todos_table d)))).
Proof.
  intros Hp Hkey. unfold flips_once.
  destruct (existsb p (Pg.todos_table d)) eqn:E.
  - split; [reflexivity|]. split; [reflexivity|]. split.
    + intros Hnd.
      destruct (toggle_where_one p key _ Hkey Hnd E) as (j & r & Hj & Hr & Ht).
      exists j, r. now rewrite <- Ht.
    + rewrite toggle_where_twice by exact Hp. now destruct d.
  - split; [reflexivity|]. rewrite toggle_where_none by exact E.
    apply with_todos_same.
Qed.

(** C7.  In each of the three stores, [toggleTodo] on a todo that exists
    flips the [done] flag of that todo and changes nothing else, a second
    call restores the state, and a call on ids that name no todo reports
    a failure and leaves every todo as it was.  The session store reports
    the failure by throwing a type error; the relational stores answer
    [false]. *)
Theorem toggleTodo_flips_once :
  (forall todoListId todoId self,
      match SessionPersistence._findTodo todoListId todoId self with
      | Some todo =>
          let self' := snd (SessionPersistence.toggleTodo todoListId todoId self) in
          fst (SessionPersistence.toggleTodo todoListId todoId self)
          = JS.Return SessionPersistence.undefined
          /\ SessionPersistence._findTodo todoListId todoId self'
             = Some (session_toggled todo)
          /\ (exists i j L,
                 SessionPersistence._todoLists self !! i = Some L
                 /\ SessionPersistence.todos L !! j = Some todo
                 /\ SessionPersistence._todoLists self'
                    = <[i := SessionPersistence.set_todos L
                               (<[j := session_toggled todo]>
                                  (SessionPersistence.todos L))]>
                        (SessionPersistence._todoLists self))
          /\ SessionPersistence.currentId self' = SessionPersistence.currentId self
          /\ snd (SessionPersistence.toggleTodo todoListId todoId self') = self
      | None =>
          SessionPersistence.toggleTodo todoListId todoId self
          = (JS.Throw (TypeError_undefined "done"), self)
      end)
  /\ (forall todoListId todoId w,
         let w' := snd (PgSingleUser.toggleTodo todoListId todoId w) in
         let w'' := snd (PgSingleUser.toggleTodo todoListId todoId w') in
         flips_once (is_todo todoListId todoId) (Pg.database w)
           (fst (PgSingleUser.toggleTodo todoListId todoId w))
           (Pg.database w') (Pg.database w''))
  /\ (forall self todoListId todoId w,
         let w' := snd (PgMultiUser.toggleTodo self todoListId todoId w) in
         let w'' := snd (PgMultiUser.toggleTodo self todoListId todoId w') in
         flips_once (is_todo_of (PgMultiUser.username_ self) todoListId todoId)
           (Pg.database w)
           (fst (PgMultiUser.toggleTodo self todoListId todoId w))
           (Pg.database w') (Pg.database w'')).
Proof.
  split; [|split].
  - apply session_toggleTodo_spec.
  - intros todoListId todoId w. cbv zeta.
    rewrite single_toggleTodo_run. cbn [fst snd].
    rewrite single_toggleTodo_run. cbn [fst snd Pg.database].
    apply (flips_once_intro _ todoId); [reflexivity|apply is_todo_key].
  - intros self todoListId todoId w. cbv zeta.
    rewrite multi_toggleTodo_run. cbn [fst snd].
    rewrite multi_toggleTodo_run. cbn [fst snd Pg.database].
    apply (flips_once_intro _ todoId); [reflexivity|].
    intros r Hr. unfold is_todo_of in Hr. apply andb_true_iff in Hr as [Hr _].
    now apply is_todo_key in Hr.
Qed.

(** ** [sortedTodoLists] *)

Lemma filter_Permutation_bool {A} (p : A -> bool) (l l' : list A) :
  l ≡ₚ l' -> List.filter p l ≡ₚ List.filter p l'.
Proof.
  induction 1 as [|x l l' _ IH|x y l|l l' l'' _ IH1 _ IH2]; simpl.
  - reflexivity.
  - destruct (p x); [now rewrite IH|exact IH].
  - destruct (p x), (p y); try reflexivity. apply Permutation_swap.
  - now rewrite IH1.
Qed.

Lemma filter_StronglySorted {A} (R : relation A) (p : A -> bool) (l : list A) :
  StronglySorted R l -> StronglySorted R (List.filter p l).
Proof.
  induction 1 as [|x l Hl IH Hx]; simpl; [constructor|].
  destruct (p x); [|exact IH].
  constructor; [exact IH|].
  apply Forall_forall. intros y Hy.
  apply list_elem_of_In, filter_In in Hy as [Hy _].
  rewrite Forall_forall in Hx. apply Hx. now apply list_elem_of_In.
Qed.

Lemma map_title_ascending {A B} `{Titled A} `{Titled B} (f : A -> B)
    (l : list A) :
  (forall x, title_of (f x) = title_of x) ->
  title_ascending l -> title_ascending (map f l).
Proof.
  intros Hf. unfold title_ascending.
  induction 1 as [|x l Hl IH Hx]; simpl; constructor; [exact IH|].
  apply Forall_forall. intros y Hy.
  apply list_elem_of_In, in_map_iff in Hy as (z & <- & Hz).
  rewrite Forall_forall in Hx. apply list_elem_of_In in Hz.
  specialize (Hx z Hz). unfold title_le in *. now rewrite !Hf.
Qed.

(** The loop of [_partitionTodoLists] is a partition that keeps the order. *)
Lemma _partitionTodoLists_filter (todoLists : list Pg.TodoList) :
  Pg._partitionTodoLists todoLists
  = List.filter (fun l => negb (Pg.isDoneTodoList l)) todoLists
    ++ List.filter Pg.isDoneTodoList todoLists.
Proof.
  unfold Pg._partitionTodoLists.
  assert (H : forall (l acc1 acc2 : list Pg.TodoList),
             fold_left
               (fun (acc : list Pg.TodoList * list Pg.TodoList) todoList =>
                  if Pg.isDoneTodoList todoList
                  then (fst acc, snd acc ++ [todoList])
                  else (fst acc ++ [todoList], snd acc))
               l (acc1, acc2)
             = (acc1 ++ List.filter (fun l => negb (Pg.isDoneTodoList l)) l,
                acc2 ++ List.filter Pg.isDoneTodoList l)).
  { induction l as [|x l IH]; intros acc1 acc2; simpl.
    - now rewrite !app_nil_r.
    - destruct (Pg.isDoneTodoList x); simpl; rewrite IH; simpl;
        now rewrite <- ?app_assoc. }
  now rewrite H.
Qed.

(** ORDER BY LOWER(title) compares as [compareByTitle] does. *)
Lemma order_by_lower_title (a b : Pg.TodoListRow) :
  Pg.order_cmp (t := Pg.todolists) [Pg.by_lower Pg.title] a b
  = Sort.compareByTitle a b.
Proof.
  unfold Sort.compareByTitle. simpl. unfold title_of, TodoListRow_titled.
  destruct (JS.str_lt (JS.toLowerCase (Pg.tl_title a))
              (JS.toLowerCase (Pg.tl_title b))); [reflexivity|].
  now destruct (JS.str_lt (JS.toLowerCase (Pg.tl_title b))
                  (JS.toLowerCase (Pg.tl_title a))).
Qed.

Lemma sort_pointwise {A} (c c' : A -> A -> Z) (l : list A) :
  (forall x y, c x y = c' x y) -> JS.sort c l = JS.sort c' l.
Proof.
  intros H. induction l as [|x l IH]; simpl; [reflexivity|].
  rewrite IH. generalize (JS.sort c' l). intros s.
  induction s as [|y s IHs]; simpl; [reflexivity|].
  now rewrite H, IHs.
Qed.

Lemma ordered_by_lower_title (rs : list Pg.TodoListRow) :
  Pg.ordered (t := Pg.todolists) [Pg.by_lower Pg.title] rs
  = JS.sort Sort.compareByTitle rs.
Proof. unfold Pg.ordered. apply sort_pointwise, order_by_lower_title. Qed.

(** What [undone_then_done] asks of a partition of a sorted permutation. *)
Lemma partition_of_sorted {A} `{Titled A} (is_done : A -> bool)
    (held sorted : list A) :
  sorted ≡ₚ held -> title_ascending sorted ->
  undone_then_done is_done held
    (List.filter (fun x => negb (is_done x)) sorted ++ List.filter is_done sorted).
Proof.
  intros Hperm Hsorted.
  exists (List.filter (fun x => negb (is_done x)) sorted),
    (List.filter is_done sorted).
  split; [reflexivity|].
  split; [now apply filter_Permutation_bool|].
  split; [now apply filter_Permutation_bool|].
  split; now apply filter_StronglySorted.
Qed.

Lemma session_sortedTodoLists_run (self : SessionPersistence.t) :
  SessionPersistence.sortedTodoLists self
  = (JS.sort Sort.compareByTitle
       (List.filter (fun l => negb (SessionPersistence.isDoneTodoList l))
          (SessionPersistence._todoLists self))
     ++ JS.sort Sort.compareByTitle
          (List.filter SessionPersistence.isDoneTodoList
             (SessionPersistence._todoLists self)),
     self).
Proof.
  unfold SessionPersistence.sortedTodoLists, SessionPersistence.deepCopy.
  rewrite sortTodoItems_distinct by discriminate. reflexivity.
Qed.

Lemma session_sortedTodoLists_spec (self : SessionPersistence.t) :
  undone_then_done SessionPersistence.isDoneTodoList
    (SessionPersistence._todoLists self)
    (fst (SessionPersistence.sortedTodoLists self))
  /\ snd (SessionPersistence.sortedTodoLists self) = self.
Proof.
  rewrite session_sortedTodoLists_run. split; [|reflexivity].
  eexists _, _. split; [reflexivity|].
  split; [apply sort_Permutation|]. split; [apply sort_Permutation|].
  split; apply sort_by_title_ascending.
Qed.

(** A SELECT that is given the parameters it names answers with the rows
    it selects and leaves the database as it is. *)
Lemma dbQuery_select (t : Pg.table) (wh : list Pg.cond) (o : list Pg.order)
    (ps : list Pg.value) (w : Pg.World) :
  length ps = Pg.arity (Pg.SELECT_FROM t wh o) ->
  Pg.dbQuery (Pg.SELECT_FROM t wh o) ps w
  = (JS.Return (Pg.select wh o ps (Pg.database w)),
     {| Pg.database := Pg.database w;
        Pg.sent := Pg.sent w
                   ++ [ {| Pg.text := Pg.SELECT_FROM t wh o;
                           Pg.parameters := ps |} ] |}).
Proof.
  intros Hlen. unfold Pg.dbQuery, Pg.execute.
  rewrite Hlen, Nat.eqb_refl. reflexivity.
Qed.

Lemma Promise_all_selects (b_first : bool) (t1 t2 : Pg.table)
    (wh1 wh2 : list Pg.cond) (o1 o2 : list Pg.order) (ps1 ps2 : list Pg.value)
    (w : Pg.World) :
  length ps1 = Pg.arity (Pg.SELECT_FROM t1 wh1 o1) ->
  length ps2 = Pg.arity (Pg.SELECT_FROM t2 wh2 o2) ->
  exists log,
    Pg.Promise_all b_first (Pg.dbQuery (Pg.SELECT_FROM t1 wh1 o1) ps1)
      (Pg.dbQuery (Pg.SELECT_FROM t2 wh2 o2) ps2) w
    = (JS.Return (Pg.select wh1 o1 ps1 (Pg.database w),
                  Pg.select wh2 o2 ps2 (Pg.database w)),
       {| Pg.database := Pg.database w; Pg.sent := log |}).
Proof.
  intros H1 H2. unfold Pg.Promise_all.
  destruct b_first; rewrite ?dbQuery_select by assumption;
    cbn [Pg.database]; rewrite ?dbQuery_select by assumption;
    eexists; reflexivity.
Qed.

Lemma filter_all {A} (p : A -> bool) (l : list A) :
  (forall x, p x = true) -> List.filter p l = l.
Proof.
  intros H. induction l as [|x l IH]; simpl; [reflexivity|]. now rewrite H, IH.
Qed.

Lemma filter_pointwise {A} (p q : A -> bool) (l : list A) :
  (forall x, p x = q x) -> List.filter p l = List.filter q l.
Proof.
  intros H. induction l as [|x l IH]; simpl; [reflexivity|]. now rewrite H, IH.
Qed.

Lemma holds_in_list (todoListId : Z) (r : Pg.TodoRow) :
  Pg.holds (t := Pg.todos) [(Pg.todolist_id, 1%nat)] [Pg.VInt todoListId] r
  = in_list todoListId r.
Proof. unfold Pg.holds, in_list. simpl. now rewrite andb_true_r. Qed.

Lemma holds_todo_owned (self : PgMultiUser.t) (r : Pg.TodoRow) :
  Pg.holds (t := Pg.todos) [(Pg.username, 1%nat)]
    [PgMultiUser.this_username self] r
  = todo_owned_by (PgMultiUser.username_ self) r.
Proof. unfold Pg.holds, todo_owned_by. simpl. now rewrite andb_true_r. Qed.

Lemma holds_list_owned (self : PgMultiUser.t) (r : Pg.TodoListRow) :
  Pg.holds (t := Pg.todolists) [(Pg.username, 1%nat)]
    [PgMultiUser.this_username self] r
  = list_owned_by (PgMultiUser.username_ self) r.
Proof. unfold Pg.holds, list_owned_by. simpl. now rewrite andb_true_r. Qed.

(** The loop of the single-user [sortedTodoLists]. *)
Lemma with_todos_of_run (rs : list Pg.TodoListRow) (w : Pg.World) :
  exists log,
    PgSingleUser.with_todos_of rs w
    = (JS.Return
         (map (fun row =>
                 {| Pg.list_row := row;
                    Pg.list_todos :=
                      List.filter (in_list (Pg.tl_id row))
                        (Pg.todos_table (Pg.database w)) |}) rs),
       {| Pg.database := Pg.database w; Pg.sent := log |}).
Proof.
  revert w. induction rs as [|r rs IH]; intros w; simpl.
  - exists (Pg.sent w). now destruct w.
  - unfold Pg.bind at 1. rewrite dbQuery_select by reflexivity.
    unfold Pg.bind at 1.
    match goal with |- context [PgSingleUser.with_todos_of rs ?w'] =>
      destruct (IH w') as (log & ->) end.
    exists log. unfold Pg.ret. cbn [Pg.database]. do 2 f_equal.
    unfold Pg.select. cbn [Pg.rows Pg.ordered Pg.rows_of Pg.table_of].
    f_equal. f_equal. apply filter_pointwise, holds_in_list.
Qed.

Lemma single_sortedTodoLists_run (w : Pg.World) :
  exists log,
    PgSingleUser.sortedTodoLists w
    = (JS.Return
         (Pg._partitionTodoLists
            (map (fun row =>
                    {| Pg.list_row := row;
                       Pg.list_todos :=
                         List.filter (in_list (Pg.tl_id row))
                           (Pg.todos_table (Pg.database w)) |})
               (JS.sort Sort.compareByTitle
                  (Pg.todolists_table (Pg.database w))))),
       {| Pg.database := Pg.database w; Pg.sent := log |}).
Proof.
  unfold PgSingleUser.sortedTodoLists.
  unfold Pg.bind at 1. rewrite dbQuery_select by reflexivity.
  unfold Pg.bind at 1.
  match goal with |- context [PgSingleUser.with_todos_of ?rs ?w'] =>
    destruct (with_todos_of_run rs w') as (log & ->) end.
  exists log. unfold Pg.ret. cbn [Pg.database]. do 4 f_equal.
  unfold Pg.select. cbn [Pg.rows Pg.rows_of Pg.table_of].
  rewrite ordered_by_lower_title. f_equal.
  now apply filter_all.
Qed.

Lemma multi_sortedTodoLists_run (self : PgMultiUser.t) (b_first : bool)
    (w : Pg.World) :
  exists log,
    PgMultiUser.sortedTodoLists self b_first w
    = (JS.Return
         (Pg._partitionTodoLists
            (map (fun row =>
                    {| Pg.list_row := row;
                       Pg.list_todos :=
                         List.filter (in_list (Pg.tl_id row))
                           (List.filter (todo_owned_by (PgMultiUser.username_ self))
                              (Pg.todos_table (Pg.database w))) |})
               (JS.sort Sort.compareByTitle
                  (List.filter (list_owned_by (PgMultiUser.username_ self))
                     (Pg.todolists_table (Pg.database w)))))),
       {| Pg.database := Pg.database w; Pg.sent := log |}).
Proof.
  unfold PgMultiUser.sortedTodoLists. unfold Pg.bind.
  match goal with |- context [Pg.Promise_all b_first (Pg.dbQuery (Pg.SELECT_FROM ?t1 ?w1 ?o1) ?p1)
                                (Pg.dbQuery (Pg.SELECT_FROM ?t2 ?w2 ?o2) ?p2) w] =>
    destruct (Promise_all_selects b_first t1 t2 w1 w2 o1 o2 p1 p2 w
                eq_refl eq_refl) as (log & ->) end.
  exists log. unfold Pg.ret. cbn [fst snd]. do 2 f_equal.
  unfold Pg.select. cbn [Pg.rows Pg.rows_of Pg.table_of Pg.ordered].
  change (JS.sort (Pg.order_cmp (t := Pg.todolists) [Pg.by_lower Pg.title]))
    with (Pg.ordered (t := Pg.todolists) [Pg.by_lower Pg.title]).
  rewrite ordered_by_lower_title.
  rewrite (filter_pointwise _ _ _ (holds_list_owned self)).
  rewrite (filter_pointwise _ _ _ (holds_todo_owned self)).
  reflexivity.
Qed.

Lemma held_partition_spec (join : Pg.TodoListRow -> Pg.TodoList)
    (rs : list Pg.TodoListRow) :
  (forall row, Pg.list_row (join row) = row) ->
  undone_then_done Pg.isDoneTodoList (map join rs)
    (Pg._partitionTodoLists (map join (JS.sort Sort.compareByTitle rs))).
Proof.
  intros Hjoin. rewrite _partitionTodoLists_filter.
  apply partition_of_sorted.
  - apply Permutation_map, sort_Permutation.
  - apply map_title_ascending; [|apply sort_by_title_ascending].
    intros row. unfold title_of, Pg.TodoList_titled, TodoListRow_titled.
    now rewrite Hjoin.
Qed.

(** C3.  In each store [sortedTodoLists] yields exactly the lists that are
    not done, in ascending case-insensitive title order, followed by
    exactly the done lists in the same order; the call changes nothing in
    the store, and a second call yields the same sequence. *)
Theorem sortedTodoLists_undone_then_done :
  (forall self,
      undone_then_done SessionPersistence.isDoneTodoList
        (SessionPersistence._todoLists self)
        (fst (SessionPersistence.sortedTodoLists self))
      /\ snd (SessionPersistence.sortedTodoLists self) = self
      /\ fst (SessionPersistence.sortedTodoLists
                (snd (SessionPersistence.sortedTodoLists self)))
         = fst (SessionPersistence.sortedTodoLists self))
  /\ (forall w,
         exists result,
           fst (PgSingleUser.sortedTodoLists w) = JS.Return result
           /\ undone_then_done Pg.isDoneTodoList
                (single_held (Pg.database w)) result
           /\ Pg.database (snd (PgSingleUser.sortedTodoLists w)) = Pg.database w
           /\ fst (PgSingleUser.sortedTodoLists
                     (snd (PgSingleUser.sortedTodoLists w)))
              = JS.Return result)
  /\ (forall self b_first b_first' w,
         exists result,
           fst (PgMultiUser.sortedTodoLists self b_first w) = JS.Return result
           /\ undone_then_done Pg.isDoneTodoList
                (multi_held (PgMultiUser.username_ self) (Pg.database w)) result
           /\ Pg.database (snd (PgMultiUser.sortedTodoLists self b_first w))
              = Pg.database w
           /\ fst (PgMultiUser.sortedTodoLists self b_first'
                     (snd (PgMultiUser.sortedTodoLists self b_first w)))
              = JS.Return result).
Proof.
  split; [|split].
  - intros self. destruct (session_sortedTodoLists_spec self) as [H1 H2].
    split; [exact H1|]. split; [exact H2|]. now rewrite H2.
  - intros w. destruct (single_sortedTodoLists_run w) as (log & Hrun).
    rewrite Hrun. cbn [fst snd Pg.database].
    eexists. split; [reflexivity|].
    split; [apply (held_partition_spec _ (Pg.todolists_table (Pg.database w)));
            reflexivity|].
    split; [reflexivity|].
    match goal with |- context [PgSingleUser.sortedTodoLists ?w'] =>
      destruct (single_sortedTodoLists_run w') as (log' & ->) end.
    reflexivity.
  - intros self b_first b_first' w.
    destruct (multi_sortedTodoLists_run self b_first w) as (log & Hrun).
    rewrite Hrun. cbn [fst snd Pg.database].
    eexists. split; [reflexivity|].
    split; [apply (held_partition_spec _
                     (List.filter (list_owned_by (PgMultiUser.username_ self))
                        (Pg.todolists_table (Pg.database w))));
            reflexivity|].
    split; [reflexivity|].
    match goal with |- context [PgMultiUser.sortedTodoLists self b_first' ?w'] =>
      destruct (multi_sortedTodoLists_run self b_first' w') as (log' & ->) end.
    reflexivity.
Qed.

(** ** [deleteTodoList] *)

Lemma dbQuery_delete_todolists (wh : list Pg.cond) (ps : list Pg.value)
    (w : Pg.World) :
  length ps = Pg.arity (Pg.DELETE_FROM Pg.todolists wh) ->
  Pg.dbQuery (Pg.DELETE_FROM Pg.todolists wh) ps w
  = (JS.Return
       (Pg.no_rows Pg.todolists
          (Pg.count_where (t := Pg.todolists) wh ps
             (Pg.todolists_table (Pg.database w)))),
     {| Pg.database := Pg.delete_todolists wh ps (Pg.database w);
        Pg.sent := Pg.sent w
                   ++ [ {| Pg.text := Pg.DELETE_FROM Pg.todolists wh;
                           Pg.parameters := ps |} ] |}).
Proof.
  intros Hlen. unfold Pg.dbQuery, Pg.execute.
  rewrite Hlen, Nat.eqb_refl. reflexivity.
Qed.

Lemma holds_is_list (todoListId : Z) (r : Pg.TodoListRow) :
  Pg.holds (t := Pg.todolists) [(Pg.id, 1%nat)] [Pg.VInt todoListId] r
  = is_list todoListId r.
Proof. unfold Pg.holds, is_list. simpl. now rewrite andb_true_r. Qed.

Lemma holds_is_list_of (self : PgMultiUser.t) (todoListId : Z)
    (r : Pg.TodoListRow) :
  Pg.holds (t := Pg.todolists) [(Pg.id, 1%nat); (Pg.username, 2%nat)]
    [Pg.VInt todoListId; PgMultiUser.this_username self] r
  = is_list_of (PgMultiUser.username_ self) todoListId r.
Proof.
  unfold Pg.holds, is_list_of, is_list, list_owned_by. simpl.
  now rewrite andb_true_r.
Qed.

Lemma holds_in_list_of (self : PgMultiUser.t) (todoListId : Z)
    (r : Pg.TodoRow) :
  Pg.holds (t := Pg.todos) [(Pg.todolist_id, 1%nat); (Pg.username, 2%nat)]
    [Pg.VInt todoListId; PgMultiUser.this_username self] r
  = in_list todoListId r && todo_owned_by (PgMultiUser.username_ self) r.
Proof.
  unfold Pg.holds, in_list, todo_owned_by. simpl. now rewrite andb_true_r.
Qed.

(** Once the rows that [p] selects are gone, [p] selects nothing. *)
Lemma filter_remaining_none {A} (p : A -> bool) (l : list A) :
  List.filter p (List.filter (fun x => negb (p x)) l) = [].
Proof.
  induction l as [|x l IH]; simpl; [reflexivity|].
  destruct (p x) eqn:E; simpl; [exact IH|now rewrite E].
Qed.

(** The cascade: when a list with the id [todoListId] goes, no todo of
    that list stays. *)
Lemma cascade_leaves_none (gone : list Pg.TodoListRow) (todoListId : Z)
    (q : Pg.TodoRow -> bool) (todos : list Pg.TodoRow) :
  existsb (is_list todoListId) gone = true ->
  List.filter (fun r => in_list todoListId r && q r)
    (List.filter (fun r => negb (Pg.refers_to gone r)) todos) = [].
Proof.
  intros Hgone. induction todos as [|r todos IH]; simpl; [reflexivity|].
  destruct (Pg.refers_to gone r) eqn:E; simpl; [exact IH|].
  destruct (in_list todoListId r) eqn:Ein; simpl; [|exact IH].
  exfalso. unfold in_list in Ein. apply Z.eqb_eq in Ein.
  apply existsb_exists in Hgone as (l & Hl & Hid).
  unfold is_list in Hid. apply Z.eqb_eq in Hid.
  assert (Pg.refers_to gone r = true) as Hr.
  { unfold Pg.refers_to. apply existsb_exists. exists l. split; [exact Hl|].
    apply Z.eqb_eq. congruence. }
  congruence.
Qed.

Lemma multi_deleteTodoList_run (self : PgMultiUser.t) (todoListId : Z)
    (w : Pg.World) :
  PgMultiUser.deleteTodoList self todoListId w
  = (JS.Return
       (existsb (is_list_of (PgMultiUser.username_ self) todoListId)
          (Pg.todolists_table (Pg.database w))),
     {| Pg.database :=
          Pg.delete_todolists [(Pg.id, 1%nat); (Pg.username, 2%nat)]
            [Pg.VInt todoListId; PgMultiUser.this_username self]
            (Pg.database w);
        Pg.sent := Pg.sent w
                   ++ [multi_DELETE_TODO_LIST self todoListId;
                       multi_CHECK_TODOS self todoListId] |}).
Proof.
  unfold PgMultiUser.deleteTodoList.
  unfold Pg.bind at 1. rewrite dbQuery_delete_todolists by reflexivity.
  unfold Pg.bind at 1. rewrite dbQuery_select by reflexivity.
  unfold Pg.ret. cbn [Pg.database Pg.sent Pg.rowCount Pg.no_rows].
  rewrite <- app_assoc. cbn [app]. f_equal. f_equal.
  unfold Pg.count_where. rewrite count_positive.
  rewrite (existsb_pointwise _ _ _ (holds_is_list_of self todoListId)).
  destruct (existsb _ _) eqn:E; [|reflexivity].
  unfold Pg.select, Pg.delete_todolists.
  cbn [Pg.rowCount Pg.ordered Pg.rows_of Pg.table_of Pg.todos_table
         Pg.with_todos Pg.with_todolists].
  rewrite (filter_pointwise _ _ _ (holds_in_list_of self todoListId)).
  rewrite cascade_leaves_none; [reflexivity|].
  rewrite (filter_pointwise _ _ _ (holds_is_list_of self todoListId)).
  apply existsb_exists in E as (l & Hl & Hp).
  apply existsb_exists. exists l. split.
  - apply filter_In. now split.
  - unfold is_list_of in Hp. now apply andb_true_iff in Hp as [Hp _].
Qed.

Lemma single_deleteTodoList_run (todoListId : Z) (w : Pg.World) :
  PgSingleUser.deleteTodoList todoListId w
  = (JS.Return (existsb (is_list todoListId)
                  (Pg.todolists_table (Pg.database w))),
     {| Pg.database :=
          Pg.delete_todolists [(Pg.id, 1%nat)] [Pg.VInt todoListId]
            (Pg.delete_todolists [(Pg.id, 1%nat)] [Pg.VInt todoListId]
               (Pg.database w));
        Pg.sent := Pg.sent w
                   ++ [single_DELETE_TODO_LIST todoListId;
                       single_DELETE_TODO_LIST todoListId] |}).
Proof.
  unfold PgSingleUser.deleteTodoList.
  unfold Pg.bind at 1. rewrite dbQuery_delete_todolists by reflexivity.
  unfold Pg.bind at 1. rewrite dbQuery_delete_todolists by reflexivity.
  unfold Pg.ret. cbn [Pg.database Pg.sent Pg.rowCount Pg.no_rows].
  rewrite <- app_assoc. cbn [app]. f_equal. f_equal.
  unfold Pg.count_where. rewrite count_positive.
  rewrite (existsb_pointwise _ _ _ (holds_is_list todoListId)).
  unfold Pg.delete_todolists at 1.
  cbn [Pg.todolists_table Pg.with_todos Pg.with_todolists].
  unfold Pg.remaining. rewrite filter_remaining_none.
  now rewrite andb_true_r.
Qed.

(** C5.  The multi-user [deleteTodoList] does what is asked of it: it
    sends the DELETE, then the SELECT that counts the todos of the list
    that remain, and answers true exactly when the DELETE removed a row
    and the SELECT found none, which is the case exactly when the user
    had a list with this id.  The single-user [deleteTodoList] does not:
    the second query it sends is the DELETE again, and it sends no SELECT
    at all. *)
Theorem deleteTodoList_confirmation :
  (forall self todoListId w,
      let out := PgMultiUser.deleteTodoList self todoListId w in
      let u := PgMultiUser.username_ self in
      let deleted :=
        length (List.filter (is_list_of u todoListId)
                  (Pg.todolists_table (Pg.database w))) in
      let remain :=
        length (List.filter
                  (fun r => in_list todoListId r && todo_owned_by u r)
                  (Pg.todos_table (Pg.database (snd out)))) in
      Pg.sent (snd out)
      = Pg.sent w ++ [multi_DELETE_TODO_LIST self todoListId;
                      multi_CHECK_TODOS self todoListId]
      /\ is_select (multi_CHECK_TODOS self todoListId) = true
      /\ fst out = JS.Return ((0 <? deleted)%nat && (remain =? 0)%nat)
      /\ fst out = JS.Return (existsb (is_list_of u todoListId)
                                (Pg.todolists_table (Pg.database w))))
  /\ (forall todoListId w,
         let out := PgSingleUser.deleteTodoList todoListId w in
         Pg.sent (snd out)
         = Pg.sent w ++ [single_DELETE_TODO_LIST todoListId;
                         single_DELETE_TODO_LIST todoListId]
         /\ is_select (single_DELETE_TODO_LIST todoListId) = false
         /\ fst out = JS.Return (existsb (is_list todoListId)
                                   (Pg.todolists_table (Pg.database w)))).
Proof.
  split.
  - intros self todoListId w. cbv zeta.
    rewrite multi_deleteTodoList_run. cbn [fst snd Pg.sent Pg.database].
    split; [reflexivity|]. split; [reflexivity|]. split; [|reflexivity].
    f_equal. rewrite count_positive.
    destruct (existsb _ _) eqn:E; [|reflexivity].
    unfold Pg.delete_todolists. cbn [Pg.todos_table Pg.with_todos].
    rewrite cascade_leaves_none; [reflexivity|].
    rewrite (filter_pointwise _ _ _ (holds_is_list_of self todoListId)).
    apply existsb_exists in E as (l & Hl & Hp).
    apply existsb_exists. exists l. split.
    + apply filter_In. now split.
    + unfold is_list_of in Hp. now apply andb_true_iff in Hp as [Hp _].
  - intros todoListId w. cbv zeta.
    rewrite single_deleteTodoList_run. cbn [fst snd Pg.sent].
    repeat split.
Qed.

(** ** [createdTodoList] *)

(** An insert into [todolists] either fails or reports one row. *)
Lemma insert_todolists_outcome (cols : list Pg.column) (ps : list Pg.value)
    (w : Pg.World) :
  (exists e, fst (Pg.dbQuery (Pg.INSERT_INTO Pg.todolists cols) ps w) = JS.Throw e)
  \/ fst (Pg.dbQuery (Pg.INSERT_INTO Pg.todolists cols) ps w)
     = JS.Return (Pg.no_rows Pg.todolists 1).
Proof.
  unfold Pg.dbQuery, Pg.execute.
  destruct (negb _); [left; eexists; reflexivity|].
  destruct (Pg.insert_todolist cols ps (Pg.database w));
    [left; eexists; reflexivity|right; reflexivity].
Qed.

Lemma created_from_insert (cols : list Pg.column) (ps : list Pg.value)
    (w : Pg.World) :
  reports_unique_violation_as_false
    (Pg.try_catch
       (Pg.bind (Pg.dbQuery (Pg.INSERT_INTO Pg.todolists cols) ps)
          (fun result => Pg.ret (0 <? Pg.rowCount result)%nat))
       (fun error =>
          if Pg.isUniqueConstraintViolation error then Pg.ret false
          else Pg.throw error))
    (Pg.dbQuery (Pg.INSERT_INTO Pg.todolists cols) ps) w.
Proof.
  unfold reports_unique_violation_as_false, Pg.try_catch, Pg.bind.
  destruct (insert_todolists_outcome cols ps w) as [[e He]|Hok];
    destruct (Pg.dbQuery (Pg.INSERT_INTO Pg.todolists cols) ps w) as [r w'];
    simpl in *; subst r.
  - destruct (Pg.isUniqueConstraintViolation e) eqn:E; simpl.
    + split; [|split; [|split]].
      * split; [intros _; now exists e|reflexivity].
      * intros e' [= <-]. congruence.
      * discriminate.
      * reflexivity.
    + split; [|split; [|split]].
      * split; [discriminate|]. intros (e' & [= <-] & He'). congruence.
      * now intros e' [= <-] _.
      * discriminate.
      * reflexivity.
  - simpl. split; [|split; [|split]].
    + split; [discriminate|]. now intros (e & He & _).
    + discriminate.
    + reflexivity.
    + reflexivity.
Qed.

(** The server's uniqueness errors are recognised, whatever the
    constraint; its other errors are not. *)
Lemma unique_violation_recognised (constraint : string) :
  Pg.isUniqueConstraintViolation (Pg.unique_violation constraint) = true.
Proof. reflexivity. Qed.

Lemma other_errors_not_recognised :
  Pg.isUniqueConstraintViolation
    (Pg.foreign_key_violation "todolists_username_fkey") = false
  /\ Pg.isUniqueConstraintViolation (Pg.not_null_violation "title") = false
  /\ Pg.isUniqueConstraintViolation (Pg.not_null_violation "username") = false
  /\ Pg.isUniqueConstraintViolation Pg.bind_error = false
  /\ Pg.isUniqueConstraintViolation Pg.datatype_mismatch = false.
Proof. vm_compute. repeat split. Qed.

(** A title that the owner has already makes the insert fail with a
    uniqueness error, so [createdTodoList] answers false. *)
Lemma multi_duplicate_title (self : PgMultiUser.t) (todoListTitle : string)
    (w : Pg.World) :
  Pg.multi_user (Pg.database w) = true ->
  next_list_id_free (Pg.database w) = true ->
  has_title true (PgMultiUser.username_ self) todoListTitle (Pg.database w) = true ->
  fst (PgMultiUser.createdTodoList self todoListTitle w) = JS.Return false.
Proof.
  intros Hm Hfree Hdup.
  unfold PgMultiUser.createdTodoList, Pg.try_catch, Pg.bind, Pg.dbQuery, Pg.execute.
  cbn [length Pg.arity Pg.placeholders seq foldr Nat.max Nat.eqb negb].
  unfold Pg.insert_todolist.
  cbn [Pg.multi_user Pg.nextval Pg.todolists_table Pg.todolists_id_seq
         Pg.users_table Pg.value_at].
  rewrite Hm. cbn [negb andb].
  repeat (case_decide; try congruence).
  unfold next_list_id_free in Hfree. apply negb_true_iff in Hfree.
  cbn [Pg.tl_id]. rewrite Hfree.
  unfold has_title in Hdup.
  assert (existsb
            (Pg.same_title true
               {| Pg.tl_id := Pg.todolists_id_seq (Pg.database w) + 1;
                  Pg.tl_title := todoListTitle;
                  Pg.tl_username :=
                    match PgMultiUser.this_username self with
                    | Pg.VText u => Some u
                    | _ => None
                    end |})
            (Pg.todolists_table (Pg.database w)) = true) as ->.
  { etransitivity; [|exact Hdup]. apply existsb_pointwise. intros r.
    unfold Pg.same_title, list_owned_by_sym, PgMultiUser.this_username.
    cbn [Pg.tl_title Pg.tl_username].
    now destruct (PgMultiUser.username_ self). }
  reflexivity.
Qed.

Lemma single_duplicate_title (todoListTitle : string) (w : Pg.World) :
  Pg.multi_user (Pg.database w) = false ->
  next_list_id_free (Pg.database w) = true ->
  has_title false None todoListTitle (Pg.database w) = true ->
  fst (PgSingleUser.createdTodoList todoListTitle w) = JS.Return false.
Proof.
  intros Hm Hfree Hdup.
  unfold PgSingleUser.createdTodoList, Pg.try_catch, Pg.bind, Pg.dbQuery, Pg.execute.
  cbn [length Pg.arity Pg.placeholders seq foldr Nat.max Nat.eqb negb].
  unfold Pg.insert_todolist.
  cbn [Pg.multi_user Pg.nextval Pg.todolists_table Pg.todolists_id_seq
         Pg.users_table Pg.value_at existsb].
  rewrite Hm. cbn [negb andb].
  repeat (case_decide; try congruence).
  unfold next_list_id_free in Hfree. apply negb_true_iff in Hfree.
  cbn [Pg.tl_id]. rewrite Hfree.
  unfold has_title in Hdup.
  assert (existsb
            (Pg.same_title false
               {| Pg.tl_id := Pg.todolists_id_seq (Pg.database w) + 1;
                  Pg.tl_title := todoListTitle;
                  Pg.tl_username := None |})
            (Pg.todolists_table (Pg.database w)) = true) as ->.
  { etransitivity; [|exact Hdup]. apply existsb_pointwise. intros r.
    reflexivity. }
  reflexivity.
Qed.

(** C6.  In both relational stores [createdTodoList] answers false, and
    throws nothing, exactly when its insert fails with an error that
    [isUniqueConstraintViolation] recognises, which the uniqueness errors
    of the server are; any other error of the insert is thrown on to the
    caller; an insert that succeeds gives true.  A title that the owner
    has already gives false.  Each of the three cases occurs: a title the
    owner has already, an owner who is no user, and a new title. *)
Theorem createdTodoList_unique_violation :
  (forall todoListTitle w,
      reports_unique_violation_as_false
        (PgSingleUser.createdTodoList todoListTitle)
        (single_insert todoListTitle) w)
  /\ (forall self todoListTitle w,
         reports_unique_violation_as_false
           (PgMultiUser.createdTodoList self todoListTitle)
           (multi_insert self todoListTitle) w)
  /\ (forall constraint,
         Pg.isUniqueConstraintViolation (Pg.unique_violation constraint) = true)
  /\ (forall todoListTitle w,
         Pg.multi_user (Pg.database w) = false ->
         next_list_id_free (Pg.database w) = true ->
         has_title false None todoListTitle (Pg.database w) = true ->
         fst (PgSingleUser.createdTodoList todoListTitle w) = JS.Return false)
  /\ (forall self todoListTitle w,
         Pg.multi_user (Pg.database w) = true ->
         next_list_id_free (Pg.database w) = true ->
         has_title true (PgMultiUser.username_ self) todoListTitle
           (Pg.database w) = true ->
         fst (PgMultiUser.createdTodoList self todoListTitle w) = JS.Return false)
  /\ fst (PgSingleUser.createdTodoList "Work" (Sample.world Sample.single_db))
     = JS.Return false
  /\ fst (PgSingleUser.createdTodoList "Garden" (Sample.world Sample.single_db))
     = JS.Return true
  /\ fst (PgMultiUser.createdTodoList Sample.admin "Work"
            (Sample.world Sample.multi_db))
     = JS.Return false
  /\ fst (PgMultiUser.createdTodoList Sample.admin "Home"
            (Sample.world Sample.multi_db))
     = JS.Return true
  /\ fst (PgMultiUser.createdTodoList Sample.stranger "Work"
            (Sample.world Sample.multi_db))
     = JS.Throw (Pg.foreign_key_violation "todolists_username_fkey").
Proof.
  split; [|split; [|split; [|split; [|split; [|repeat split]]]]].
  - intros todoListTitle w. apply created_from_insert.
  - intros self todoListTitle w. apply created_from_insert.
  - apply unique_violation_recognised.
  - apply single_duplicate_title.
  - apply multi_duplicate_title.
Qed.

(** ** [isValidLogin] *)

Lemma find_head_filter {A} (p : A -> bool) (l : list A) :
  List.find p l = head (List.filter p l).
Proof.
  induction l as [|x l IH]; simpl; [reflexivity|].
  destruct (p x); [reflexivity|exact IH].
Qed.

Lemma holds_username (username_arg : string) (r : Pg.UserRow) :
  Pg.holds (t := Pg.users) [(Pg.username, 1%nat)] [Pg.VText username_arg] r
  = String.eqb (Pg.u_username r) username_arg.
Proof. unfold Pg.holds. simpl. now rewrite andb_true_r. Qed.

Lemma isValidLogin_run (bcrypt_compare : string -> string -> bool)
    (self : PgMultiUser.t) (username_arg password_arg : string)
    (w : Pg.World) :
  PgMultiUser.isValidLogin bcrypt_compare self username_arg password_arg w
  = (JS.Return
       match user_row username_arg (Pg.database w) with
       | None => false
       | Some row => bcrypt_compare password_arg (Pg.u_password row)
       end,
     {| Pg.database := Pg.database w;
        Pg.sent := Pg.sent w
                   ++ [ {| Pg.text := Pg.SELECT_FROM Pg.users
                                        [(Pg.username, 1%nat)] [];
                           Pg.parameters := [Pg.VText username_arg] |} ] |}).
Proof.
  unfold PgMultiUser.isValidLogin, Pg.bind.
  rewrite dbQuery_select by reflexivity.
  unfold Pg.select, user_row.
  cbn [Pg.rowCount Pg.rows Pg.ordered Pg.rows_of Pg.table_of].
  rewrite find_head_filter.
  rewrite (filter_pointwise _ _ _ (holds_username username_arg)).
  now destruct (List.filter _ _).
Qed.

(** C9.  [isValidLogin] answers false when [users] has no row for the
    user name, and otherwise what the comparison of the password with
    the stored hash gives; so an unknown user name and a wrong password
    get the same answer.  The database is left as it was. *)
Theorem isValidLogin_fails_closed
    (bcrypt_compare : string -> string -> bool) :
  (forall self username_arg password_arg w,
      let out := PgMultiUser.isValidLogin bcrypt_compare self
                   username_arg password_arg w in
      match user_row username_arg (Pg.database w) with
      | None => fst out = JS.Return false
      | Some row =>
          fst out = JS.Return (bcrypt_compare password_arg (Pg.u_password row))
      end
      /\ Pg.database (snd out) = Pg.database w)
  /\ (forall self unknown password_arg known wrong row w,
         user_row unknown (Pg.database w) = None ->
         user_row known (Pg.database w) = Some row ->
         bcrypt_compare wrong (Pg.u_password row) = false ->
         fst (PgMultiUser.isValidLogin bcrypt_compare self unknown password_arg w)
         = fst (PgMultiUser.isValidLogin bcrypt_compare self known wrong w)).
Proof.
  split.
  - intros self username_arg password_arg w. cbv zeta.
    rewrite isValidLogin_run. cbn [fst snd Pg.database].
    split; [|reflexivity]. now destruct (user_row _ _).
  - intros self unknown password_arg known wrong row w Hu Hk Hw.
    rewrite !isValidLogin_run. cbn [fst]. now rewrite Hu, Hk, Hw.
Qed.

(** ** [completeAllTodos] *)

Lemma updated_complete (wh : list Pg.cond) (ps : list Pg.value)
    (rs : list Pg.TodoRow) :
  Pg.updated (t := Pg.todos) (Pg.set_true Pg.done) wh ps rs
  = Some (complete_where (Pg.holds (t := Pg.todos) wh ps) rs).
Proof.
  induction rs as [|r rs IH]; simpl; [reflexivity|].
  rewrite IH. now destruct (Pg.holds (t := Pg.todos) wh ps r).
Qed.

Lemma dbQuery_update_todos (a : Pg.assignment) (wh : list Pg.cond)
    (ps : list Pg.value) (w : Pg.World) (rs : list Pg.TodoRow) :
  length ps = Pg.arity (Pg.UPDATE Pg.todos a wh) ->
  Pg.updated (t := Pg.todos) a wh ps (Pg.todos_table (Pg.database w)) = Some rs ->
  Pg.dbQuery (Pg.UPDATE Pg.todos a wh) ps w
  = (JS.Return
       (Pg.no_rows Pg.todos
          (Pg.count_where (t := Pg.todos) wh ps (Pg.todos_table (Pg.database w)))),
     {| Pg.database := Pg.with_todos (Pg.database w) rs;
        Pg.sent := Pg.sent w
                   ++ [ {| Pg.text := Pg.UPDATE Pg.todos a wh;
                           Pg.parameters := ps |} ] |}).
Proof.
  intros Hlen Hup. unfold Pg.dbQuery, Pg.execute.
  rewrite Hlen, Nat.eqb_refl. cbn [negb]. now rewrite Hup.
Qed.

(** Marking rows done does not change which rows a test on the ids and
    the owner selects. *)
Lemma count_after_complete (p q : Pg.TodoRow -> bool) (rs : list Pg.TodoRow) :
  (forall r, q (pg_completed r) = q r) ->
  length (List.filter q (complete_where p rs)) = length (List.filter q rs).
Proof.
  intros Hq. unfold complete_where.
  induction rs as [|r rs IH]; simpl; [reflexivity|].
  assert (q (if p r then pg_completed r else r) = q r) as ->
      by (destruct (p r); [apply Hq|reflexivity]).
  destruct (q r); simpl; now rewrite IH.
Qed.

(** The UPDATE and the SELECT of [completeAllTodos], whichever runs
    first, report the same number of rows when they share their WHERE
    clause and parameters. *)
Lemma complete_and_count (b_first : bool) (wh : list Pg.cond)
    (ps : list Pg.value) (w : Pg.World) :
  length ps = Pg.arity (Pg.UPDATE Pg.todos (Pg.set_true Pg.done) wh) ->
  length ps = Pg.arity (Pg.SELECT_FROM Pg.todos wh []) ->
  (forall r, Pg.holds (t := Pg.todos) wh ps (pg_completed r)
             = Pg.holds (t := Pg.todos) wh ps r) ->
  exists log,
    Pg.bind
      (Pg.Promise_all b_first
         (Pg.dbQuery (Pg.UPDATE Pg.todos (Pg.set_true Pg.done) wh) ps)
         (Pg.dbQuery (Pg.SELECT_FROM Pg.todos wh []) ps))
      (fun bothResults =>
         Pg.ret (Pg.rowCount (fst bothResults) =? Pg.rowCount (snd bothResults))%nat)
      w
    = (JS.Return true,
       {| Pg.database :=
            Pg.with_todos (Pg.database w)
              (complete_where (Pg.holds (t := Pg.todos) wh ps)
                 (Pg.todos_table (Pg.database w)));
          Pg.sent := log |}).
Proof.
  intros Hu Hs Hholds. unfold Pg.bind, Pg.Promise_all.
  destruct b_first.
  - rewrite dbQuery_select by exact Hs.
    rewrite (dbQuery_update_todos _ _ _ _ _ Hu (updated_complete _ _ _)).
    cbn [Pg.database]. eexists. unfold Pg.ret. f_equal. f_equal.
    cbn [fst snd Pg.rowCount Pg.no_rows Pg.select].
    unfold Pg.count_where. cbn [Pg.ordered Pg.rows_of Pg.table_of].
    apply Nat.eqb_refl.
  - rewrite (dbQuery_update_todos _ _ _ _ _ Hu (updated_complete _ _ _)).
    rewrite dbQuery_select by exact Hs.
    cbn [Pg.database]. eexists. unfold Pg.ret. f_equal. f_equal.
    cbn [fst snd Pg.rowCount Pg.no_rows Pg.select].
    unfold Pg.count_where.
    cbn [Pg.ordered Pg.rows_of Pg.table_of Pg.todos_table Pg.with_todos].
    rewrite count_after_complete by exact Hholds. apply Nat.eqb_refl.
Qed.

(** C10.  In both relational stores, and whichever of its two queries
    the server runs first, [completeAllTodos] answers true for every id,
    also for an id that names no todo list; it never answers false and
    never throws. *)
Theorem completeAllTodos_always_true :
  (forall b_first todoListId w,
      fst (PgSingleUser.completeAllTodos b_first todoListId w) = JS.Return true)
  /\ (forall self b_first todoListId w,
         fst (PgMultiUser.completeAllTodos self b_first todoListId w)
         = JS.Return true)
  /\ existsb (is_list 7) (Pg.todolists_table Sample.single_db) = false
  /\ fst (PgSingleUser.completeAllTodos false 7 (Sample.world Sample.single_db))
     = JS.Return true
  /\ existsb (is_list 7) (Pg.todolists_table Sample.multi_db) = false
  /\ fst (PgMultiUser.completeAllTodos Sample.admin false 7
            (Sample.world Sample.multi_db))
     = JS.Return true.
Proof.
  split; [|split; [|repeat split]].
  - intros b_first todoListId w. unfold PgSingleUser.completeAllTodos.
    destruct (complete_and_count b_first [(Pg.todolist_id, 1%nat)]
                [Pg.VInt todoListId] w eq_refl eq_refl) as (log & ->);
      reflexivity.
  - intros self b_first todoListId w. unfold PgMultiUser.completeAllTodos.
    destruct (complete_and_count b_first
                [(Pg.todolist_id, 1%nat); (Pg.username, 2%nat)]
                [Pg.VInt todoListId; PgMultiUser.this_username self] w
                eq_refl eq_refl) as (log & ->);
      reflexivity.
Qed.

(** ** The queries of the multi-user store and the user name *)

Lemma dbQuery_sent (s : Pg.statement) (ps : list Pg.value) (w : Pg.World) :
  Pg.sent (snd (Pg.dbQuery s ps w))
  = Pg.sent w ++ [ {| Pg.text := s; Pg.parameters := ps |} ].
Proof.
  unfold Pg.dbQuery. now destruct (Pg.execute s ps (Pg.database w)) as [[e|r] d].
Qed.

Lemma bind_pure_snd {A B} (m : Pg.M A) (k : A -> Pg.M B) (w : Pg.World) :
  (forall x w', snd (k x w') = w') -> snd (Pg.bind m k w) = snd (m w).
Proof.
  intros Hk. unfold Pg.bind. destruct (m w) as [[a|e] w']; simpl; [apply Hk|reflexivity].
Qed.

Lemma try_catch_pure_snd {A} (m : Pg.M A) (h : Error -> Pg.M A) (w : Pg.World) :
  (forall e w', snd (h e w') = w') -> snd (Pg.try_catch m h w) = snd (m w).
Proof.
  intros Hh. unfold Pg.try_catch.
  destruct (m w) as [[a|e] w']; simpl; [reflexivity|apply Hh].
Qed.

Lemma Promise_all_sent {A B} (b_first : bool) (a : Pg.M A) (b : Pg.M B)
    (qa qb : Pg.Query) (w : Pg.World) :
  (forall w', Pg.sent (snd (a w')) = Pg.sent w' ++ [qa]) ->
  (forall w', Pg.sent (snd (b w')) = Pg.sent w' ++ [qb]) ->
  Pg.sent (snd (Pg.Promise_all b_first a b w))
  = Pg.sent w ++ (if b_first then [qb; qa] else [qa; qb]).
Proof.
  intros Ha Hb. unfold Pg.Promise_all. destruct b_first.
  - specialize (Hb w). destruct (b w) as [rb w1]. specialize (Ha w1).
    destruct (a w1) as [ra w2]. simpl in *.
    assert (Pg.sent w2 = Pg.sent w ++ [qb; qa]) as <-
        by (rewrite Ha, Hb, <- app_assoc; reflexivity).
    now destruct ra, rb.
  - specialize (Ha w). destruct (a w) as [ra w1]. specialize (Hb w1).
    destruct (b w1) as [rb w2]. simpl in *.
    assert (Pg.sent w2 = Pg.sent w ++ [qa; qb]) as <-
        by (rewrite Hb, Ha, <- app_assoc; reflexivity).
    now destruct ra, rb.
Qed.

Lemma all_scoped_intro {A} (u : Pg.value) (m : Pg.M A)
    (qs : Pg.World -> list Pg.Query) :
  (forall w, Pg.sent (snd (m w)) = Pg.sent w ++ qs w) ->
  (forall w, qs w <> []) ->
  (forall w, forallb (scoped_by u) (qs w) = true) ->
  all_scoped u m.
Proof.
  intros Hsent Hne Hsc w.
  assert (sent_by m w = qs w) as ->.
  { unfold sent_by. rewrite Hsent. now rewrite drop_app_length. }
  auto.
Qed.

(** A call that sends one query and then only computes. *)
Lemma one_query_scoped {B} (u : Pg.value) (s : Pg.statement)
    (ps : list Pg.value)
    (k : Pg.QueryResult (Pg.table_of s) -> Pg.M B) :
  (forall x w', snd (k x w') = w') ->
  scoped_by u {| Pg.text := s; Pg.parameters := ps |} = true ->
  all_scoped u (Pg.bind (Pg.dbQuery s ps) k).
Proof.
  intros Hk Hs.
  apply (all_scoped_intro u _ (fun _ => [ {| Pg.text := s; Pg.parameters := ps |} ])).
  - intros w. rewrite bind_pure_snd by exact Hk. apply dbQuery_sent.
  - discriminate.
  - intros _. simpl. now rewrite Hs.
Qed.

(** A call that sends two queries at once and then only computes. *)
Lemma two_queries_scoped {B} (u : Pg.value) (b_first : bool)
    (s1 s2 : Pg.statement) (ps1 ps2 : list Pg.value)
    (k : Pg.QueryResult (Pg.table_of s1) * Pg.QueryResult (Pg.table_of s2)
         -> Pg.M B) :
  (forall x w', snd (k x w') = w') ->
  scoped_by u {| Pg.text := s1; Pg.parameters := ps1 |} = true ->
  scoped_by u {| Pg.text := s2; Pg.parameters := ps2 |} = true ->
  all_scoped u
    (Pg.bind (Pg.Promise_all b_first (Pg.dbQuery s1 ps1) (Pg.dbQuery s2 ps2)) k).
Proof.
  intros Hk H1 H2.
  apply (all_scoped_intro u _
           (fun _ => if b_first
                     then [ {| Pg.text := s2; Pg.parameters := ps2 |};
                            {| Pg.text := s1; Pg.parameters := ps1 |} ]
                     else [ {| Pg.text := s1; Pg.parameters := ps1 |};
                            {| Pg.text := s2; Pg.parameters := ps2 |} ])).
  - intros w. rewrite bind_pure_snd by exact Hk.
    apply Promise_all_sent; intros w'; apply dbQuery_sent.
  - intros _. now destruct b_first.
  - intros _. destruct b_first; simpl; now rewrite H1, H2.
Qed.

Lemma scoped_where (u : Pg.value) (s : Pg.statement) (ps : list Pg.value)
    (n : nat) :
  match s with Pg.INSERT_INTO _ _ => False | _ => True end ->
  In (Pg.username, n) (Pg.where_of s) ->
  nth_error ps (n - 1) = Some u ->
  scoped_by u {| Pg.text := s; Pg.parameters := ps |} = true.
Proof.
  intros Hs Hin Hn. unfold scoped_by. cbn [Pg.text Pg.parameters].
  assert (existsb
            (fun c : Pg.cond =>
               bool_decide (fst c = Pg.username)
               && bool_decide (nth_error ps (snd c - 1) = Some u))
            (Pg.where_of s) = true) as H.
  { apply existsb_exists. exists (Pg.username, n). split; [exact Hin|].
    cbn [fst snd]. rewrite Hn. now rewrite !bool_decide_eq_true_2. }
  destruct s; try exact H. contradiction.
Qed.

Lemma scoped_insert (u : Pg.value) (t : Pg.table) (cols : list Pg.column)
    (ps : list Pg.value) :
  In Pg.username cols ->
  Pg.value_at cols ps Pg.username = u ->
  scoped_by u {| Pg.text := Pg.INSERT_INTO t cols; Pg.parameters := ps |} = true.
Proof.
  intros Hin Hv. unfold scoped_by. cbn [Pg.text Pg.parameters].
  apply andb_true_iff. split.
  - apply existsb_exists. exists Pg.username. split; [exact Hin|].
    now apply bool_decide_eq_true_2.
  - now apply bool_decide_eq_true_2.
Qed.

Ltac pure_continuation :=
  intros ? ?; repeat (match goal with |- context [match ?x with _ => _ end] =>
                        destruct x end); reflexivity.

Ltac scoped_at n :=
  apply (scoped_where _ _ _ n); [exact I|cbn; tauto|reflexivity].

Lemma multi_loadTodoList_scoped (self : PgMultiUser.t) (b_first : bool)
    (todoListId : Z) :
  all_scoped (PgMultiUser.this_username self)
    (PgMultiUser.loadTodoList self b_first todoListId).
Proof.
  unfold PgMultiUser.loadTodoList. cbv zeta.
  apply two_queries_scoped; [pure_continuation|scoped_at 2%nat|scoped_at 2%nat].
Qed.

Lemma multi_loadTodo_scoped (self : PgMultiUser.t) (todoListId todoId : Z) :
  all_scoped (PgMultiUser.this_username self)
    (PgMultiUser.loadTodo self todoListId todoId).
Proof.
  unfold PgMultiUser.loadTodo. cbv zeta.
  apply one_query_scoped; [pure_continuation|scoped_at 3%nat].
Qed.

Lemma multi_sortedTodoLists_scoped (self : PgMultiUser.t) (b_first : bool) :
  all_scoped (PgMultiUser.this_username self)
    (PgMultiUser.sortedTodoLists self b_first).
Proof.
  unfold PgMultiUser.sortedTodoLists. cbv zeta.
  apply two_queries_scoped; [pure_continuation|scoped_at 1%nat|scoped_at 1%nat].
Qed.

Lemma multi_sortedTodos_scoped (self : PgMultiUser.t) (todoList : Pg.TodoList) :
  all_scoped (PgMultiUser.this_username self)
    (PgMultiUser.sortedTodos self todoList).
Proof.
  unfold PgMultiUser.sortedTodos. cbv zeta.
  apply one_query_scoped; [pure_continuation|scoped_at 2%nat].
Qed.

Lemma multi_existsTodoListTitle_scoped (self : PgMultiUser.t) (title_ : string) :
  all_scoped (PgMultiUser.this_username self)
    (PgMultiUser.existsTodoListTitle self title_).
Proof.
  unfold PgMultiUser.existsTodoListTitle. cbv zeta.
  apply one_query_scoped; [pure_continuation|scoped_at 2%nat].
Qed.

Lemma multi_deleteTodoList_scoped (self : PgMultiUser.t) (todoListId : Z) :
  all_scoped (PgMultiUser.this_username self)
    (PgMultiUser.deleteTodoList self todoListId).
Proof.
  apply (all_scoped_intro _ _
           (fun _ => [multi_DELETE_TODO_LIST self todoListId;
                      multi_CHECK_TODOS self todoListId])).
  - intros w. now rewrite multi_deleteTodoList_run.
  - discriminate.
  - intros _. cbn [forallb]. rewrite !andb_true_iff. repeat split.
    + unfold multi_DELETE_TODO_LIST. scoped_at 2%nat.
    + unfold multi_CHECK_TODOS. scoped_at 2%nat.
Qed.

Lemma multi_createdTodoList_scoped (self : PgMultiUser.t)
    (todoListTitle : string) :
  all_scoped (PgMultiUser.this_username self)
    (PgMultiUser.createdTodoList self todoListTitle).
Proof.
  unfold PgMultiUser.createdTodoList. cbv zeta.
  apply (all_scoped_intro _ _
           (fun _ => [ {| Pg.text := Pg.INSERT_INTO Pg.todolists
                                       [Pg.title; Pg.username];
                          Pg.parameters :=
                            [Pg.VText todoListTitle;
                             PgMultiUser.this_username self] |} ])).
  - intros w. rewrite try_catch_pure_snd by pure_continuation.
    rewrite bind_pure_snd by pure_continuation. apply dbQuery_sent.
  - discriminate.
  - intros _. cbn [forallb]. rewrite andb_true_r.
    apply scoped_insert; [cbn; tauto|reflexivity].
Qed.

Lemma multi_toggleTodo_scoped (self : PgMultiUser.t) (todoListId todoId : Z) :
  all_scoped (PgMultiUser.this_username self)
    (PgMultiUser.toggleTodo self todoListId todoId).
Proof.
  unfold PgMultiUser.toggleTodo. cbv zeta.
  apply one_query_scoped; [pure_continuation|scoped_at 3%nat].
Qed.

Lemma multi_addedTodo_scoped (self : PgMultiUser.t) (todoListId : Z)
    (todoTitle : string) :
  all_scoped (PgMultiUser.this_username self)
    (PgMultiUser.addedTodo self todoListId todoTitle).
Proof.
  unfold PgMultiUser.addedTodo. cbv zeta.
  apply one_query_scoped; [pure_continuation|].
  apply scoped_insert; [cbn; tauto|reflexivity].
Qed.

Lemma multi_completeAllTodos_scoped (self : PgMultiUser.t) (b_first : bool)
    (todoListId : Z) :
  all_scoped (PgMultiUser.this_username self)
    (PgMultiUser.completeAllTodos self b_first todoListId).
Proof.
  unfold PgMultiUser.completeAllTodos. cbv zeta.
  apply two_queries_scoped; [pure_continuation|scoped_at 2%nat|scoped_at 2%nat].
Qed.

Lemma multi_setTodoListTitle_scoped (self : PgMultiUser.t) (todoListId : Z)
    (todoListTitle : string) :
  all_scoped (PgMultiUser.this_username self)
    (PgMultiUser.setTodoListTitle self todoListId todoListTitle).
Proof.
  unfold PgMultiUser.setTodoListTitle. cbv zeta.
  apply one_query_scoped; [pure_continuation|scoped_at 3%nat].
Qed.

Lemma multi_deleteTodo_run (self : PgMultiUser.t) (todoListId todoId : Z)
    (w : Pg.World) :
  PgMultiUser.deleteTodo self todoListId todoId w
  = (JS.Throw Pg.bind_error,
     {| Pg.database := Pg.database w;
        Pg.sent := Pg.sent w ++ [multi_DELETE_TODO todoListId todoId] |}).
Proof. reflexivity. Qed.

(** C1.  In the multi-user store every operation but one
    sends only queries that are scoped by the user name the store was
    built with.  The exception is [deleteTodo]: its statement tests
    [username] against a third placeholder, the call passes two
    parameters, and the user name is not among them; the server refuses
    the statement, so the call throws and deletes nothing, not even a
    todo of the user. *)
Theorem multi_user_scoping_but_deleteTodo :
  (forall self,
      let u := PgMultiUser.this_username self in
      (forall b_first todoListId,
          all_scoped u (PgMultiUser.loadTodoList self b_first todoListId))
      /\ (forall todoListId todoId,
             all_scoped u (PgMultiUser.loadTodo self todoListId todoId))
      /\ (forall b_first, all_scoped u (PgMultiUser.sortedTodoLists self b_first))
      /\ (forall todoList, all_scoped u (PgMultiUser.sortedTodos self todoList))
      /\ (forall title_, all_scoped u (PgMultiUser.existsTodoListTitle self title_))
      /\ (forall todoListId,
             all_scoped u (PgMultiUser.deleteTodoList self todoListId))
      /\ (forall todoListTitle,
             all_scoped u (PgMultiUser.createdTodoList self todoListTitle))
      /\ (forall todoListId todoId,
             all_scoped u (PgMultiUser.toggleTodo self todoListId todoId))
      /\ (forall todoListId todoTitle,
             all_scoped u (PgMultiUser.addedTodo self todoListId todoTitle))
      /\ (forall b_first todoListId,
             all_scoped u (PgMultiUser.completeAllTodos self b_first todoListId))
      /\ (forall todoListId todoListTitle,
             all_scoped u
               (PgMultiUser.setTodoListTitle self todoListId todoListTitle)))
  /\ (forall self todoListId todoId w,
         sent_by (PgMultiUser.deleteTodo self todoListId todoId) w
         = [multi_DELETE_TODO todoListId todoId]
         /\ scoped_by (PgMultiUser.this_username self)
              (multi_DELETE_TODO todoListId todoId) = false
         /\ fst (PgMultiUser.deleteTodo self todoListId todoId w)
            = JS.Throw Pg.bind_error
         /\ Pg.database (snd (PgMultiUser.deleteTodo self todoListId todoId w))
            = Pg.database w)
  /\ existsb (is_todo_of (Some "admin"%string) 1 1)
       (Pg.todos_table Sample.multi_db) = true
  /\ PgMultiUser.deleteTodo Sample.admin 1 1 (Sample.world Sample.multi_db)
     = (JS.Throw Pg.bind_error,
        {| Pg.database := Sample.multi_db;
           Pg.sent := [multi_DELETE_TODO 1 1] |}).
Proof.
  split; [|split; [|split; reflexivity]].
  - intros self u. subst u.
    split; [intros; apply multi_loadTodoList_scoped|].
    split; [intros; apply multi_loadTodo_scoped|].
    split; [intros; apply multi_sortedTodoLists_scoped|].
    split; [intros; apply multi_sortedTodos_scoped|].
    split; [intros; apply multi_existsTodoListTitle_scoped|].
    split; [intros; apply multi_deleteTodoList_scoped|].
    split; [intros; apply multi_createdTodoList_scoped|].
    split; [intros; apply multi_toggleTodo_scoped|].
    split; [intros; apply multi_addedTodo_scoped|].
    split; [intros; apply multi_completeAllTodos_scoped|].
    intros; apply multi_setTodoListTitle_scoped.
  - intros self todoListId todoId w. rewrite multi_deleteTodo_run.
    unfold sent_by. rewrite multi_deleteTodo_run. cbn [fst snd Pg.sent Pg.database].
    rewrite drop_app_length. repeat split.
Qed.

(** What the scoping of queries does not cover: the foreign key of
    [todos].  The user bob may add a todo to list 1, which admin owns;
    when admin deletes the list, the cascade removes bob's todo with it,
    and bob, who could load the todo before, finds it gone. *)
Lemma cascade_reaches_other_owners :
  let w0 := Sample.world Sample.multi_db in
  let w1 := snd (PgMultiUser.addedTodo Sample.bob 1 "note" w0) in
  let w2 := snd (PgMultiUser.deleteTodoList Sample.admin 1 w1) in
  fst (PgMultiUser.addedTodo Sample.bob 1 "note" w0) = JS.Return true
  /\ fst (PgMultiUser.loadTodo Sample.bob 1 4 w1)
     = JS.Return (Some Sample.bobs_note)
  /\ fst (PgMultiUser.deleteTodoList Sample.admin 1 w1) = JS.Return true
  /\ fst (PgMultiUser.loadTodo Sample.bob 1 4 w2) = JS.Return None.
Proof. vm_compute. repeat split. Qed.

(** ** The statements at sample inputs *)

(** C7 at sample inputs: in the session store the todo Milk of list 1 is
    flipped, and ids that name nothing make the call throw; in the
    multi-user store admin flips todo 1 of list 1, and a call of admin
    on bob's todo answers false and changes nothing. *)
Lemma toggleTodo_flips_once_witness :
  SessionPersistence._findTodo 1 1
    (snd (SessionPersistence.toggleTodo 1 1 Sample.session_store))
  = Some (session_toggled Sample.milk)
  /\ SessionPersistence.toggleTodo 1 99 Sample.session_store
     = (JS.Throw (TypeError_undefined "done"), Sample.session_store)
  /\ flips_once (is_todo_of (Some "admin"%string) 1 1) Sample.multi_db
       (JS.Return true)
       (Pg.with_todos Sample.multi_db
          (toggle_where (is_todo_of (Some "admin"%string) 1 1)
             (Pg.todos_table Sample.multi_db)))
       Sample.multi_db
  /\ flips_once (is_todo_of (Some "admin"%string) 2 3) Sample.multi_db
       (JS.Return false) Sample.multi_db Sample.multi_db.
Proof.
  destruct toggleTodo_flips_once as (Hsession & _ & Hmulti).
  split; [|split; [|split]].
  - exact (proj1 (proj2 (Hsession 1 1 Sample.session_store))).
  - exact (Hsession 1 99 Sample.session_store).
  - exact (Hmulti Sample.admin 1 1 (Sample.world Sample.multi_db)).
  - exact (Hmulti Sample.admin 2 3 (Sample.world Sample.multi_db)).
Defined.

(** C9 at sample inputs: an unknown user, a known user with a wrong
    password and a known user with the right password. *)
Lemma isValidLogin_fails_closed_witness :
  fst (PgMultiUser.isValidLogin Sample.compare_by_prefix Sample.admin
         "carol" "secret" (Sample.world Sample.multi_db))
  = JS.Return false
  /\ fst (PgMultiUser.isValidLogin Sample.compare_by_prefix Sample.admin
            "admin" "guess" (Sample.world Sample.multi_db))
     = JS.Return false
  /\ fst (PgMultiUser.isValidLogin Sample.compare_by_prefix Sample.admin
            "admin" "secret" (Sample.world Sample.multi_db))
     = JS.Return true
  /\ fst (PgMultiUser.isValidLogin Sample.compare_by_prefix Sample.admin
            "carol" "secret" (Sample.world Sample.multi_db))
     = fst (PgMultiUser.isValidLogin Sample.compare_by_prefix Sample.admin
              "admin" "guess" (Sample.world Sample.multi_db)).
Proof.
  destruct (isValidLogin_fails_closed Sample.compare_by_prefix) as [Hrow Hsame].
  split; [|split; [|split]].
  - exact (proj1 (Hrow Sample.admin "carol"%string "secret"%string
                    (Sample.world Sample.multi_db))).
  - exact (proj1 (Hrow Sample.admin "admin"%string "guess"%string
                    (Sample.world Sample.multi_db))).
  - exact (proj1 (Hrow Sample.admin "admin"%string "secret"%string
                    (Sample.world Sample.multi_db))).
  - exact (Hsame Sample.admin "carol"%string "secret"%string "admin"%string
             "guess"%string
             {| Pg.u_username := "admin"; Pg.u_password := "hash-of-secret" |}
             (Sample.world Sample.multi_db) eq_refl eq_refl eq_refl).
Defined.

(** ** What the reads of the multi-user store depend on *)

Lemma filter_through {A} (p owned : A -> bool) (l : list A) :
  (forall x, p x = true -> owned x = true) ->
  List.filter p l = List.filter p (List.filter owned l).
Proof.
  intros H. induction l as [|x l IH]; simpl; [reflexivity|].
  destruct (p x) eqn:Ep.
  - rewrite (H _ Ep). simpl. now rewrite Ep, IH.
  - destruct (owned x); simpl; [now rewrite Ep|exact IH].
Qed.

(** A SELECT whose WHERE clause selects rows of one owner only gives the
    same result in two databases that hold the same rows of that owner. *)
Lemma select_own_rows (t : Pg.table) (wh : list Pg.cond) (o : list Pg.order)
    (ps : list Pg.value) (owned : Pg.row t -> bool) (d1 d2 : Pg.Database) :
  (forall r, Pg.holds (t := t) wh ps r = true -> owned r = true) ->
  List.filter owned (Pg.rows_of t d1) = List.filter owned (Pg.rows_of t d2) ->
  Pg.select (t := t) wh o ps d1 = Pg.select (t := t) wh o ps d2.
Proof.
  intros Hown Heq. unfold Pg.select.
  rewrite (filter_through _ owned (Pg.rows_of t d1) Hown).
  rewrite (filter_through _ owned (Pg.rows_of t d2) Hown).
  now rewrite Heq.
Qed.

Lemma holds_title_of (self : PgMultiUser.t) (title_ : string)
    (r : Pg.TodoListRow) :
  Pg.holds (t := Pg.todolists) [(Pg.title, 1%nat); (Pg.username, 2%nat)]
    [Pg.VText title_; PgMultiUser.this_username self] r
  = String.eqb (Pg.tl_title r) title_
    && list_owned_by (PgMultiUser.username_ self) r.
Proof. unfold Pg.holds, list_owned_by. simpl. now rewrite andb_true_r. Qed.

Ltac owner_from lemma :=
  let r := fresh "r" in let H := fresh "H" in
  intros r H; rewrite lemma in H;
  repeat (apply andb_true_iff in H; destruct H as [? H]); assumption.

(** X1.  The five reads of the multi-user store give the same result in
    two databases that hold the same todo lists and the same todos of
    the store's user, whatever rows the other users have there. *)
Theorem multi_reads_see_own_rows (self : PgMultiUser.t) (w1 w2 : Pg.World) :
  own_lists (PgMultiUser.username_ self) (Pg.database w1)
  = own_lists (PgMultiUser.username_ self) (Pg.database w2) ->
  own_todos (PgMultiUser.username_ self) (Pg.database w1)
  = own_todos (PgMultiUser.username_ self) (Pg.database w2) ->
  (forall b b' todoListId,
      fst (PgMultiUser.loadTodoList self b todoListId w1)
      = fst (PgMultiUser.loadTodoList self b' todoListId w2))
  /\ (forall todoListId todoId,
         fst (PgMultiUser.loadTodo self todoListId todoId w1)
         = fst (PgMultiUser.loadTodo self todoListId todoId w2))
  /\ (forall b b',
         fst (PgMultiUser.sortedTodoLists self b w1)
         = fst (PgMultiUser.sortedTodoLists self b' w2))
  /\ (forall todoList,
         fst (PgMultiUser.sortedTodos self todoList w1)
         = fst (PgMultiUser.sortedTodos self todoList w2))
  /\ (forall title_,
         fst (PgMultiUser.existsTodoListTitle self title_ w1)
         = fst (PgMultiUser.existsTodoListTitle self title_ w2)).
Proof.
  intros Hlists Htodos.
  split; [|split; [|split; [|split]]].
  - intros b b' todoListId. unfold PgMultiUser.loadTodoList, Pg.bind. cbv zeta.
    destruct (Promise_all_selects b Pg.todolists Pg.todos
                [(Pg.id, 1%nat); (Pg.username, 2%nat)]
                [(Pg.todolist_id, 1%nat); (Pg.username, 2%nat)] [] []
                [Pg.VInt todoListId; PgMultiUser.this_username self]
                [Pg.VInt todoListId; PgMultiUser.this_username self]
                w1 eq_refl eq_refl) as (log1 & ->).
    destruct (Promise_all_selects b' Pg.todolists Pg.todos
                [(Pg.id, 1%nat); (Pg.username, 2%nat)]
                [(Pg.todolist_id, 1%nat); (Pg.username, 2%nat)] [] []
                [Pg.VInt todoListId; PgMultiUser.this_username self]
                [Pg.VInt todoListId; PgMultiUser.this_username self]
                w2 eq_refl eq_refl) as (log2 & ->).
    cbn [fst snd].
    rewrite (select_own_rows Pg.todolists _ _ _
               (list_owned_by (PgMultiUser.username_ self))
               (Pg.database w1) (Pg.database w2));
      [|owner_from (holds_is_list_of self todoListId)|exact Hlists].
    rewrite (select_own_rows Pg.todos _ _ _
               (todo_owned_by (PgMultiUser.username_ self))
               (Pg.database w1) (Pg.database w2));
      [|owner_from (holds_in_list_of self todoListId)|exact Htodos].
    now destruct (Pg.rows _).
  - intros todoListId todoId. unfold PgMultiUser.loadTodo, Pg.bind. cbv zeta.
    rewrite !dbQuery_select by reflexivity. cbn [fst].
    rewrite (select_own_rows Pg.todos _ _ _
               (todo_owned_by (PgMultiUser.username_ self))
               (Pg.database w1) (Pg.database w2));
      [reflexivity|owner_from (holds_is_todo_of self todoListId todoId)
      |exact Htodos].
  - intros b b'.
    destruct (multi_sortedTodoLists_run self b w1) as (log1 & ->).
    destruct (multi_sortedTodoLists_run self b' w2) as (log2 & ->).
    cbn [fst]. unfold own_lists, own_todos in *. now rewrite Hlists, Htodos.
  - intros todoList. unfold PgMultiUser.sortedTodos, Pg.bind. cbv zeta.
    rewrite !dbQuery_select by reflexivity. cbn [fst].
    rewrite (select_own_rows Pg.todos _ _ _
               (todo_owned_by (PgMultiUser.username_ self))
               (Pg.database w1) (Pg.database w2));
      [reflexivity
      |owner_from (holds_in_list_of self (Pg.tl_id (Pg.list_row todoList)))
      |exact Htodos].
  - intros title_. unfold PgMultiUser.existsTodoListTitle, Pg.bind. cbv zeta.
    rewrite !dbQuery_select by reflexivity. cbn [fst].
    rewrite (select_own_rows Pg.todolists _ _ _
               (list_owned_by (PgMultiUser.username_ self))
               (Pg.database w1) (Pg.database w2));
      [reflexivity|owner_from (holds_title_of self title_)|exact Hlists].
Qed.

(** X1 at a sample input: admin reads the same from [multi_db] and from
    a database in which only the rows of bob differ. *)
Lemma multi_reads_see_own_rows_witness :
  Sample.multi_db <> Sample.multi_db_other_bob
  /\ fst (PgMultiUser.sortedTodoLists Sample.admin false
            (Sample.world Sample.multi_db))
     = fst (PgMultiUser.sortedTodoLists Sample.admin true
              (Sample.world Sample.multi_db_other_bob)).
Proof.
  split; [discriminate|].
  exact (proj1 (proj2 (proj2
           (multi_reads_see_own_rows Sample.admin
              (Sample.world Sample.multi_db)
              (Sample.world Sample.multi_db_other_bob) eq_refl eq_refl)))
           false true).
Defined.

(** ** What the writes of the multi-user store leave alone *)

Lemma filter_map_frame {A} (q : A -> bool) (g : A -> A) (l : list A) :
  (forall x, q (g x) = q x) -> (forall x, q x = true -> g x = x) ->
  List.filter q (map g l) = List.filter q l.
Proof.
  intros Hq Hg. induction l as [|x l IH]; simpl; [reflexivity|].
  rewrite Hq. destruct (q x) eqn:E; [now rewrite (Hg _ E), IH|exact IH].
Qed.

Lemma filter_filter_comm {A} (p q : A -> bool) (l : list A) :
  List.filter p (List.filter q l) = List.filter q (List.filter p l).
Proof.
  induction l as [|x l IH]; simpl; [reflexivity|].
  destruct (p x) eqn:Ep, (q x) eqn:Eq; simpl; rewrite ?Ep, ?Eq, IH; reflexivity.
Qed.

Lemma filter_others_of_remaining {A} (p owned : A -> bool) (l : list A) :
  (forall x, p x = true -> owned x = true) ->
  List.filter (fun x => negb (owned x)) (List.filter (fun x => negb (p x)) l)
  = List.filter (fun x => negb (owned x)) l.
Proof.
  intros H. induction l as [|x l IH]; simpl; [reflexivity|].
  destruct (p x) eqn:Ep; simpl.
  - now rewrite (H _ Ep), IH.
  - destruct (owned x); simpl; now rewrite IH.
Qed.

Lemma other_todos_toggle (u : option string) (p : Pg.TodoRow -> bool)
    (d : Pg.Database) :
  (forall r, p r = true -> todo_owned_by u r = true) ->
  other_todos u (Pg.with_todos d (toggle_where p (Pg.todos_table d)))
  = other_todos u d.
Proof.
  intros Hp. unfold other_todos, toggle_where. cbn [Pg.todos_table Pg.with_todos].
  apply filter_map_frame.
  - intros r. now destruct (p r).
  - intros r Hr. destruct (p r) eqn:E; [|reflexivity].
    rewrite (Hp _ E) in Hr. discriminate.
Qed.

Lemma other_todos_complete (u : option string) (p : Pg.TodoRow -> bool)
    (d : Pg.Database) :
  (forall r, p r = true -> todo_owned_by u r = true) ->
  other_todos u (Pg.with_todos d (complete_where p (Pg.todos_table d)))
  = other_todos u d.
Proof.
  intros Hp. unfold other_todos, complete_where. cbn [Pg.todos_table Pg.with_todos].
  apply filter_map_frame.
  - intros r. now destruct (p r).
  - intros r Hr. destruct (p r) eqn:E; [|reflexivity].
    rewrite (Hp _ E) in Hr. discriminate.
Qed.

Lemma updated_retitle (todoListTitle : string) (wh : list Pg.cond)
    (ps : list Pg.value) (rs : list Pg.TodoListRow) :
  Pg.param ps 1 = Pg.VText todoListTitle ->
  Pg.updated (t := Pg.todolists) (Pg.set_param Pg.title 1) wh ps rs
  = Some (map (fun r => if Pg.holds (t := Pg.todolists) wh ps r
                        then pg_retitled todoListTitle r else r) rs).
Proof.
  intros Hp. induction rs as [|r rs IH]; simpl; [reflexivity|].
  rewrite IH. destruct (Pg.holds (t := Pg.todolists) wh ps r); [|reflexivity].
  cbn [Pg.assigned]. now rewrite Hp.
Qed.

Lemma multi_setTodoListTitle_database (self : PgMultiUser.t)
    (todoListId : Z) (todoListTitle : string) (w : Pg.World) :
  let d' := Pg.database
              (snd (PgMultiUser.setTodoListTitle self todoListId todoListTitle w)) in
  d' = Pg.database w
  \/ d' = Pg.with_todolists (Pg.database w)
            (map (fun r =>
                    if Pg.holds (t := Pg.todolists)
                         [(Pg.id, 2%nat); (Pg.username, 3%nat)]
                         [Pg.VText todoListTitle; Pg.VInt todoListId;
                          PgMultiUser.this_username self] r
                    then pg_retitled todoListTitle r else r)
               (Pg.todolists_table (Pg.database w))).
Proof.
  unfold PgMultiUser.setTodoListTitle. cbv zeta.
  rewrite bind_pure_snd by pure_continuation.
  unfold Pg.dbQuery, Pg.execute. cbn [length Pg.arity Pg.placeholders map snd foldr
                                      Nat.max Nat.eqb negb].
  rewrite (updated_retitle todoListTitle) by reflexivity.
  destruct (Pg.title_clash _ _ _ _ _); [left|right]; reflexivity.
Qed.

Lemma holds_retitle_where (self : PgMultiUser.t) (todoListId : Z)
    (todoListTitle : string) (r : Pg.TodoListRow) :
  Pg.holds (t := Pg.todolists) [(Pg.id, 2%nat); (Pg.username, 3%nat)]
    [Pg.VText todoListTitle; Pg.VInt todoListId; PgMultiUser.this_username self] r
  = is_list_of (PgMultiUser.username_ self) todoListId r.
Proof.
  unfold Pg.holds, is_list_of, is_list, list_owned_by. simpl.
  now rewrite andb_true_r.
Qed.

Lemma filter_app_bool {A} (p : A -> bool) (l l' : list A) :
  List.filter p (l ++ l') = List.filter p l ++ List.filter p l'.
Proof.
  induction l as [|x l IH]; simpl; [reflexivity|].
  destruct (p x); simpl; now rewrite IH.
Qed.

Lemma sql_eq_text_refl (s : string) : Pg.sql_eq (Pg.VText s) (Pg.VText s) = true.
Proof. simpl. apply String.eqb_refl. Qed.

(** The insert of [createdTodoList], for a store that has a user name:
    it fails and changes no table, or it adds one row of that user. *)
Lemma multi_insert_todolist (u todoListTitle : string) (d : Pg.Database) :
  match Pg.insert_todolist [Pg.title; Pg.username]
          [Pg.VText todoListTitle; Pg.VText u] d with
  | inl _ => True
  | inr d' =>
      exists r, Pg.tl_username r = Some u
                /\ Pg.todolists_table d' = Pg.todolists_table d ++ [r]
                /\ Pg.todos_table d' = Pg.todos_table d
                /\ Pg.users_table d' = Pg.users_table d
  end.
Proof.
  unfold Pg.insert_todolist.
  destruct (negb (Pg.multi_user (Pg.nextval Pg.todolists d)) && _); [exact I|].
  cbn [Pg.value_at]. repeat (case_decide; try congruence).
  repeat match goal with
         | |- match (if ?c then _ else _) with _ => _ end => destruct c; [exact I|]
         end.
  eexists. split; [|split; [reflexivity|split; reflexivity]]. reflexivity.
Qed.

(** The insert of [addedTodo], in the same way. *)
Lemma multi_insert_todo (u todoTitle : string) (todoListId : Z)
    (d : Pg.Database) :
  match Pg.insert_todo [Pg.title; Pg.todolist_id; Pg.username]
          [Pg.VText todoTitle; Pg.VInt todoListId; Pg.VText u] d with
  | inl _ => True
  | inr d' =>
      exists r, Pg.td_username r = Some u
                /\ Pg.todos_table d' = Pg.todos_table d ++ [r]
                /\ Pg.todolists_table d' = Pg.todolists_table d
                /\ Pg.users_table d' = Pg.users_table d
  end.
Proof.
  unfold Pg.insert_todo.
  destruct (negb (Pg.multi_user (Pg.nextval Pg.todos d)) && _); [exact I|].
  cbn [Pg.value_at]. repeat (case_decide; try congruence).
  repeat match goal with
         | |- match (if ?c then _ else _) with _ => _ end => destruct c; [exact I|]
         end.
  eexists. split; [|split; [reflexivity|split; reflexivity]]. reflexivity.
Qed.

Lemma keeps_other_rows_refl (u : option string) (d : Pg.Database) :
  keeps_other_rows u d d.
Proof. repeat split. Qed.

Lemma keeps_other_rows_nextval (u : option string) (t : Pg.table)
    (d : Pg.Database) :
  keeps_other_rows u d (Pg.nextval t d).
Proof. repeat split. Qed.

Lemma other_lists_snoc_own (u : string) (d d' : Pg.Database)
    (r : Pg.TodoListRow) :
  Pg.tl_username r = Some u ->
  Pg.todolists_table d' = Pg.todolists_table d ++ [r] ->
  other_lists (Some u) d' = other_lists (Some u) d.
Proof.
  intros Hr Ht. unfold other_lists. rewrite Ht, filter_app_bool. simpl.
  unfold list_owned_by. rewrite Hr. cbn [Pg.text_or_null].
  rewrite sql_eq_text_refl. simpl. apply app_nil_r.
Qed.

Lemma other_todos_snoc_own (u : string) (d d' : Pg.Database) (r : Pg.TodoRow) :
  Pg.td_username r = Some u ->
  Pg.todos_table d' = Pg.todos_table d ++ [r] ->
  other_todos (Some u) d' = other_todos (Some u) d.
Proof.
  intros Hr Ht. unfold other_todos. rewrite Ht, filter_app_bool. simpl.
  unfold todo_owned_by. rewrite Hr. cbn [Pg.text_or_null].
  rewrite sql_eq_text_refl. simpl. apply app_nil_r.
Qed.

(** X2.  A write of the multi-user store built for the user [u] leaves
    the todo lists and the todos of the other users, and the [users]
    table, as they were.  The one exception is the cascade of
    [deleteTodoList], which removes the todos that refer to a deleted
    list, whoever owns them. *)
Theorem multi_writes_keep_other_rows (self : PgMultiUser.t) (u : string)
    (w : Pg.World) :
  PgMultiUser.username_ self = Some u ->
  (forall todoListId todoId,
      keeps_other_rows (Some u) (Pg.database w)
        (Pg.database (snd (PgMultiUser.toggleTodo self todoListId todoId w))))
  /\ (forall b_first todoListId,
         keeps_other_rows (Some u) (Pg.database w)
           (Pg.database
              (snd (PgMultiUser.completeAllTodos self b_first todoListId w))))
  /\ (forall todoListId todoListTitle,
         keeps_other_rows (Some u) (Pg.database w)
           (Pg.database
              (snd (PgMultiUser.setTodoListTitle self todoListId todoListTitle w))))
  /\ (forall todoListId todoId,
         keeps_other_rows (Some u) (Pg.database w)
           (Pg.database (snd (PgMultiUser.deleteTodo self todoListId todoId w))))
  /\ (forall todoListTitle,
         keeps_other_rows (Some u) (Pg.database w)
           (Pg.database (snd (PgMultiUser.createdTodoList self todoListTitle w))))
  /\ (forall todoListId todoTitle,
         keeps_other_rows (Some u) (Pg.database w)
           (Pg.database (snd (PgMultiUser.addedTodo self todoListId todoTitle w))))
  /\ (forall todoListId,
         keeps_other_rows_but_todos_of
           (List.filter (is_list_of (Some u) todoListId)
              (Pg.todolists_table (Pg.database w)))
           (Some u) (Pg.database w)
           (Pg.database (snd (PgMultiUser.deleteTodoList self todoListId w)))).
Proof.
  intros Hu. destruct self as [name_]. cbn [PgMultiUser.username_] in Hu. subst name_.
  set (self := {| PgMultiUser.username_ := Some u |}).
  split; [|split; [|split; [|split; [|split; [|split]]]]].
  - intros todoListId todoId. rewrite multi_toggleTodo_run. cbn [snd Pg.database].
    split; [reflexivity|]. split; [|reflexivity].
    apply other_todos_toggle. intros r Hr. unfold is_todo_of in Hr.
    now apply andb_true_iff in Hr as [_ Hr].
  - intros b_first todoListId. unfold PgMultiUser.completeAllTodos. cbv zeta.
    destruct (complete_and_count b_first
                [(Pg.todolist_id, 1%nat); (Pg.username, 2%nat)]
                [Pg.VInt todoListId; PgMultiUser.this_username self] w
                eq_refl eq_refl) as (log & ->); [reflexivity|].
    cbn [snd Pg.database].
    split; [reflexivity|]. split; [|reflexivity].
    apply other_todos_complete. owner_from (holds_in_list_of self todoListId).
  - intros todoListId todoListTitle.
    destruct (multi_setTodoListTitle_database self todoListId todoListTitle w)
      as [-> | ->]; [apply keeps_other_rows_refl|].
    split; [|split; reflexivity].
    unfold other_lists. cbn [Pg.todolists_table Pg.with_todolists].
    apply filter_map_frame.
    + intros r. now destruct (Pg.holds (t := Pg.todolists) _ _ r).
    + intros r Hr.
      destruct (Pg.holds (t := Pg.todolists) _ _ r) eqn:E; [|reflexivity].
      rewrite holds_retitle_where in E. unfold is_list_of in E.
      apply andb_true_iff in E as [_ E].
      unfold self in E. cbn [PgMultiUser.username_] in E.
      rewrite E in Hr. discriminate.
  - intros todoListId todoId. rewrite multi_deleteTodo_run.
    apply keeps_other_rows_refl.
  - intros todoListTitle. unfold PgMultiUser.createdTodoList. cbv zeta.
    rewrite try_catch_pure_snd by pure_continuation.
    rewrite bind_pure_snd by pure_continuation.
    unfold Pg.dbQuery, Pg.execute.
    cbn [length Pg.arity Pg.placeholders seq foldr Nat.max Nat.eqb negb
           PgMultiUser.this_username PgMultiUser.username_ Pg.text_or_null self].
    pose proof (multi_insert_todolist u todoListTitle (Pg.database w)) as Hins.
    destruct (Pg.insert_todolist _ _ _) as [e|d'];
      cbn [snd Pg.database]; [apply keeps_other_rows_nextval|].
    destruct Hins as (r & Hr & Hl & Ht & Hus).
    split; [now apply (other_lists_snoc_own u _ _ r)|].
    split; [unfold other_todos; now rewrite Ht|exact Hus].
  - intros todoListId todoTitle. unfold PgMultiUser.addedTodo. cbv zeta.
    rewrite bind_pure_snd by pure_continuation.
    unfold Pg.dbQuery, Pg.execute.
    cbn [length Pg.arity Pg.placeholders seq foldr Nat.max Nat.eqb negb
           PgMultiUser.this_username PgMultiUser.username_ Pg.text_or_null self].
    pose proof (multi_insert_todo u todoTitle todoListId (Pg.database w)) as Hins.
    destruct (Pg.insert_todo _ _ _) as [e|d'];
      cbn [snd Pg.database]; [apply keeps_other_rows_nextval|].
    destruct Hins as (r & Hr & Ht & Hl & Hus).
    split; [unfold other_lists; now rewrite Hl|].
    split; [now apply (other_todos_snoc_own u _ _ r)|exact Hus].
  - intros todoListId. rewrite multi_deleteTodoList_run. cbn [snd Pg.database].
    unfold Pg.delete_todolists, keeps_other_rows_but_todos_of,
      other_lists, other_todos.
    cbn [Pg.todolists_table Pg.todos_table Pg.users_table
           Pg.with_todos Pg.with_todolists].
    rewrite (filter_pointwise _ _ _ (holds_is_list_of self todoListId)).
    split; [|split; [|reflexivity]].
    + unfold Pg.remaining.
      rewrite (filter_pointwise (fun r => negb (Pg.holds (t := Pg.todolists) _ _ r))
                 (fun r => negb (is_list_of (Some u) todoListId r)));
        [|intros r; now rewrite holds_is_list_of].
      apply filter_others_of_remaining. intros r Hr. unfold is_list_of in Hr.
      now apply andb_true_iff in Hr as [_ Hr].
    + apply filter_filter_comm.
Qed.

(** X2 at a sample input: bob's rows in [multi_db] after admin has
    toggled todo 1 of list 1. *)
Lemma multi_writes_keep_other_rows_witness :
  keeps_other_rows (Some "admin"%string) Sample.multi_db
    (Pg.database
       (snd (PgMultiUser.toggleTodo Sample.admin 1 1
               (Sample.world Sample.multi_db)))).
Proof.
  exact (proj1 (multi_writes_keep_other_rows Sample.admin "admin"%string
                  (Sample.world Sample.multi_db) eq_refl) 1 1).
Defined.

(** ** What [deleteTodoList] leaves behind *)

Lemma filter_negb_none {A} (p : A -> bool) (l : list A) :
  existsb p l = false -> List.filter (fun x => negb (p x)) l = l.
Proof.
  induction l as [|x l IH]; simpl; [reflexivity|].
  destruct (p x); simpl; [discriminate|]. intros H. now rewrite IH.
Qed.

(** A DELETE that selects no todo list changes nothing. *)
Lemma delete_todolists_none (wh : list Pg.cond) (ps : list Pg.value)
    (d : Pg.Database) :
  existsb (Pg.holds (t := Pg.todolists) wh ps) (Pg.todolists_table d) = false ->
  Pg.delete_todolists wh ps d = d.
Proof.
  intros H. unfold Pg.delete_todolists, Pg.remaining.
  rewrite (filter_none _ _ H), (filter_negb_none _ _ H).
  rewrite (filter_all (fun r => negb (Pg.refers_to [] r))) by reflexivity.
  now destruct d.
Qed.

(** A DELETE that selects a todo list with the id [todoListId] leaves no
    todo of that list. *)
Lemma delete_todolists_todos (wh : list Pg.cond) (ps : list Pg.value)
    (todoListId : Z) (d : Pg.Database) :
  existsb (fun r => Pg.holds (t := Pg.todolists) wh ps r && is_list todoListId r)
    (Pg.todolists_table d) = true ->
  List.filter (in_list todoListId)
    (Pg.todos_table (Pg.delete_todolists wh ps d)) = [].
Proof.
  intros H. unfold Pg.delete_todolists. cbn [Pg.todos_table Pg.with_todos].
  rewrite (filter_pointwise (in_list todoListId)
             (fun r => in_list todoListId r && true))
    by (intros r; now rewrite andb_true_r).
  apply cascade_leaves_none.
  apply existsb_exists in H as (l & Hl & Hp).
  apply andb_true_iff in Hp as [Hh Hid].
  apply existsb_exists. exists l. split; [|exact Hid].
  apply filter_In. now split.
Qed.

Lemma select_after_delete (wh : list Pg.cond) (ps : list Pg.value)
    (d : Pg.Database) :
  Pg.rows (Pg.select (t := Pg.todolists) wh [] ps (Pg.delete_todolists wh ps d))
  = [].
Proof.
  unfold Pg.select, Pg.delete_todolists, Pg.remaining.
  cbn [Pg.rows Pg.ordered Pg.rows_of Pg.todolists_table Pg.with_todos
         Pg.with_todolists].
  apply filter_remaining_none.
Qed.

(** X3.  [deleteTodoList] on a list that exists (for the user, in the
    multi-user store) answers true, after which [loadTodoList] finds no
    such list and no todo row refers to its id; on an id that names no
    list it answers false and leaves the database as it was. *)
Theorem deleteTodoList_removes_list_and_todos :
  (forall self todoListId w,
      let out := PgMultiUser.deleteTodoList self todoListId w in
      if existsb (is_list_of (PgMultiUser.username_ self) todoListId)
           (Pg.todolists_table (Pg.database w))
      then
        fst out = JS.Return true
        /\ (forall b_first,
               fst (PgMultiUser.loadTodoList self b_first todoListId (snd out))
               = JS.Return None)
        /\ List.filter (in_list todoListId)
             (Pg.todos_table (Pg.database (snd out))) = []
      else fst out = JS.Return false /\ Pg.database (snd out) = Pg.database w)
  /\ (forall todoListId w,
         let out := PgSingleUser.deleteTodoList todoListId w in
         if existsb (is_list todoListId) (Pg.todolists_table (Pg.database w))
         then
           fst out = JS.Return true
           /\ (forall b_first,
                  fst (PgSingleUser.loadTodoList b_first todoListId (snd out))
                  = JS.Return None)
           /\ List.filter (in_list todoListId)
                (Pg.todos_table (Pg.database (snd out))) = []
         else fst out = JS.Return false /\ Pg.database (snd out) = Pg.database w).
Proof.
  split.
  - intros self todoListId w. cbv zeta. rewrite multi_deleteTodoList_run.
    cbn [fst snd Pg.database].
    destruct (existsb _ _) eqn:E.
    + split; [reflexivity|]. split.
      * intros b_first. unfold PgMultiUser.loadTodoList, Pg.bind. cbv zeta.
        match goal with
        | |- context [Pg.Promise_all b_first
                        (Pg.dbQuery (Pg.SELECT_FROM ?t1 ?w1 ?o1) ?p1)
                        (Pg.dbQuery (Pg.SELECT_FROM ?t2 ?w2 ?o2) ?p2) ?w'] =>
            destruct (Promise_all_selects b_first t1 t2 w1 w2 o1 o2 p1 p2 w'
                        eq_refl eq_refl) as (log & ->)
        end.
        cbn [fst snd Pg.database]. now rewrite select_after_delete.
      * apply delete_todolists_todos.
        rewrite <- E. apply existsb_pointwise. intros r.
        rewrite holds_is_list_of. unfold is_list_of.
        now destruct (is_list todoListId r), (list_owned_by _ r).
    + split; [reflexivity|]. apply delete_todolists_none.
      rewrite <- E. apply existsb_pointwise, holds_is_list_of.
  - intros todoListId w. cbv zeta. rewrite single_deleteTodoList_run.
    cbn [fst snd Pg.database].
    destruct (existsb _ _) eqn:E.
    + split; [reflexivity|]. split.
      * intros b_first. unfold PgSingleUser.loadTodoList, Pg.bind. cbv zeta.
        match goal with
        | |- context [Pg.Promise_all b_first
                        (Pg.dbQuery (Pg.SELECT_FROM ?t1 ?w1 ?o1) ?p1)
                        (Pg.dbQuery (Pg.SELECT_FROM ?t2 ?w2 ?o2) ?p2) ?w'] =>
            destruct (Promise_all_selects b_first t1 t2 w1 w2 o1 o2 p1 p2 w'
                        eq_refl eq_refl) as (log & ->)
        end.
        cbn [fst snd Pg.database]. now rewrite select_after_delete.
      * assert (Hnone :
                  existsb (Pg.holds (t := Pg.todolists) [(Pg.id, 1%nat)]
                             [Pg.VInt todoListId])
                    (Pg.todolists_table
                       (Pg.delete_todolists [(Pg.id, 1%nat)]
                          [Pg.VInt todoListId] (Pg.database w))) = false).
        { unfold Pg.delete_todolists, Pg.remaining.
          cbn [Pg.todolists_table Pg.with_todos Pg.with_todolists].
          apply not_true_is_false. intros Hex.
          apply existsb_exists in Hex as (r & Hin & Hr).
          apply filter_In in Hin as [_ Hin]. rewrite Hr in Hin. discriminate. }
        rewrite (delete_todolists_none _ _ _ Hnone).
        apply delete_todolists_todos.
        rewrite <- E. apply existsb_pointwise. intros r.
        rewrite holds_is_list. now destruct (is_list todoListId r).
    + split; [reflexivity|].
      assert (Hnone :
                existsb (Pg.holds (t := Pg.todolists) [(Pg.id, 1%nat)]
                           [Pg.VInt todoListId])
                  (Pg.todolists_table (Pg.database w)) = false)
        by (rewrite <- E; apply existsb_pointwise, holds_is_list).
      now rewrite !(delete_todolists_none _ _ _ Hnone).
Qed.

(** ** [createdTodoList], then [existsTodoListTitle] *)

Lemma multi_insert_todolist_ok (u todoListTitle : string) (d d' : Pg.Database) :
  Pg.insert_todolist [Pg.title; Pg.username]
    [Pg.VText todoListTitle; Pg.VText u] d = inr d' ->
  Pg.multi_user d = true
  /\ d' = Pg.with_todolists (Pg.nextval Pg.todolists d)
            (Pg.todolists_table d
             ++ [ {| Pg.tl_id := Pg.todolists_id_seq d + 1;
                     Pg.tl_title := todoListTitle;
                     Pg.tl_username := Some u |} ]).
Proof.
  unfold Pg.insert_todolist.
  cbn [Pg.multi_user Pg.nextval Pg.todolists_table Pg.todolists_id_seq
         Pg.users_table Pg.value_at existsb].
  repeat (case_decide; try congruence).
  change (bool_decide (Pg.title = Pg.username)) with false.
  change (bool_decide (Pg.username = Pg.username)) with true.
  cbn [orb].
  destruct (Pg.multi_user d); cbn [negb andb]; [|discriminate].
  repeat match goal with
         | |- (if ?c then _ else _) = _ -> _ => destruct c; [discriminate|]
         end.
  intros [= <-]. split; reflexivity.
Qed.

(** When [createdTodoList] answers true, its insert went through. *)
Lemma multi_created_true (self : PgMultiUser.t) (todoListTitle : string)
    (w : Pg.World) :
  fst (PgMultiUser.createdTodoList self todoListTitle w) = JS.Return true ->
  exists d',
    Pg.insert_todolist [Pg.title; Pg.username]
      [Pg.VText todoListTitle; PgMultiUser.this_username self] (Pg.database w)
    = inr d'
    /\ Pg.database (snd (PgMultiUser.createdTodoList self todoListTitle w)) = d'.
Proof.
  unfold PgMultiUser.createdTodoList, Pg.try_catch, Pg.bind, Pg.dbQuery, Pg.execute.
  cbn [length Pg.arity Pg.placeholders seq foldr Nat.max Nat.eqb negb].
  destruct (Pg.insert_todolist _ _ _) as [e|d']; cbn beta iota zeta.
  - destruct (PgMultiUser.isUniqueConstraintViolation e); discriminate.
  - intros _. now exists d'.
Qed.

(** X4.  In the multi-user store, when [createdTodoList] has answered
    true, [existsTodoListTitle] answers true for the same title, and, if
    no id was ahead of the id sequence, a second [createdTodoList] with
    the same title answers false and throws nothing. *)
Theorem created_then_exists (self : PgMultiUser.t) (u todoListTitle : string)
    (w : Pg.World) :
  PgMultiUser.username_ self = Some u ->
  fst (PgMultiUser.createdTodoList self todoListTitle w) = JS.Return true ->
  let w1 := snd (PgMultiUser.createdTodoList self todoListTitle w) in
  fst (PgMultiUser.existsTodoListTitle self todoListTitle w1) = JS.Return true
  /\ (list_ids_below_seq (Pg.database w) = true ->
      fst (PgMultiUser.createdTodoList self todoListTitle w1) = JS.Return false).
Proof.
  intros Hu Hcreated w1.
  destruct (multi_created_true self todoListTitle w Hcreated) as (d' & Hins & Hd').
  fold w1 in Hd'.
  assert (PgMultiUser.this_username self = Pg.VText u) as Hthis
      by (unfold PgMultiUser.this_username; now rewrite Hu).
  rewrite Hthis in Hins.
  apply multi_insert_todolist_ok in Hins as [Hmulti ->].
  split.
  - unfold PgMultiUser.existsTodoListTitle, Pg.bind. cbv zeta.
    rewrite dbQuery_select by reflexivity. unfold Pg.ret. cbn [fst]. f_equal.
    unfold Pg.select. cbn [Pg.rowCount Pg.ordered Pg.rows_of Pg.table_of].
    rewrite count_positive, Hd'.
    cbn [Pg.todolists_table Pg.with_todolists Pg.rows_of Pg.table_of].
    rewrite existsb_app.
    apply orb_true_iff. right. cbn [existsb]. rewrite orb_false_r.
    rewrite holds_title_of, Hu. unfold list_owned_by.
    cbn [Pg.tl_title Pg.tl_username Pg.text_or_null].
    now rewrite String.eqb_refl, sql_eq_text_refl.
  - intros Hids. apply multi_duplicate_title.
    + now rewrite Hd'.
    + rewrite Hd'. unfold next_list_id_free.
      cbn [Pg.todolists_table Pg.todolists_id_seq Pg.with_todolists Pg.nextval].
      apply negb_true_iff. rewrite existsb_app. apply orb_false_iff. split.
      * apply not_true_is_false. intros Hex.
        apply existsb_exists in Hex as (r & Hin & Hr).
        unfold list_ids_below_seq in Hids. rewrite forallb_forall in Hids.
        specialize (Hids r Hin). lia.
      * cbn [existsb Pg.tl_id]. rewrite orb_false_r. lia.
    + rewrite Hd', Hu. unfold has_title.
      cbn [Pg.todolists_table Pg.with_todolists]. rewrite existsb_app.
      apply orb_true_iff. right. cbn [existsb]. rewrite orb_false_r.
      unfold list_owned_by_sym. cbn [Pg.tl_title Pg.tl_username Pg.text_or_null].
      now rewrite String.eqb_refl, sql_eq_text_refl.
Qed.

(** X4 at a sample input: admin creates the list Garden in [multi_db]. *)
Lemma created_then_exists_witness :
  let w1 := snd (PgMultiUser.createdTodoList Sample.admin "Garden"
                   (Sample.world Sample.multi_db)) in
  fst (PgMultiUser.existsTodoListTitle Sample.admin "Garden" w1) = JS.Return true
  /\ fst (PgMultiUser.createdTodoList Sample.admin "Garden" w1) = JS.Return false.
Proof.
  destruct (created_then_exists Sample.admin "admin"%string "Garden"%string
              (Sample.world Sample.multi_db) eq_refl eq_refl) as [H1 H2].
  split; [exact H1|exact (H2 eq_refl)].
Defined.

(** ** [findIndex] and [splice] *)

Lemma findIndex_lower {A} (p : A -> bool) (l : list A) : -1 <= JS.findIndex p l.
Proof.
  induction l as [|x l IH]; simpl; [lia|].
  destruct (p x); [lia|]. destruct (JS.findIndex p l <? 0) eqn:E; lia.
Qed.

(** [findIndex] and [find] agree: both stop at the first element that
    satisfies the predicate. *)
Lemma findIndex_find {A} (p : A -> bool) (l : list A) :
  match List.find p l with
  | None => JS.findIndex p l = -1
  | Some x =>
      exists i : nat,
        JS.findIndex p l = Z.of_nat i /\ l !! i = Some x /\ p x = true
        /\ List.find p (take i l) = None
  end.
Proof.
  induction l as [|y l IH]; simpl; [reflexivity|].
  destruct (p y) eqn:Py.
  - exists 0%nat. repeat split; assumption.
  - destruct (List.find p l) as [x|].
    + destruct IH as (i & Hi & Hl & Hx & Hn). exists (S i).
      rewrite Hi. split; [|split; [assumption|split; [assumption|]]].
      * destruct (Z.of_nat i <? 0) eqn:E; lia.
      * simpl. now rewrite Py.
    + rewrite IH. reflexivity.
Qed.

Lemma splice_one {A} (i : nat) (l : list A) :
  (i < length l)%nat -> JS.splice (Z.of_nat i) 1 l = delete i l.
Proof.
  intros Hi. unfold JS.splice.
  destruct (Z.of_nat i <? 0) eqn:E; [lia|].
  rewrite Z.min_l by lia. rewrite Nat2Z.id.
  rewrite Nat.add_1_r. symmetry. apply delete_take_drop.
Qed.

(** [splice(-1, 1)] removes the last element. *)
Lemma splice_last {A} (l : list A) : JS.splice (-1) 1 l = removelast l.
Proof.
  unfold JS.splice. simpl (_ <? _).
  destruct l as [|x l] using rev_ind; [reflexivity|].
  rewrite removelast_last, length_app. simpl.
  rewrite Z.max_l by lia.
  replace (Z.to_nat (Z.of_nat (length l + 1) + -1)) with (length l) by lia.
  rewrite take_app_length.
  rewrite drop_ge by (rewrite length_app; simpl; lia).
  now rewrite app_nil_r.
Qed.

(** A predicate that the removed element does not satisfy finds the same
    element after the removal. *)
Lemma find_delete_other {A} (q : A -> bool) (i : nat) (l : list A) (x : A) :
  l !! i = Some x -> q x = false -> List.find q (delete i l) = List.find q l.
Proof.
  revert l. induction i as [|i IH]; intros [|y l]; simpl; try discriminate.
  - intros [= ->] ->. reflexivity.
  - intros Hl Hq. destruct (q y); [reflexivity|]. now apply IH.
Qed.

Lemma find_none_intro {A} (p : A -> bool) (l : list A) :
  (forall x, x ∈ l -> p x = false) -> List.find p l = None.
Proof.
  induction l as [|y l IH]; intros H; simpl; [reflexivity|].
  rewrite (H y) by constructor. apply IH. intros x Hx. apply H. now constructor.
Qed.

(** With distinct keys, nothing is found under the key of the removed
    element. *)
Lemma find_delete_key {A} (key : A -> Z) (k : Z) (i : nat) (l : list A) (x : A) :
  NoDup (map key l) -> l !! i = Some x -> key x = k ->
  List.find (fun y => key y =? k) (delete i l) = None.
Proof.
  intros Hnd Hl Hk. apply find_none_intro. intros y Hy.
  apply Z.eqb_neq. intros Hyk.
  apply list_elem_of_lookup in Hy as [j Hj].
  rewrite NoDup_alt in Hnd.
  destruct (decide (j < i)%nat).
  - rewrite list_lookup_delete_lt in Hj by assumption.
    assert (j = i); [|lia].
    apply (Hnd j i k); rewrite list_lookup_fmap; [rewrite Hj|rewrite Hl]; simpl; congruence.
  - rewrite list_lookup_delete_ge in Hj by lia.
    assert (S j = i); [|lia].
    apply (Hnd (S j) i k); rewrite list_lookup_fmap; [rewrite Hj|rewrite Hl]; simpl; congruence.
Qed.

(** ** The session store: [deleteTodoList] *)

(** X5.  The session store's [deleteTodoList] answers false and changes
    nothing when no list has the id.  Otherwise it answers true and
    removes the first list with the id, and only that one: every other
    list is found as before, the counter of ids is as before, and when the
    ids of the lists are distinct no list is found under the id any more. *)
Theorem session_deleteTodoList_removes_first_match (todoListId : Z)
    (self : SessionPersistence.t) :
  let out := SessionPersistence.deleteTodoList todoListId self in
  match SessionPersistence._findTodoList todoListId self with
  | None => out = (false, self)
  | Some L =>
      fst out = true
      /\ SessionPersistence.currentId (snd out) = SessionPersistence.currentId self
      /\ (exists i : nat,
             SessionPersistence._todoLists self !! i = Some L
             /\ SessionPersistence._todoLists (snd out)
                = delete i (SessionPersistence._todoLists self))
      /\ (forall other, other <> todoListId ->
             SessionPersistence._findTodoList other (snd out)
             = SessionPersistence._findTodoList other self)
      /\ (NoDup (map SessionPersistence.id (SessionPersistence._todoLists self)) ->
          SessionPersistence._findTodoList todoListId (snd out) = None)
  end.
Proof.
  cbv zeta. unfold SessionPersistence.deleteTodoList, SessionPersistence._findTodoList.
  pose proof (findIndex_find (fun l => SessionPersistence.id l =? todoListId)
                (SessionPersistence._todoLists self)) as H.
  destruct (List.find _ _) as [L|].
  - destruct H as (i & Hi & Hl & HL & _). rewrite Hi.
    destruct (Z.of_nat i =? -1) eqn:E; [lia|].
    assert (i < length (SessionPersistence._todoLists self))%nat as Hlt
      by (eapply lookup_lt_Some; eassumption).
    rewrite splice_one by assumption.
    cbn [fst snd SessionPersistence.set_lists SessionPersistence._todoLists
           SessionPersistence.currentId].
    apply Z.eqb_eq in HL.
    split; [reflexivity|split; [reflexivity|split; [|split]]].
    + exists i. now split.
    + intros other Hother. apply (find_delete_other _ _ _ L Hl).
      apply Z.eqb_neq. congruence.
    + intros Hnd. now apply (find_delete_key _ _ _ _ L).
  - rewrite H. reflexivity.
Qed.

(** ** The session store: the methods that write through [_findTodoList] *)

Section ThroughReference.
Context {A : Type} (p q : A -> bool) (f : A -> A).

(** Another search is not disturbed by the assignment when it does not
    look at what is assigned and does not stop at the element assigned to. *)
Lemma find_update_first_other (l : list A) :
  (forall x, q (f x) = q x) -> (forall x, p x = true -> q x = false) ->
  List.find q (SessionPersistence.update_first p f l) = List.find q l.
Proof.
  intros Hq Hpq. induction l as [|x l IH]; simpl; [reflexivity|].
  destruct (p x) eqn:Px; simpl.
  - rewrite Hq. now rewrite (Hpq x Px).
  - now rewrite IH.
Qed.

End ThroughReference.

(** What an assignment to the list that [_findTodoList] finds leaves
    behind, when the assignment keeps the id: the list is found in its new
    state, it has taken the place of the old one, and the other lists are
    found as before. *)
Lemma session_assign_found (todoListId : Z)
    (f : SessionPersistence.TodoList -> SessionPersistence.TodoList)
    (self : SessionPersistence.t) (L : SessionPersistence.TodoList) :
  (forall l, SessionPersistence.id (f l) = SessionPersistence.id l) ->
  SessionPersistence._findTodoList todoListId self = Some L ->
  let self' :=
    SessionPersistence.set_lists self
      (SessionPersistence.update_first
         (fun l => SessionPersistence.id l =? todoListId) f
         (SessionPersistence._todoLists self)) in
  SessionPersistence._findTodoList todoListId self' = Some (f L)
  /\ (exists i : nat,
         SessionPersistence._todoLists self !! i = Some L
         /\ SessionPersistence._todoLists self'
            = <[i := f L]> (SessionPersistence._todoLists self))
  /\ (forall other, other <> todoListId ->
         SessionPersistence._findTodoList other self'
         = SessionPersistence._findTodoList other self).
Proof.
  intros Hid HL self'. unfold self', SessionPersistence._findTodoList in *.
  cbn [SessionPersistence.set_lists SessionPersistence._todoLists].
  split; [|split].
  - rewrite find_update_first by (intros x; now rewrite Hid).
    now rewrite HL.
  - now apply update_first_lookup.
  - intros other Hother. apply find_update_first_other.
    + intros x. now rewrite Hid.
    + intros x Hx. apply Z.eqb_eq in Hx. apply Z.eqb_neq. congruence.
Qed.

Lemma find_snoc_fresh {A} (p : A -> bool) (l : list A) (x : A) :
  List.find p l = None -> List.find p (l ++ [x]) = if p x then Some x else None.
Proof.
  induction l as [|y l IH]; simpl; [reflexivity|].
  destruct (p y); [discriminate|]. exact IH.
Qed.

Lemma find_snoc_other {A} (p : A -> bool) (l : list A) (x : A) :
  p x = false -> List.find p (l ++ [x]) = List.find p l.
Proof.
  intros Hx. induction l as [|y l IH]; simpl; [now rewrite Hx|].
  now destruct (p y).
Qed.

(** ** The session store: [createdTodoList] *)

(** X6.  The session store's [createdTodoList] always answers true, also
    for a title that a list has already.  It puts a list with the title,
    the next id and no todos behind the lists it holds; afterwards
    [existsTodoListTitle] answers true for the title, the new list is not
    done, every other id finds what it found before, and when no list has
    an id ahead of the counter the new id finds the new list. *)
Theorem session_createdTodoList_appends (todoListTitle : string)
    (self : SessionPersistence.t) :
  let out := SessionPersistence.createdTodoList todoListTitle self in
  let L := {| SessionPersistence.id := SessionPersistence.currentId self + 1;
              SessionPersistence.list_title := todoListTitle;
              SessionPersistence.todos := [] |} in
  fst out = true
  /\ SessionPersistence._todoLists (snd out)
     = SessionPersistence._todoLists self ++ [L]
  /\ fst (SessionPersistence.existsTodoListTitle todoListTitle (snd out)) = true
  /\ SessionPersistence.isDoneTodoList L = false
  /\ (forall other, other <> SessionPersistence.id L ->
         SessionPersistence._findTodoList other (snd out)
         = SessionPersistence._findTodoList other self)
  /\ (Forall (fun l => SessionPersistence.id l <= SessionPersistence.currentId self)
        (SessionPersistence._todoLists self) ->
      SessionPersistence._findTodoList (SessionPersistence.id L) (snd out)
      = Some L).
Proof.
  cbv zeta. unfold SessionPersistence.createdTodoList, SessionPersistence.nextId,
    SessionPersistence.existsTodoListTitle, SessionPersistence._findTodoList.
  cbn [fst snd SessionPersistence.set_lists SessionPersistence._todoLists
         SessionPersistence.currentId SessionPersistence.id].
  split; [reflexivity|split; [reflexivity|split; [|split; [reflexivity|split]]]].
  - rewrite existsb_app. simpl. rewrite String.eqb_refl.
    now rewrite orb_true_r.
  - intros other Hother. apply find_snoc_other. simpl.
    apply Z.eqb_neq. congruence.
  - intros Hle. rewrite find_snoc_fresh.
    + simpl. now rewrite Z.eqb_refl.
    + apply find_none_intro. intros x Hx.
      rewrite Forall_forall in Hle. specialize (Hle x Hx).
      apply Z.eqb_neq. lia.
Qed.

(** ** The session store: [addedTodo] *)

(** X7.  The session store's [addedTodo] answers false and changes
    nothing when no list has the id.  Otherwise it answers true and puts a
    todo with the title, the next id and [done = false] behind the todos
    of the first list with the id: that list then has an undone todo and
    is not done, the other lists are found as before, and when no todo of
    the list has an id ahead of the counter [_findTodo] finds the new
    todo. *)
Theorem session_addedTodo_appends (todoListId : Z) (todoTitle : string)
    (self : SessionPersistence.t) :
  let out := SessionPersistence.addedTodo todoListId todoTitle self in
  match SessionPersistence._findTodoList todoListId self with
  | None => out = (false, self)
  | Some L =>
      let todo := {| SessionPersistence.todo_id := SessionPersistence.currentId self + 1;
                     SessionPersistence.todo_title := todoTitle;
                     SessionPersistence.done := false |} in
      let L' := SessionPersistence.set_todos L (SessionPersistence.todos L ++ [todo]) in
      fst out = true
      /\ SessionPersistence._findTodoList todoListId (snd out) = Some L'
      /\ (exists i : nat,
             SessionPersistence._todoLists self !! i = Some L
             /\ SessionPersistence._todoLists (snd out)
                = <[i := L']> (SessionPersistence._todoLists self))
      /\ (forall other, other <> todoListId ->
             SessionPersistence._findTodoList other (snd out)
             = SessionPersistence._findTodoList other self)
      /\ SessionPersistence.hasUndoneTodos L' = true
      /\ SessionPersistence.isDoneTodoList L' = false
      /\ (Forall (fun t => SessionPersistence.todo_id t
                           <= SessionPersistence.currentId self)
            (SessionPersistence.todos L) ->
          SessionPersistence._findTodo todoListId
            (SessionPersistence.currentId self + 1) (snd out)
          = Some todo)
  end.
Proof.
  cbv zeta. unfold SessionPersistence.addedTodo.
  destruct (SessionPersistence._findTodoList todoListId self) as [L|] eqn:HL;
    [|reflexivity].
  unfold SessionPersistence.nextId. cbn [fst snd SessionPersistence._todoLists].
  set (todo := {| SessionPersistence.todo_id := SessionPersistence.currentId self + 1;
                  SessionPersistence.todo_title := todoTitle;
                  SessionPersistence.done := false |}).
  set (f := fun l => SessionPersistence.set_todos l (SessionPersistence.todos l ++ [todo])).
  destruct (session_assign_found todoListId f self L) as (Hfind & Hplace & Hframe);
    [reflexivity|assumption|].
  unfold SessionPersistence._findTodoList, SessionPersistence._findTodo,
    SessionPersistence.set_lists in *.
  cbn [SessionPersistence._todoLists] in *.
  split; [reflexivity|split; [exact Hfind|split; [exact Hplace|split; [exact Hframe|]]]].
  split; [|split].
  - unfold SessionPersistence.hasUndoneTodos.
    cbn [SessionPersistence.todos SessionPersistence.set_todos].
    rewrite existsb_app. simpl. now rewrite orb_true_r.
  - unfold SessionPersistence.isDoneTodoList.
    cbn [SessionPersistence.todos SessionPersistence.set_todos].
    rewrite forallb_app. simpl. now rewrite !andb_false_r.
  - intros Hle. unfold SessionPersistence._findTodoList.
    cbn [SessionPersistence._todoLists]. rewrite Hfind. unfold f.
    cbn [SessionPersistence.todos SessionPersistence.set_todos].
    rewrite find_snoc_fresh.
    + simpl. now rewrite Z.eqb_refl.
    + apply find_none_intro. intros x Hx.
      rewrite Forall_forall in Hle. specialize (Hle x Hx).
      apply Z.eqb_neq. lia.
Qed.

(** ** The session store: [completeAllTodos] *)

Lemma update_first_idem {A} (p : A -> bool) (f : A -> A) (l : list A) :
  (forall x, p (f x) = p x) -> (forall x, f (f x) = f x) ->
  SessionPersistence.update_first p f (SessionPersistence.update_first p f l)
  = SessionPersistence.update_first p f l.
Proof.
  intros Hp Hf. induction l as [|x l IH]; simpl; [reflexivity|].
  destruct (p x) eqn:Px; simpl.
  - now rewrite Hp, Px, Hf.
  - now rewrite Px, IH.
Qed.

(** A todo marked done; the id and the title stay. *)
Lemma all_marked_done (ts : list SessionPersistence.Todo) :
  forallb SessionPersistence.done
    (map (fun todo => SessionPersistence.set_done todo true) ts) = true
  /\ existsb (fun todo => negb (SessionPersistence.done todo))
       (map (fun todo => SessionPersistence.set_done todo true) ts) = false
  /\ map SessionPersistence.todo_id
       (map (fun todo => SessionPersistence.set_done todo true) ts)
     = map SessionPersistence.todo_id ts
  /\ map SessionPersistence.todo_title
       (map (fun todo => SessionPersistence.set_done todo true) ts)
     = map SessionPersistence.todo_title ts.
Proof.
  induction ts as [|t ts (IH1 & IH2 & IH3 & IH4)]; simpl; [now repeat split|].
  rewrite IH1, IH2, IH3, IH4. now repeat split.
Qed.

(** X8.  The session store's [completeAllTodos] answers false and changes
    nothing when no list has the id.  Otherwise it answers true and marks
    every todo of the first list with the id done, keeping their ids,
    titles and order: the list then has no undone todo, and it is done
    exactly when it has a todo.  The other lists are found as before, and
    a second call changes nothing more. *)
Theorem session_completeAllTodos_marks_all (todoListId : Z)
    (self : SessionPersistence.t) :
  let out := SessionPersistence.completeAllTodos todoListId self in
  match SessionPersistence._findTodoList todoListId self with
  | None => out = (false, self)
  | Some L =>
      let L' :=
        SessionPersistence.set_todos L
          (map (fun todo => SessionPersistence.set_done todo true)
             (SessionPersistence.todos L)) in
      fst out = true
      /\ SessionPersistence._findTodoList todoListId (snd out) = Some L'
      /\ (exists i : nat,
             SessionPersistence._todoLists self !! i = Some L
             /\ SessionPersistence._todoLists (snd out)
                = <[i := L']> (SessionPersistence._todoLists self))
      /\ (forall other, other <> todoListId ->
             SessionPersistence._findTodoList other (snd out)
             = SessionPersistence._findTodoList other self)
      /\ map SessionPersistence.todo_id (SessionPersistence.todos L')
         = map SessionPersistence.todo_id (SessionPersistence.todos L)
      /\ map SessionPersistence.todo_title (SessionPersistence.todos L')
         = map SessionPersistence.todo_title (SessionPersistence.todos L)
      /\ SessionPersistence.hasUndoneTodos L' = false
      /\ SessionPersistence.isDoneTodoList L'
         = (0 <? length (SessionPersistence.todos L))%nat
      /\ SessionPersistence.completeAllTodos todoListId (snd out)
         = (true, snd out)
  end.
Proof.
  cbv zeta.
  destruct (SessionPersistence._findTodoList todoListId self) as [L|] eqn:HL;
    [|unfold SessionPersistence.completeAllTodos; now rewrite HL].
  set (f := fun l => SessionPersistence.set_todos l
                       (map (fun todo => SessionPersistence.set_done todo true)
                          (SessionPersistence.todos l))).
  assert (SessionPersistence.completeAllTodos todoListId self
          = (true,
             SessionPersistence.set_lists self
               (SessionPersistence.update_first
                  (fun l => SessionPersistence.id l =? todoListId) f
                  (SessionPersistence._todoLists self)))) as ->
    by (unfold SessionPersistence.completeAllTodos; now rewrite HL).
  destruct (session_assign_found todoListId f self L) as (Hfind & Hplace & Hframe);
    [reflexivity|assumption|].
  cbn [fst snd].
  destruct (all_marked_done (SessionPersistence.todos L)) as (Hall & Hnone & Hids & Htitles).
  split; [reflexivity|split; [exact Hfind|split; [exact Hplace|split; [exact Hframe|]]]].
  cbn [SessionPersistence.todos SessionPersistence.set_todos].
  split; [exact Hids|split; [exact Htitles|split; [exact Hnone|split]]].
  - unfold SessionPersistence.isDoneTodoList.
    cbn [SessionPersistence.todos SessionPersistence.set_todos].
    rewrite Hall, length_map.
    now rewrite andb_true_r.
  - unfold SessionPersistence.completeAllTodos. rewrite Hfind.
    f_equal. unfold SessionPersistence.set_lists.
    cbn [SessionPersistence._todoLists SessionPersistence.currentId].
    f_equal. apply update_first_idem.
    + reflexivity.
    + intros x. unfold f, SessionPersistence.set_todos.
      cbn [SessionPersistence.todos SessionPersistence.id
             SessionPersistence.list_title].
      f_equal. rewrite map_map. apply map_ext. reflexivity.
Qed.

(** ** The session store: [setTodoListTitle] *)

Lemma existsb_insert {A} (q : A -> bool) (i : nat) (x y : A) (l : list A) :
  l !! i = Some y -> q x = true -> existsb q (<[i := x]> l) = true.
Proof.
  intros Hl Hq. apply existsb_exists. exists x. split; [|assumption].
  apply list_elem_of_In, list_elem_of_lookup. exists i.
  apply list_lookup_insert_eq. eapply lookup_lt_Some. eassumption.
Qed.

(** X9.  The session store's [setTodoListTitle] answers false and changes
    nothing when no list has the id.  Otherwise it answers true and gives
    the first list with the id the new title, keeping its id and its
    todos; [existsTodoListTitle] then answers true for the new title, and
    the other lists are found as before. *)
Theorem session_setTodoListTitle_renames (todoListId : Z)
    (todoListTitle : string) (self : SessionPersistence.t) :
  let out := SessionPersistence.setTodoListTitle todoListId todoListTitle self in
  match SessionPersistence._findTodoList todoListId self with
  | None => out = (false, self)
  | Some L =>
      let L' := {| SessionPersistence.id := SessionPersistence.id L;
                   SessionPersistence.list_title := todoListTitle;
                   SessionPersistence.todos := SessionPersistence.todos L |} in
      fst out = true
      /\ SessionPersistence._findTodoList todoListId (snd out) = Some L'
      /\ (exists i : nat,
             SessionPersistence._todoLists self !! i = Some L
             /\ SessionPersistence._todoLists (snd out)
                = <[i := L']> (SessionPersistence._todoLists self))
      /\ (forall other, other <> todoListId ->
             SessionPersistence._findTodoList other (snd out)
             = SessionPersistence._findTodoList other self)
      /\ fst (SessionPersistence.existsTodoListTitle todoListTitle (snd out))
         = true
  end.
Proof.
  cbv zeta. unfold SessionPersistence.setTodoListTitle.
  destruct (SessionPersistence._findTodoList todoListId self) as [L|] eqn:HL;
    [|reflexivity].
  destruct (session_assign_found todoListId
              (fun l => SessionPersistence.set_title l todoListTitle) self L)
    as (Hfind & Hplace & Hframe); [reflexivity|assumption|].
  cbn [fst snd].
  split; [reflexivity|split; [exact Hfind|split; [exact Hplace|split; [exact Hframe|]]]].
  destruct Hplace as (i & Hi & Hlists).
  unfold SessionPersistence.existsTodoListTitle. cbn [fst]. rewrite Hlists.
  apply (existsb_insert _ _ _ L); [assumption|].
  simpl. apply String.eqb_refl.
Qed.

(** ** The session store: which todo [deleteTodo] removes *)

Lemma findIndex_zero {A} (p : A -> bool) (l : list A) :
  JS.findIndex p l = 0 <-> exists x l', l = x :: l' /\ p x = true.
Proof.
  destruct l as [|x l]; simpl.
  - split; [lia|]. now intros (x & l' & H & _).
  - destruct (p x) eqn:Px.
    + split; [|reflexivity]. intros _. now exists x, l.
    + pose proof (findIndex_lower p l).
      split.
      * destruct (JS.findIndex p l <? 0) eqn:E; lia.
      * intros (y & l' & [= -> ->] & Hy). congruence.
Qed.

(** X10.  Which todo the session store's [deleteTodo] removes.  When no
    list has the id, nothing changes.  Otherwise, with [L] the first list
    with the id: a todo that is found and stands first in [L] stays, and
    nothing changes; a todo that is found at a later place is removed, and
    only it; and when no todo of [L] has the id, the last todo of [L] is
    removed.  In each case the other lists are found as before. *)
Theorem session_deleteTodo_by_place (todoListId todoId : Z)
    (self : SessionPersistence.t) :
  let out := SessionPersistence.deleteTodo todoListId todoId self in
  match SessionPersistence._findTodoList todoListId self with
  | None => out = (SessionPersistence.undefined, self)
  | Some L =>
      match SessionPersistence._findTodo todoListId todoId self with
      | Some todo =>
          if heads_with todoId L then out = (SessionPersistence.undefined, self)
          else
            exists j : nat,
              (0 < j)%nat
              /\ SessionPersistence.todos L !! j = Some todo
              /\ SessionPersistence._findTodoList todoListId (snd out)
                 = Some (SessionPersistence.set_todos L
                           (delete j (SessionPersistence.todos L)))
      | None =>
          SessionPersistence._findTodoList todoListId (snd out)
          = Some (SessionPersistence.set_todos L
                    (removelast (SessionPersistence.todos L)))
      end
      /\ (forall other, other <> todoListId ->
             SessionPersistence._findTodoList other (snd out)
             = SessionPersistence._findTodoList other self)
  end.
Proof.
  cbv zeta. unfold SessionPersistence.deleteTodo, SessionPersistence._findTodo.
  destruct (SessionPersistence._findTodoList todoListId self) as [L|] eqn:HL;
    [|reflexivity].
  pose proof (findIndex_find (fun todo => SessionPersistence.todo_id todo =? todoId)
                (SessionPersistence.todos L)) as Hidx.
  pose proof (findIndex_zero (fun todo => SessionPersistence.todo_id todo =? todoId)
                (SessionPersistence.todos L)) as Hzero.
  set (idx := JS.findIndex _ (SessionPersistence.todos L)) in *.
  set (f := fun l => SessionPersistence.set_todos l
                       (JS.splice idx 1 (SessionPersistence.todos l))).
  destruct (session_assign_found todoListId f self L) as (Hfind & _ & Hframe);
    [reflexivity|assumption|].
  unfold JS.not_number.
  destruct (List.find _ (SessionPersistence.todos L)) as [todo|].
  - destruct Hidx as (j & Hj & Hl & Hp & _).
    destruct (heads_with todoId L) eqn:Hh.
    + assert (idx = 0) as ->.
      { apply Hzero. unfold heads_with in Hh.
        destruct (SessionPersistence.todos L) as [|t ts]; [discriminate|].
        now exists t, ts. }
      split; [reflexivity|]. intros other _. reflexivity.
    + destruct (idx =? 0) eqn:E.
      * apply Z.eqb_eq, Hzero in E as (x & l' & Hx & Px).
        unfold heads_with in Hh. rewrite Hx in Hh. congruence.
      * cbn [snd]. split; [|exact Hframe].
        exists j. split; [lia|split; [assumption|]].
        rewrite Hfind. unfold f. rewrite Hj.
        rewrite splice_one by (eapply lookup_lt_Some; eassumption).
        reflexivity.
  - rewrite Hidx. cbn [snd Z.eqb]. split; [|exact Hframe].
    rewrite Hfind. unfold f. rewrite Hidx. now rewrite splice_last.
Qed.

(** ** The session store: the ids stay in order *)

Lemma Forall_sublist {A} (P : A -> Prop) (l1 l2 : list A) :
  l1 `sublist_of` l2 -> Forall P l2 -> Forall P l1.
Proof.
  induction 1 as [|x l1 l2 _ IH|x l1 l2 _ IH]; intros H.
  - constructor.
  - apply Forall_cons in H as [Hx H]. constructor; auto.
  - apply Forall_cons in H as [_ H]. auto.
Qed.

Lemma splice_sublist {A} (start : Z) (n : nat) (l : list A) :
  JS.splice start n l `sublist_of` l.
Proof.
  unfold JS.splice.
  set (from := Z.to_nat _).
  rewrite <- (take_drop from l) at 3.
  apply sublist_app; [reflexivity|].
  rewrite <- drop_drop. apply sublist_drop.
Qed.

Lemma map_update_first {A B} (key : A -> B) (p : A -> bool) (f : A -> A)
    (l : list A) :
  (forall x, key (f x) = key x) ->
  map key (SessionPersistence.update_first p f l) = map key l.
Proof.
  intros Hk. induction l as [|x l IH]; simpl; [reflexivity|].
  destruct (p x); simpl; [now rewrite Hk|now rewrite IH].
Qed.

Lemma Forall_update_first {A} (P Q : A -> Prop) (p : A -> bool) (f : A -> A)
    (l : list A) :
  (forall x, P x -> Q x) -> (forall x, P x -> Q (f x)) ->
  Forall P l -> Forall Q (SessionPersistence.update_first p f l).
Proof.
  intros HPQ Hf. induction 1 as [|x l Hx Hl IH]; simpl; [constructor|].
  destruct (p x); constructor; auto.
  eapply Forall_impl; eauto.
Qed.

Lemma list_in_order_mono (c c' : Z) (L : SessionPersistence.TodoList) :
  c <= c' -> list_in_order c L -> list_in_order c' L.
Proof.
  intros Hc (Hid & Hnd & Hle). split; [lia|split; [assumption|]].
  eapply Forall_impl; [exact Hle|]. simpl. intros. lia.
Qed.

(** The order of the ids survives an assignment to the list found, when
    the assignment keeps the id of the list and the order of its todos'
    ids. *)
Lemma ids_in_order_assign (p : SessionPersistence.TodoList -> bool)
    (f : SessionPersistence.TodoList -> SessionPersistence.TodoList)
    (self : SessionPersistence.t) (c' : Z) :
  SessionPersistence.currentId self <= c' ->
  (forall l, SessionPersistence.id (f l) = SessionPersistence.id l) ->
  (forall l, list_in_order (SessionPersistence.currentId self) l ->
             list_in_order c' (f l)) ->
  ids_in_order self ->
  ids_in_order
    {| SessionPersistence._todoLists :=
         SessionPersistence.update_first p f (SessionPersistence._todoLists self);
       SessionPersistence.currentId := c' |}.
Proof.
  intros Hc Hid Hf (Hnd & Hall). split; simpl.
  - now rewrite map_update_first.
  - eapply Forall_update_first; [| |exact Hall]; [|exact Hf].
    intros x. now apply list_in_order_mono.
Qed.

Lemma NoDup_snoc_fresh (l : list Z) (c : Z) :
  NoDup l -> Forall (fun n => n <= c) l -> NoDup (l ++ [c + 1]).
Proof.
  intros Hnd Hle. apply NoDup_app. split; [assumption|split].
  - intros x Hx Hx'. apply list_elem_of_singleton in Hx'.
    rewrite Forall_forall in Hle. specialize (Hle x Hx). lia.
  - apply NoDup_singleton.
Qed.

(** X11.  The ids of the session store stay in order.  When no two lists
    have the same id, no two todos of a list have the same id and no id is
    ahead of the counter of [nextId], the same is true after each of the
    seven methods that write, whatever their arguments: a list or a todo
    that is created gets an id that nothing of its kind has. *)
Theorem session_ids_stay_in_order (self : SessionPersistence.t) :
  ids_in_order self ->
  (forall todoListId,
      ids_in_order (snd (SessionPersistence.deleteTodoList todoListId self)))
  /\ (forall todoListTitle,
         ids_in_order (snd (SessionPersistence.createdTodoList todoListTitle self)))
  /\ (forall todoListId todoId,
         ids_in_order (snd (SessionPersistence.toggleTodo todoListId todoId self)))
  /\ (forall todoListId todoId,
         ids_in_order (snd (SessionPersistence.deleteTodo todoListId todoId self)))
  /\ (forall todoListId todoTitle,
         ids_in_order (snd (SessionPersistence.addedTodo todoListId todoTitle self)))
  /\ (forall todoListId,
         ids_in_order (snd (SessionPersistence.completeAllTodos todoListId self)))
  /\ (forall todoListId todoListTitle,
         ids_in_order
           (snd (SessionPersistence.setTodoListTitle todoListId todoListTitle self))).
Proof.
  intros Hself.
  assert (forall p f,
             (forall l, SessionPersistence.id (f l) = SessionPersistence.id l) ->
             (forall l, list_in_order (SessionPersistence.currentId self) l ->
                        list_in_order (SessionPersistence.currentId self) (f l)) ->
             ids_in_order
               (SessionPersistence.set_lists self
                  (SessionPersistence.update_first p f
                     (SessionPersistence._todoLists self)))) as Hassign.
  { intros p f Hid Hf. apply ids_in_order_assign; auto. lia. }
  split; [|split; [|split; [|split; [|split; [|split]]]]].
  - intros todoListId. unfold SessionPersistence.deleteTodoList.
    destruct (_ =? -1); [exact Hself|]. cbn [snd].
    destruct Hself as (Hnd & Hall). split; simpl.
    + eapply sublist_NoDup; [exact Hnd|].
      apply fmap_sublist, splice_sublist.
    + eapply Forall_sublist; [apply splice_sublist|exact Hall].
  - intros todoListTitle.
    unfold SessionPersistence.createdTodoList, SessionPersistence.nextId,
      SessionPersistence.set_lists.
    cbn [snd SessionPersistence._todoLists SessionPersistence.currentId].
    destruct Hself as (Hnd & Hall). split; simpl.
    + rewrite map_app. simpl. apply NoDup_snoc_fresh; [assumption|].
      apply Forall_fmap. eapply Forall_impl; [exact Hall|].
      now intros x (Hx & _).
    + apply Forall_app. split.
      * eapply Forall_impl; [exact Hall|]. intros x.
        apply list_in_order_mono. lia.
      * constructor; [|constructor].
        split; simpl; [lia|split; constructor].
  - intros todoListId todoId. unfold SessionPersistence.toggleTodo.
    destruct (SessionPersistence._findTodo _ _ _); [|exact Hself]. cbn [snd].
    apply Hassign; [reflexivity|].
    intros l (Hid & Hnd & Hle). split; [exact Hid|]. simpl. split.
    + now rewrite map_update_first.
    + eapply Forall_update_first; [| |exact Hle]; auto.
  - intros todoListId todoId. unfold SessionPersistence.deleteTodo.
    destruct (SessionPersistence._findTodoList _ _); [|exact Hself].
    destruct (JS.not_number _); [exact Hself|]. cbn [snd].
    apply Hassign; [reflexivity|].
    intros l (Hid & Hnd & Hle). split; [exact Hid|]. simpl. split.
    + eapply sublist_NoDup; [exact Hnd|].
      apply fmap_sublist, splice_sublist.
    + eapply Forall_sublist; [apply splice_sublist|exact Hle].
  - intros todoListId todoTitle. unfold SessionPersistence.addedTodo.
    destruct (SessionPersistence._findTodoList _ _); [|exact Hself].
    unfold SessionPersistence.nextId, SessionPersistence.set_lists.
    cbn [snd SessionPersistence._todoLists SessionPersistence.currentId].
    apply ids_in_order_assign; [lia|reflexivity| |exact Hself].
    intros l (Hid & Hnd & Hle). split; simpl; [lia|split].
    + rewrite map_app. simpl. apply NoDup_snoc_fresh; [assumption|].
      now apply Forall_fmap.
    + apply Forall_app. split.
      * eapply Forall_impl; [exact Hle|]. simpl. intros. lia.
      * constructor; [simpl; lia|constructor].
  - intros todoListId. unfold SessionPersistence.completeAllTodos.
    destruct (SessionPersistence._findTodoList _ _); [|exact Hself]. cbn [snd].
    apply Hassign; [reflexivity|].
    intros l (Hid & Hnd & Hle). split; [exact Hid|]. simpl. split.
    + rewrite map_map. simpl. exact Hnd.
    + apply Forall_fmap. exact Hle.
  - intros todoListId todoListTitle. unfold SessionPersistence.setTodoListTitle.
    destruct (SessionPersistence._findTodoList _ _); [|exact Hself]. cbn [snd].
    apply Hassign; [reflexivity|]. now intros l H.
Qed.

Lemma session_ids_stay_in_order_witness :
  ids_in_order Sample.session_store
  /\ ids_in_order
       (snd (SessionPersistence.addedTodo 2 "Sweep" Sample.session_store)).
Proof.
  assert (ids_in_order Sample.session_store) as H.
  { unfold ids_in_order, list_in_order. simpl.
    repeat split; repeat constructor; simpl; try lia;
      apply (bool_decide_unpack _); reflexivity. }
  split; [exact H|].
  apply (session_ids_stay_in_order Sample.session_store H).
Defined.

(** ** [hasUndoneTodos] and [isDoneTodoList] *)

Lemma forallb_negb_existsb {A} (p : A -> bool) (l : list A) :
  forallb p l = negb (existsb (fun x => negb (p x)) l).
Proof.
  induction l as [|x l IH]; simpl; [reflexivity|].
  rewrite IH. now destruct (p x).
Qed.

Lemma done_or_undone {A} (done_ : A -> bool) (l : list A) :
  ((0 <? length l)%nat && forallb done_ l
   = (0 <? length l)%nat && negb (existsb (fun x => negb (done_ x)) l))
  /\ (existsb (fun x => negb (done_ x)) l = true
      <-> Exists (fun x => done_ x = false) l)
  /\ ((0 <? length l)%nat && forallb done_ l = false
      /\ existsb (fun x => negb (done_ x)) l = false
      <-> l = []).
Proof.
  split; [now rewrite forallb_negb_existsb|split].
  - rewrite existsb_exists, Exists_exists. split; intros (x & Hx & Hd); exists x.
    + split; [now apply list_elem_of_In|]. now apply negb_true_iff.
    + split; [now apply list_elem_of_In|]. now apply negb_true_iff.
  - rewrite forallb_negb_existsb. split.
    + intros [H1 H2]. rewrite H2 in H1. destruct l; [reflexivity|discriminate].
    + intros ->. now split.
Qed.

(** X12.  In all three stores [hasUndoneTodos] and [isDoneTodoList] go
    together as follows: a list is done exactly when it has a todo and
    [hasUndoneTodos] is false (so the two are never both true);
    [hasUndoneTodos] is true exactly when some todo of the list is not
    done; and both are false exactly for the list without todos. *)
Theorem hasUndoneTodos_against_isDoneTodoList :
  (forall L : SessionPersistence.TodoList,
      (SessionPersistence.isDoneTodoList L
       = (0 <? length (SessionPersistence.todos L))%nat
         && negb (SessionPersistence.hasUndoneTodos L))
      /\ (SessionPersistence.hasUndoneTodos L = true
          <-> Exists (fun todo => SessionPersistence.done todo = false)
                (SessionPersistence.todos L))
      /\ (SessionPersistence.isDoneTodoList L = false
          /\ SessionPersistence.hasUndoneTodos L = false
          <-> SessionPersistence.todos L = []))
  /\ (forall L : Pg.TodoList,
         (PgSingleUser.isDoneTodoList L
          = (0 <? length (Pg.list_todos L))%nat
            && negb (PgSingleUser.hasUndoneTodos L))
         /\ (PgSingleUser.hasUndoneTodos L = true
             <-> Exists (fun todo => Pg.td_done todo = false) (Pg.list_todos L))
         /\ (PgSingleUser.isDoneTodoList L = false
             /\ PgSingleUser.hasUndoneTodos L = false
             <-> Pg.list_todos L = []))
  /\ (forall L : Pg.TodoList,
         (PgMultiUser.isDoneTodoList L
          = (0 <? length (Pg.list_todos L))%nat
            && negb (PgMultiUser.hasUndoneTodos L))
         /\ (PgMultiUser.hasUndoneTodos L = true
             <-> Exists (fun todo => Pg.td_done todo = false) (Pg.list_todos L))
         /\ (PgMultiUser.isDoneTodoList L = false
             /\ PgMultiUser.hasUndoneTodos L = false
             <-> Pg.list_todos L = [])).
Proof.
  split; [|split]; intros L.
  - apply (done_or_undone SessionPersistence.done).
  - apply (done_or_undone Pg.td_done).
  - apply (done_or_undone Pg.td_done).
Qed.

(** ** [sortedTodos] *)

#[global] Instance done_then_title_trans : Transitive done_then_title.
Proof.
  intros x y z [[Hx Hy]|[Hxy Lxy]] [[Hy' Hz]|[Hyz Lyz]]; unfold done_then_title.
  - congruence.
  - left. split; congruence.
  - left. split; congruence.
  - right. split; [congruence|]. now transitivity y.
Qed.

(** ORDER BY done, LOWER(title) compares by [done] first, and as
    [compareByTitle] does between rows of the same state. *)
Lemma order_by_done_then_title (a b : Pg.TodoRow) :
  Pg.order_cmp (t := Pg.todos) [Pg.by_col Pg.done; Pg.by_lower Pg.title] a b
  = if Bool.eqb (Pg.td_done a) (Pg.td_done b) then Sort.compareByTitle a b
    else if Pg.td_done b then -1 else 1.
Proof.
  unfold Sort.compareByTitle. simpl. unfold title_of, TodoRow_titled.
  destruct (Bool.eqb (Pg.td_done a) (Pg.td_done b)); simpl.
  - destruct (JS.str_lt (JS.toLowerCase (Pg.td_title a))
                (JS.toLowerCase (Pg.td_title b))); [reflexivity|].
    now destruct (JS.str_lt (JS.toLowerCase (Pg.td_title b))
                    (JS.toLowerCase (Pg.td_title a))).
  - now destruct (Pg.td_done b).
Qed.

Lemma order_by_done_after (x y : Pg.TodoRow) :
  0 < Pg.order_cmp (t := Pg.todos) [Pg.by_col Pg.done; Pg.by_lower Pg.title] x y ->
  done_then_title y x.
Proof.
  rewrite order_by_done_then_title.
  destruct (Bool.eqb (Pg.td_done x) (Pg.td_done y)) eqn:E.
  - apply Bool.eqb_prop in E. intros H. right. split; [congruence|].
    now apply compareByTitle_after.
  - destruct (Pg.td_done y) eqn:Dy; [lia|]. intros _. left.
    destruct (Pg.td_done x); [now split|discriminate].
Qed.

Lemma order_by_done_not_after (x y : Pg.TodoRow) :
  ~ 0 < Pg.order_cmp (t := Pg.todos) [Pg.by_col Pg.done; Pg.by_lower Pg.title] x y ->
  done_then_title x y.
Proof.
  rewrite order_by_done_then_title.
  destruct (Bool.eqb (Pg.td_done x) (Pg.td_done y)) eqn:E.
  - apply Bool.eqb_prop in E. intros H. right. split; [congruence|].
    now apply compareByTitle_not_after.
  - destruct (Pg.td_done y) eqn:Dy; [|lia]. intros _. left.
    destruct (Pg.td_done x); [discriminate|now split].
Qed.

(** A sequence in the order of ORDER BY done, LOWER(title) is its rows
    that are not done, then its rows that are done. *)
Lemma done_then_title_splits (l : list Pg.TodoRow) :
  StronglySorted done_then_title l ->
  l = List.filter (fun r => negb (Pg.td_done r)) l ++ List.filter Pg.td_done l.
Proof.
  induction 1 as [|x l Hl IH Hx]; simpl; [reflexivity|].
  destruct (Pg.td_done x) eqn:Dx; simpl; [|now rewrite <- IH].
  assert (Forall (fun r => Pg.td_done r = true) l) as Hall.
  { eapply Forall_impl; [exact Hx|]. intros y [[H _]|[H _]]; congruence. }
  rewrite (filter_none (fun r => negb (Pg.td_done r))).
  - simpl. f_equal. symmetry. apply forallb_filter_id.
    apply forallb_forall. rewrite Forall_forall in Hall.
    intros y Hy. apply Hall. now apply list_elem_of_In.
  - apply not_true_iff_false. intros H.
    apply existsb_exists in H as (y & Hy & Hd).
    rewrite Forall_forall in Hall. apply list_elem_of_In in Hy.
    rewrite (Hall y Hy) in Hd. discriminate.
Qed.

Lemma done_then_title_same_state (b : bool) (l : list Pg.TodoRow) :
  Forall (fun r => Pg.td_done r = b) l ->
  StronglySorted done_then_title l -> title_ascending l.
Proof.
  intros Hb. induction 1 as [|x l Hl IH Hx]; [constructor|].
  apply Forall_cons in Hb as [Hxb Hb].
  constructor; [now apply IH|].
  rewrite Forall_forall in *. intros y Hy.
  destruct (Hx y Hy) as [[H1 H2]|[_ H]]; [|exact H].
  specialize (Hb y Hy). simpl in Hb. congruence.
Qed.

Lemma Forall_filter_bool {A} (p : A -> bool) (l : list A) :
  Forall (fun x => p x = true) (List.filter p l).
Proof.
  apply Forall_forall. intros x Hx.
  now apply list_elem_of_In, filter_In in Hx as [_ Hx].
Qed.

(** What ORDER BY done, LOWER(title) gives. *)
Lemma ordered_done_then_title (rs : list Pg.TodoRow) :
  undone_then_done Pg.td_done rs
    (Pg.ordered (t := Pg.todos) [Pg.by_col Pg.done; Pg.by_lower Pg.title] rs).
Proof.
  unfold Pg.ordered.
  set (cmp := Pg.order_cmp (t := Pg.todos) _).
  assert (StronglySorted done_then_title (JS.sort cmp rs)) as Hsorted.
  { apply sort_StronglySorted.
    - apply done_then_title_trans.
    - apply order_by_done_after.
    - apply order_by_done_not_after. }
  exists (List.filter (fun r => negb (Pg.td_done r)) (JS.sort cmp rs)),
    (List.filter Pg.td_done (JS.sort cmp rs)).
  split; [now apply done_then_title_splits|].
  split; [apply filter_Permutation_bool, sort_Permutation|].
  split; [apply filter_Permutation_bool, sort_Permutation|].
  split.
  - apply (done_then_title_same_state false).
    + eapply Forall_impl; [apply Forall_filter_bool|].
      intros x. apply negb_true_iff.
    + now apply filter_StronglySorted.
  - apply (done_then_title_same_state true).
    + apply Forall_filter_bool.
    + now apply filter_StronglySorted.
Qed.

Lemma session_sortedTodos_run (L : SessionPersistence.TodoList)
    (self : SessionPersistence.t) :
  SessionPersistence.sortedTodos L self
  = (JS.sort Sort.compareByTitle
       (List.filter (fun todo => negb (SessionPersistence.done todo))
          (SessionPersistence.todos L))
     ++ JS.sort Sort.compareByTitle
          (List.filter SessionPersistence.done (SessionPersistence.todos L)),
     self).
Proof.
  unfold SessionPersistence.sortedTodos, SessionPersistence.deepCopy.
  rewrite sortTodoItems_distinct by discriminate. reflexivity.
Qed.

Lemma single_sortedTodos_run (L : Pg.TodoList) (w : Pg.World) :
  exists log,
    PgSingleUser.sortedTodos L w
    = (JS.Return
         (Pg.ordered (t := Pg.todos) [Pg.by_col Pg.done; Pg.by_lower Pg.title]
            (List.filter (in_list (Pg.tl_id (Pg.list_row L)))
               (Pg.todos_table (Pg.database w)))),
       {| Pg.database := Pg.database w; Pg.sent := log |}).
Proof.
  unfold PgSingleUser.sortedTodos, Pg.bind.
  rewrite dbQuery_select by reflexivity.
  unfold Pg.ret, Pg.select. cbn [Pg.rows Pg.rows_of Pg.table_of].
  rewrite (filter_pointwise _ _ _ (holds_in_list (Pg.tl_id (Pg.list_row L)))).
  eexists. reflexivity.
Qed.

Lemma multi_sortedTodos_run (self : PgMultiUser.t) (L : Pg.TodoList)
    (w : Pg.World) :
  exists log,
    PgMultiUser.sortedTodos self L w
    = (JS.Return
         (Pg.ordered (t := Pg.todos) [Pg.by_col Pg.done; Pg.by_lower Pg.title]
            (List.filter
               (in_list_of (PgMultiUser.username_ self) (Pg.tl_id (Pg.list_row L)))
               (Pg.todos_table (Pg.database w)))),
       {| Pg.database := Pg.database w; Pg.sent := log |}).
Proof.
  unfold PgMultiUser.sortedTodos, Pg.bind.
  rewrite dbQuery_select by reflexivity.
  unfold Pg.ret, Pg.select. cbn [Pg.rows Pg.rows_of Pg.table_of].
  rewrite (filter_pointwise _ _ _
             (holds_in_list_of self (Pg.tl_id (Pg.list_row L)))).
  eexists. reflexivity.
Qed.

(** X13.  [sortedTodos] gives exactly the todos that are not done in
    ascending case-insensitive title order, then exactly the todos that
    are done in ascending case-insensitive title order, and changes
    nothing.  The session store takes the todos from the [todos] of its
    argument.  The relational stores take them from the table, by the id
    of the argument (and the user name in the multi-user store): the
    [todos] of the argument play no part. *)
Theorem sortedTodos_undone_then_done :
  (forall L self,
      undone_then_done SessionPersistence.done (SessionPersistence.todos L)
        (fst (SessionPersistence.sortedTodos L self))
      /\ snd (SessionPersistence.sortedTodos L self) = self)
  /\ (forall L w,
         exists result,
           fst (PgSingleUser.sortedTodos L w) = JS.Return result
           /\ undone_then_done Pg.td_done
                (List.filter (in_list (Pg.tl_id (Pg.list_row L)))
                   (Pg.todos_table (Pg.database w)))
                result
           /\ Pg.database (snd (PgSingleUser.sortedTodos L w)) = Pg.database w)
  /\ (forall self L w,
         exists result,
           fst (PgMultiUser.sortedTodos self L w) = JS.Return result
           /\ undone_then_done Pg.td_done
                (List.filter
                   (in_list_of (PgMultiUser.username_ self)
                      (Pg.tl_id (Pg.list_row L)))
                   (Pg.todos_table (Pg.database w)))
                result
           /\ Pg.database (snd (PgMultiUser.sortedTodos self L w))
              = Pg.database w).
Proof.
  split; [|split].
  - intros L self. rewrite session_sortedTodos_run. split; [|reflexivity].
    eexists _, _. split; [reflexivity|].
    split; [apply sort_Permutation|]. split; [apply sort_Permutation|].
    split; apply sort_by_title_ascending.
  - intros L w. destruct (single_sortedTodos_run L w) as [log ->].
    eexists. split; [reflexivity|]. split; [|reflexivity].
    apply ordered_done_then_title.
  - intros self L w. destruct (multi_sortedTodos_run self L w) as [log ->].
    eexists. split; [reflexivity|]. split; [|reflexivity].
    apply ordered_done_then_title.
Qed.

(** ** [loadTodoList] and [loadTodo] of the relational stores *)

Lemma single_loadTodo_run (todoListId todoId : Z) (w : Pg.World) :
  exists log,
    PgSingleUser.loadTodo todoListId todoId w
    = (JS.Return (List.find (is_todo todoListId todoId)
                    (Pg.todos_table (Pg.database w))),
       {| Pg.database := Pg.database w; Pg.sent := log |}).
Proof.
  unfold PgSingleUser.loadTodo, Pg.bind.
  rewrite dbQuery_select by reflexivity.
  unfold Pg.ret, Pg.select. cbn [Pg.rows Pg.rows_of Pg.table_of Pg.ordered].
  rewrite (filter_pointwise _ _ _ (holds_is_todo todoListId todoId)).
  rewrite <- find_head_filter. eexists. reflexivity.
Qed.

Lemma multi_loadTodo_run (self : PgMultiUser.t) (todoListId todoId : Z)
    (w : Pg.World) :
  exists log,
    PgMultiUser.loadTodo self todoListId todoId w
    = (JS.Return
         (List.find (is_todo_of (PgMultiUser.username_ self) todoListId todoId)
            (Pg.todos_table (Pg.database w))),
       {| Pg.database := Pg.database w; Pg.sent := log |}).
Proof.
  unfold PgMultiUser.loadTodo, Pg.bind.
  rewrite dbQuery_select by reflexivity.
  unfold Pg.ret, Pg.select. cbn [Pg.rows Pg.rows_of Pg.table_of Pg.ordered].
  rewrite (filter_pointwise _ _ _ (holds_is_todo_of self todoListId todoId)).
  rewrite <- find_head_filter. eexists. reflexivity.
Qed.

Lemma single_loadTodoList_run (b_first : bool) (todoListId : Z) (w : Pg.World) :
  exists log,
    PgSingleUser.loadTodoList b_first todoListId w
    = (JS.Return
         (option_map (joined (in_list todoListId) (Pg.database w))
            (List.find (is_list todoListId)
               (Pg.todolists_table (Pg.database w)))),
       {| Pg.database := Pg.database w; Pg.sent := log |}).
Proof.
  unfold PgSingleUser.loadTodoList, Pg.bind.
  destruct (Promise_all_selects b_first Pg.todolists Pg.todos
              [(Pg.id, 1%nat)] [(Pg.todolist_id, 1%nat)] [] []
              [Pg.VInt todoListId] [Pg.VInt todoListId] w) as [log ->];
    [reflexivity|reflexivity|].
  exists log. unfold Pg.select.
  cbn [fst snd Pg.rows Pg.rows_of Pg.table_of Pg.ordered].
  rewrite (filter_pointwise _ _ _ (holds_is_list todoListId)).
  rewrite (filter_pointwise _ _ _ (holds_in_list todoListId)).
  rewrite find_head_filter.
  now destruct (List.filter (is_list todoListId) _).
Qed.

Lemma multi_loadTodoList_run (self : PgMultiUser.t) (b_first : bool)
    (todoListId : Z) (w : Pg.World) :
  exists log,
    PgMultiUser.loadTodoList self b_first todoListId w
    = (JS.Return
         (option_map
            (joined (in_list_of (PgMultiUser.username_ self) todoListId)
               (Pg.database w))
            (List.find (is_list_of (PgMultiUser.username_ self) todoListId)
               (Pg.todolists_table (Pg.database w)))),
       {| Pg.database := Pg.database w; Pg.sent := log |}).
Proof.
  unfold PgMultiUser.loadTodoList, Pg.bind.
  destruct (Promise_all_selects b_first Pg.todolists Pg.todos
              [(Pg.id, 1%nat); (Pg.username, 2%nat)]
              [(Pg.todolist_id, 1%nat); (Pg.username, 2%nat)] [] []
              [Pg.VInt todoListId; PgMultiUser.this_username self]
              [Pg.VInt todoListId; PgMultiUser.this_username self] w)
    as [log ->]; [reflexivity|reflexivity|].
  exists log. unfold Pg.select.
  cbn [fst snd Pg.rows Pg.rows_of Pg.table_of Pg.ordered].
  rewrite (filter_pointwise _ _ _ (holds_is_list_of self todoListId)).
  rewrite (filter_pointwise _ _ _ (holds_in_list_of self todoListId)).
  rewrite find_head_filter.
  now destruct (List.filter (is_list_of _ todoListId) _).
Qed.

(** X14.  What the relational stores load.  [loadTodoList] gives the
    first row of [todolists] with the id (and the user name, in the
    multi-user store) joined with the rows of [todos] that refer to the
    id (and have the user name), in storage order, and nothing when there
    is no such row of [todolists]; [loadTodo] gives the first row of
    [todos] with the two ids (and the user name).  The answer of
    [loadTodoList] does not depend on which of its two queries the server
    runs first, and neither method changes the database. *)
Theorem relational_loads_first_match :
  (forall b_first todoListId w,
      let out := PgSingleUser.loadTodoList b_first todoListId w in
      fst out
      = JS.Return
          (option_map (joined (in_list todoListId) (Pg.database w))
             (List.find (is_list todoListId)
                (Pg.todolists_table (Pg.database w))))
      /\ Pg.database (snd out) = Pg.database w)
  /\ (forall todoListId todoId w,
         let out := PgSingleUser.loadTodo todoListId todoId w in
         fst out
         = JS.Return (List.find (is_todo todoListId todoId)
                        (Pg.todos_table (Pg.database w)))
         /\ Pg.database (snd out) = Pg.database w)
  /\ (forall self b_first todoListId w,
         let out := PgMultiUser.loadTodoList self b_first todoListId w in
         let u := PgMultiUser.username_ self in
         fst out
         = JS.Return
             (option_map (joined (in_list_of u todoListId) (Pg.database w))
                (List.find (is_list_of u todoListId)
                   (Pg.todolists_table (Pg.database w))))
         /\ Pg.database (snd out) = Pg.database w)
  /\ (forall self todoListId todoId w,
         let out := PgMultiUser.loadTodo self todoListId todoId w in
         fst out
         = JS.Return
             (List.find (is_todo_of (PgMultiUser.username_ self) todoListId todoId)
                (Pg.todos_table (Pg.database w)))
         /\ Pg.database (snd out) = Pg.database w).
Proof.
  split; [|split; [|split]].
  - intros b_first todoListId w.
    destruct (single_loadTodoList_run b_first todoListId w) as [log H].
    cbv zeta. rewrite H. now split.
  - intros todoListId todoId w.
    destruct (single_loadTodo_run todoListId todoId w) as [log H].
    cbv zeta. rewrite H. now split.
  - intros self b_first todoListId w.
    destruct (multi_loadTodoList_run self b_first todoListId w) as [log H].
    cbv zeta. rewrite H. now split.
  - intros self todoListId todoId w.
    destruct (multi_loadTodo_run self todoListId todoId w) as [log H].
    cbv zeta. rewrite H. now split.
Qed.

(** ** [toggleTodo], then [loadTodo] *)

Lemma existsb_find {A} (p : A -> bool) (l : list A) :
  existsb p l = match List.find p l with Some _ => true | None => false end.
Proof.
  induction l as [|x l IH]; simpl; [reflexivity|]. now destruct (p x).
Qed.

Lemma find_toggle_where (p : Pg.TodoRow -> bool) (rs : list Pg.TodoRow) :
  (forall r, p (pg_toggled r) = p r) ->
  List.find p (toggle_where p rs) = option_map pg_toggled (List.find p rs).
Proof.
  intros Hp. induction rs as [|r rs IH]; simpl; [reflexivity|].
  destruct (p r) eqn:Pr.
  - now rewrite Hp, Pr.
  - now rewrite Pr, IH.
Qed.

(** X15.  [toggleTodo], then [loadTodo], in the relational stores.
    [toggleTodo] answers true exactly when [loadTodo] finds a todo for the
    same ids; a [loadTodo] after the [toggleTodo] then gives the todo that
    a [loadTodo] before it gave, with [done] flipped and nothing else
    changed, and it gives nothing when there was nothing before. *)
Theorem toggleTodo_then_loadTodo :
  (forall todoListId todoId w,
      let found := List.find (is_todo todoListId todoId)
                     (Pg.todos_table (Pg.database w)) in
      let w' := snd (PgSingleUser.toggleTodo todoListId todoId w) in
      fst (PgSingleUser.loadTodo todoListId todoId w) = JS.Return found
      /\ fst (PgSingleUser.toggleTodo todoListId todoId w)
         = JS.Return match found with Some _ => true | None => false end
      /\ fst (PgSingleUser.loadTodo todoListId todoId w')
         = JS.Return (option_map pg_toggled found))
  /\ (forall self todoListId todoId w,
         let found :=
           List.find (is_todo_of (PgMultiUser.username_ self) todoListId todoId)
             (Pg.todos_table (Pg.database w)) in
         let w' := snd (PgMultiUser.toggleTodo self todoListId todoId w) in
         fst (PgMultiUser.loadTodo self todoListId todoId w) = JS.Return found
         /\ fst (PgMultiUser.toggleTodo self todoListId todoId w)
            = JS.Return match found with Some _ => true | None => false end
         /\ fst (PgMultiUser.loadTodo self todoListId todoId w')
            = JS.Return (option_map pg_toggled found)).
Proof.
  split.
  - intros todoListId todoId w. cbv zeta.
    destruct (single_loadTodo_run todoListId todoId w) as [log ->].
    rewrite single_toggleTodo_run. cbn [fst snd].
    match goal with
    | |- context [PgSingleUser.loadTodo _ _ ?w'] =>
        destruct (single_loadTodo_run todoListId todoId w') as [log' ->]
    end.
    cbn [fst Pg.database Pg.todos_table Pg.with_todos].
    rewrite find_toggle_where by reflexivity.
    now rewrite existsb_find.
  - intros self todoListId todoId w. cbv zeta.
    destruct (multi_loadTodo_run self todoListId todoId w) as [log ->].
    rewrite multi_toggleTodo_run. cbn [fst snd].
    match goal with
    | |- context [PgMultiUser.loadTodo _ _ _ ?w'] =>
        destruct (multi_loadTodo_run self todoListId todoId w') as [log' ->]
    end.
    cbn [fst Pg.database Pg.todos_table Pg.with_todos].
    rewrite find_toggle_where by reflexivity.
    now rewrite existsb_find.
Qed.

(** ** The single-user [deleteTodo] *)

Lemma dbQuery_delete_todos (wh : list Pg.cond) (ps : list Pg.value)
    (w : Pg.World) :
  length ps = Pg.arity (Pg.DELETE_FROM Pg.todos wh) ->
  Pg.dbQuery (Pg.DELETE_FROM Pg.todos wh) ps w
  = (JS.Return
       (Pg.no_rows Pg.todos
          (Pg.count_where (t := Pg.todos) wh ps (Pg.todos_table (Pg.database w)))),
     {| Pg.database := Pg.delete_todos wh ps (Pg.database w);
        Pg.sent := Pg.sent w
                   ++ [ {| Pg.text := Pg.DELETE_FROM Pg.todos wh;
                           Pg.parameters := ps |} ] |}).
Proof.
  intros Hlen. unfold Pg.dbQuery, Pg.execute.
  rewrite Hlen, Nat.eqb_refl. reflexivity.
Qed.

Lemma find_filter_through {A} (q p : A -> bool) (l : list A) :
  (forall x, q x = true -> p x = true) ->
  List.find q (List.filter p l) = List.find q l.
Proof.
  intros H. induction l as [|x l IH]; simpl; [reflexivity|].
  destruct (q x) eqn:Qx.
  - rewrite (H x Qx). simpl. now rewrite Qx.
  - destruct (p x); simpl; [now rewrite Qx|exact IH].
Qed.

Lemma find_filter_negb {A} (p : A -> bool) (l : list A) :
  List.find p (List.filter (fun x => negb (p x)) l) = None.
Proof.
  rewrite find_head_filter. now rewrite filter_remaining_none.
Qed.

(** X16.  The single-user [deleteTodo] answers true exactly when a todo
    has the two ids, and removes the rows of [todos] with the two ids and
    no other row: afterwards [loadTodo] finds nothing under the two ids
    and finds under every other pair of ids what it found before, and the
    table of todo lists is as it was. *)
Theorem single_deleteTodo_removes_the_todo (todoListId todoId : Z)
    (w : Pg.World) :
  let out := PgSingleUser.deleteTodo todoListId todoId w in
  fst out = JS.Return (existsb (is_todo todoListId todoId)
                         (Pg.todos_table (Pg.database w)))
  /\ Pg.todos_table (Pg.database (snd out))
     = List.filter (fun r => negb (is_todo todoListId todoId r))
         (Pg.todos_table (Pg.database w))
  /\ Pg.todolists_table (Pg.database (snd out))
     = Pg.todolists_table (Pg.database w)
  /\ fst (PgSingleUser.loadTodo todoListId todoId (snd out)) = JS.Return None
  /\ (forall otherList other,
         (otherList, other) <> (todoListId, todoId) ->
         fst (PgSingleUser.loadTodo otherList other (snd out))
         = fst (PgSingleUser.loadTodo otherList other w)).
Proof.
  cbv zeta. unfold PgSingleUser.deleteTodo, Pg.bind.
  rewrite dbQuery_delete_todos by reflexivity.
  unfold Pg.ret, Pg.delete_todos, Pg.remaining, Pg.count_where.
  cbn [fst snd Pg.database Pg.rowCount Pg.no_rows Pg.todos_table
         Pg.todolists_table Pg.with_todos].
  rewrite count_positive.
  rewrite (existsb_pointwise _ _ _ (holds_is_todo todoListId todoId)).
  rewrite (filter_pointwise _ (fun r => negb (is_todo todoListId todoId r)))
    by (intros r; now rewrite holds_is_todo).
  split; [reflexivity|split; [reflexivity|split; [reflexivity|split]]].
  - match goal with
    | |- context [PgSingleUser.loadTodo _ _ ?w'] =>
        destruct (single_loadTodo_run todoListId todoId w') as [log ->]
    end.
    cbn [fst Pg.database Pg.todos_table Pg.with_todos].
    now rewrite find_filter_negb.
  - intros otherList other Hother.
    match goal with
    | |- context [PgSingleUser.loadTodo _ _ ?w'] =>
        destruct (single_loadTodo_run otherList other w') as [log ->]
    end.
    destruct (single_loadTodo_run otherList other w) as [log' ->].
    cbn [fst Pg.database Pg.todos_table Pg.with_todos]. f_equal.
    apply find_filter_through. intros r Hr.
    apply negb_true_iff, not_true_iff_false. intros Hr'.
    unfold is_todo in *.
    apply andb_true_iff in Hr as [H1 H2], Hr' as [H3 H4].
    apply Z.eqb_eq in H1, H2, H3, H4. apply Hother. congruence.
Qed.

(** ** [addedTodo] of the relational stores *)

(** X17.  In the relational stores [addedTodo] never answers false: it
    answers true or it throws.  It answers true, and puts a row with the
    title, the list id, the next id and [done = false] behind the rows of
    [todos], exactly when the next id is free and some row of [todolists]
    has the list id; otherwise it throws the error of the server and the
    rows of [todos] are as before.  The multi-user store asks no more of
    the list than the single-user store: the list need not be one of the
    user.  Neither store changes [todolists]. *)
Theorem addedTodo_true_or_throws :
  (forall todoListId todoTitle w,
      let out := PgSingleUser.addedTodo todoListId todoTitle w in
      let d := Pg.database w in
      (if next_todo_id_free d && existsb (is_list todoListId) (Pg.todolists_table d)
       then fst out = JS.Return true
            /\ Pg.todos_table (Pg.database (snd out))
               = Pg.todos_table d ++ [new_todo None todoListId todoTitle d]
       else (exists e, fst out = JS.Throw e)
            /\ Pg.todos_table (Pg.database (snd out)) = Pg.todos_table d)
      /\ Pg.todolists_table (Pg.database (snd out)) = Pg.todolists_table d)
  /\ (forall self todoListId todoTitle w,
         let out := PgMultiUser.addedTodo self todoListId todoTitle w in
         let d := Pg.database w in
         (if Pg.multi_user d && next_todo_id_free d
             && existsb (is_list todoListId) (Pg.todolists_table d)
          then fst out = JS.Return true
               /\ Pg.todos_table (Pg.database (snd out))
                  = Pg.todos_table d
                    ++ [new_todo (PgMultiUser.username_ self) todoListId todoTitle d]
          else (exists e, fst out = JS.Throw e)
               /\ Pg.todos_table (Pg.database (snd out)) = Pg.todos_table d)
         /\ Pg.todolists_table (Pg.database (snd out)) = Pg.todolists_table d).
Proof.
  split.
  - intros todoListId todoTitle w. cbv zeta.
    unfold PgSingleUser.addedTodo, Pg.bind, Pg.dbQuery, Pg.execute.
    cbn [length Pg.arity Pg.placeholders seq foldr Nat.max Nat.eqb negb].
    unfold Pg.insert_todo, next_todo_id_free, new_todo.
    cbn [Pg.multi_user Pg.nextval Pg.todolists_table Pg.todos_table
           Pg.todos_id_seq Pg.value_at existsb Pg.td_id].
    repeat (case_decide; try congruence).
    cbn [orb]. rewrite andb_false_r.
    destruct (existsb (fun r => Pg.td_id r =? _) _); cbn [negb andb].
    + split; [|reflexivity]. split; [eexists|]; reflexivity.
    + unfold is_list.
      destruct (existsb (fun l' => Pg.tl_id l' =? todoListId) _); cbn [negb].
      * split; [|reflexivity]. now split.
      * split; [|reflexivity]. split; [eexists|]; reflexivity.
  - intros self todoListId todoTitle w. cbv zeta.
    unfold PgMultiUser.addedTodo, Pg.bind, Pg.dbQuery, Pg.execute.
    cbn [length Pg.arity Pg.placeholders seq foldr Nat.max Nat.eqb negb].
    unfold Pg.insert_todo, next_todo_id_free, new_todo.
    cbn [Pg.multi_user Pg.nextval Pg.todolists_table Pg.todos_table
           Pg.todos_id_seq Pg.value_at existsb Pg.td_id].
    repeat (case_decide; try congruence).
    change (bool_decide (Pg.title = Pg.username)) with false.
    change (bool_decide (Pg.todolist_id = Pg.username)) with false.
    change (bool_decide (Pg.username = Pg.username)) with true.
    cbn [orb].
    destruct (Pg.multi_user (Pg.database w)); cbn [negb andb].
    + destruct (existsb (fun r => Pg.td_id r =? _) _); cbn [negb andb].
      * split; [|reflexivity]. split; [eexists|]; reflexivity.
      * unfold is_list.
        destruct (existsb (fun l' => Pg.tl_id l' =? todoListId) _); cbn [negb].
        -- split; [|reflexivity]. split; [reflexivity|].
           cbn [snd Pg.database Pg.todos_table Pg.with_todos].
           unfold PgMultiUser.this_username.
           now destruct (PgMultiUser.username_ self).
        -- split; [|reflexivity]. split; [eexists|]; reflexivity.
    + split; [|reflexivity]. split; [eexists|]; reflexivity.
Qed.

(** ** [completeAllTodos], then [loadTodoList] *)

Lemma filter_complete_where (p : Pg.TodoRow -> bool) (rs : list Pg.TodoRow) :
  (forall r, p (pg_completed r) = p r) ->
  List.filter p (complete_where p rs) = map pg_completed (List.filter p rs).
Proof.
  intros Hp. induction rs as [|r rs IH]; simpl; [reflexivity|].
  destruct (p r) eqn:Pr.
  - rewrite Hp, Pr. simpl. now rewrite IH.
  - now rewrite Pr, IH.
Qed.

Lemma complete_where_pointwise (p q : Pg.TodoRow -> bool) (rs : list Pg.TodoRow) :
  (forall r, p r = q r) -> complete_where p rs = complete_where q rs.
Proof. intros H. apply map_ext. intros r. now rewrite H. Qed.

Lemma complete_where_others (p : Pg.TodoRow -> bool) (rs : list Pg.TodoRow) :
  (forall r, p (pg_completed r) = p r) ->
  List.filter (fun r => negb (p r)) (complete_where p rs)
  = List.filter (fun r => negb (p r)) rs.
Proof.
  intros Hp. apply filter_map_frame.
  - intros r. destruct (p r) eqn:Pr; [|now rewrite Pr]. now rewrite Hp, Pr.
  - intros r Hr. apply negb_true_iff in Hr. now rewrite Hr.
Qed.

Lemma all_done_is_done (L : Pg.TodoList) :
  Pg.hasUndoneTodos (all_done L) = false
  /\ Pg.isDoneTodoList (all_done L) = (0 <? length (Pg.list_todos L))%nat.
Proof.
  unfold Pg.hasUndoneTodos, Pg.isDoneTodoList, all_done. cbn [Pg.list_todos].
  rewrite length_map.
  induction (Pg.list_todos L) as [|r rs [IH1 IH2]]; simpl; [now split|].
  split; [exact IH1|].
  destruct rs; [reflexivity|]. simpl in IH2. exact IH2.
Qed.

(** The database that [completeAllTodos] leaves behind. *)
Lemma single_completeAllTodos_database (b_first : bool) (todoListId : Z)
    (w : Pg.World) :
  Pg.database (snd (PgSingleUser.completeAllTodos b_first todoListId w))
  = Pg.with_todos (Pg.database w)
      (complete_where (in_list todoListId) (Pg.todos_table (Pg.database w))).
Proof.
  unfold PgSingleUser.completeAllTodos.
  destruct (complete_and_count b_first [(Pg.todolist_id, 1%nat)]
              [Pg.VInt todoListId] w eq_refl eq_refl) as (log & ->);
    [reflexivity|].
  cbn [snd Pg.database]. f_equal.
  apply complete_where_pointwise, holds_in_list.
Qed.

Lemma multi_completeAllTodos_database (self : PgMultiUser.t) (b_first : bool)
    (todoListId : Z) (w : Pg.World) :
  Pg.database (snd (PgMultiUser.completeAllTodos self b_first todoListId w))
  = Pg.with_todos (Pg.database w)
      (complete_where (in_list_of (PgMultiUser.username_ self) todoListId)
         (Pg.todos_table (Pg.database w))).
Proof.
  unfold PgMultiUser.completeAllTodos.
  destruct (complete_and_count b_first
              [(Pg.todolist_id, 1%nat); (Pg.username, 2%nat)]
              [Pg.VInt todoListId; PgMultiUser.this_username self] w
              eq_refl eq_refl) as (log & ->); [reflexivity|].
  cbn [snd Pg.database]. f_equal.
  apply complete_where_pointwise, holds_in_list_of.
Qed.

(** X18.  [completeAllTodos], then [loadTodoList], in the relational
    stores.  After [completeAllTodos], [loadTodoList] gives the list that
    it gave before with every todo marked done and nothing else changed
    (and nothing when it gave nothing before): the list then has no
    undone todo and is done exactly when it has a todo.  The todos that
    the call does not address, and the table of todo lists, are as
    before. *)
Theorem completeAllTodos_then_loadTodoList :
  (forall b_first b1 b2 todoListId w,
      let w' := snd (PgSingleUser.completeAllTodos b_first todoListId w) in
      exists before,
        fst (PgSingleUser.loadTodoList b1 todoListId w) = JS.Return before
        /\ fst (PgSingleUser.loadTodoList b2 todoListId w')
           = JS.Return (option_map all_done before)
        /\ (forall L, before = Some L ->
               PgSingleUser.hasUndoneTodos (all_done L) = false
               /\ PgSingleUser.isDoneTodoList (all_done L)
                  = (0 <? length (Pg.list_todos L))%nat)
        /\ List.filter (fun r => negb (in_list todoListId r))
             (Pg.todos_table (Pg.database w'))
           = List.filter (fun r => negb (in_list todoListId r))
               (Pg.todos_table (Pg.database w))
        /\ Pg.todolists_table (Pg.database w')
           = Pg.todolists_table (Pg.database w))
  /\ (forall self b_first b1 b2 todoListId w,
         let u := PgMultiUser.username_ self in
         let w' := snd (PgMultiUser.completeAllTodos self b_first todoListId w) in
         exists before,
           fst (PgMultiUser.loadTodoList self b1 todoListId w) = JS.Return before
           /\ fst (PgMultiUser.loadTodoList self b2 todoListId w')
              = JS.Return (option_map all_done before)
           /\ (forall L, before = Some L ->
                  PgMultiUser.hasUndoneTodos (all_done L) = false
                  /\ PgMultiUser.isDoneTodoList (all_done L)
                     = (0 <? length (Pg.list_todos L))%nat)
           /\ List.filter (fun r => negb (in_list_of u todoListId r))
                (Pg.todos_table (Pg.database w'))
              = List.filter (fun r => negb (in_list_of u todoListId r))
                  (Pg.todos_table (Pg.database w))
           /\ Pg.todolists_table (Pg.database w')
              = Pg.todolists_table (Pg.database w)).
Proof.
  split.
  - intros b_first b1 b2 todoListId w. cbv zeta.
    destruct (single_loadTodoList_run b1 todoListId w) as [log ->].
    destruct (single_loadTodoList_run b2 todoListId
                (snd (PgSingleUser.completeAllTodos b_first todoListId w)))
      as [log' ->].
    rewrite single_completeAllTodos_database.
    cbn [fst Pg.todolists_table Pg.todos_table Pg.with_todos].
    eexists. split; [reflexivity|].
    split; [|split; [|split; [|reflexivity]]].
    + f_equal. destruct (List.find _ _) as [row|]; [|reflexivity].
      unfold joined, all_done. cbn [option_map Pg.list_row Pg.list_todos Pg.todos_table Pg.with_todos].
      now rewrite filter_complete_where.
    + intros L _. apply all_done_is_done.
    + now apply complete_where_others.
  - intros self b_first b1 b2 todoListId w. cbv zeta.
    destruct (multi_loadTodoList_run self b1 todoListId w) as [log ->].
    destruct (multi_loadTodoList_run self b2 todoListId
                (snd (PgMultiUser.completeAllTodos self b_first todoListId w)))
      as [log' ->].
    rewrite multi_completeAllTodos_database.
    cbn [fst Pg.todolists_table Pg.todos_table Pg.with_todos].
    eexists. split; [reflexivity|].
    split; [|split; [|split; [|reflexivity]]].
    + f_equal. destruct (List.find _ _) as [row|]; [|reflexivity].
      unfold joined, all_done. cbn [option_map Pg.list_row Pg.list_todos Pg.todos_table Pg.with_todos].
      now rewrite filter_complete_where.
    + intros L _. apply all_done_is_done.
    + now apply complete_where_others.
Qed.

(** ** [setTodoListTitle] of the relational stores *)

Lemma dbQuery_retitle (wh : list Pg.cond) (ps : list Pg.value)
    (todoListTitle : string) (w : Pg.World) :
  length ps = Pg.arity (Pg.UPDATE Pg.todolists (Pg.set_param Pg.title 1) wh) ->
  Pg.param ps 1 = Pg.VText todoListTitle ->
  let d := Pg.database w in
  let q := {| Pg.text := Pg.UPDATE Pg.todolists (Pg.set_param Pg.title 1) wh;
              Pg.parameters := ps |} in
  let rs := retitle_where (Pg.holds (t := Pg.todolists) wh ps) todoListTitle
              (Pg.todolists_table d) in
  Pg.dbQuery (Pg.UPDATE Pg.todolists (Pg.set_param Pg.title 1) wh) ps w
  = if Pg.title_clash (Pg.multi_user d) wh ps (Pg.todolists_table d) rs
    then (JS.Throw (Pg.unique_violation (Pg.title_key (Pg.multi_user d))),
          {| Pg.database := d; Pg.sent := Pg.sent w ++ [q] |})
    else (JS.Return
            (Pg.no_rows Pg.todolists
               (Pg.count_where (t := Pg.todolists) wh ps (Pg.todolists_table d))),
          {| Pg.database := Pg.with_todolists d rs; Pg.sent := Pg.sent w ++ [q] |}).
Proof.
  intros Hlen Hparam. cbv zeta. unfold Pg.dbQuery, Pg.execute.
  rewrite Hlen, Nat.eqb_refl. cbn [negb].
  rewrite (updated_retitle todoListTitle) by assumption.
  fold (retitle_where (Pg.holds (t := Pg.todolists) wh ps) todoListTitle
          (Pg.todolists_table (Pg.database w))).
  now destruct (Pg.title_clash _ _ _ _ _).
Qed.

Lemma title_clash_has_target (multi : bool) (wh : list Pg.cond)
    (ps : list Pg.value) (before after : list Pg.TodoListRow) :
  Pg.title_clash multi wh ps before after = true ->
  existsb (Pg.holds (t := Pg.todolists) wh ps) before = true.
Proof.
  unfold Pg.title_clash. rewrite !existsb_exists.
  intros ([b a] & Hin & H). apply andb_true_iff in H as [H _].
  exists b. split; [|exact H]. eapply in_combine_l. eassumption.
Qed.

Lemma retitle_where_pointwise (p q : Pg.TodoListRow -> bool) (s : string)
    (rs : list Pg.TodoListRow) :
  (forall r, p r = q r) -> retitle_where p s rs = retitle_where q s rs.
Proof. intros H. apply map_ext. intros r. now rewrite H. Qed.

Lemma find_retitle_where (p : Pg.TodoListRow -> bool) (s : string)
    (rs : list Pg.TodoListRow) :
  (forall r, p (pg_retitled s r) = p r) ->
  List.find p (retitle_where p s rs) = option_map (pg_retitled s) (List.find p rs).
Proof.
  intros Hp. induction rs as [|r rs IH]; simpl; [reflexivity|].
  destruct (p r) eqn:Pr.
  - now rewrite Hp, Pr.
  - now rewrite Pr, IH.
Qed.

Lemma holds_retitle_where_single (todoListId : Z) (todoListTitle : string)
    (r : Pg.TodoListRow) :
  Pg.holds (t := Pg.todolists) [(Pg.id, 2%nat)]
    [Pg.VText todoListTitle; Pg.VInt todoListId] r
  = is_list todoListId r.
Proof. unfold Pg.holds, is_list. simpl. now rewrite andb_true_r. Qed.

Lemma count_key_le_1 {A} (key : A -> Z) (k : Z) (l : list A) :
  NoDup (map key l) ->
  (length (List.filter (fun r => (key r =? k)%Z) l) <= 1)%nat.
Proof.
  induction l as [|x l IH]; simpl; [lia|].
  intros Hnd. apply NoDup_cons in Hnd as [Hx Hnd].
  destruct (key x =? k) eqn:E; [|now apply IH].
  apply Z.eqb_eq in E. simpl.
  rewrite filter_none; [simpl; lia|].
  apply not_true_is_false. intros H.
  apply existsb_exists in H as (y & Hy & Hk). apply Z.eqb_eq in Hk.
  apply Hx. apply list_elem_of_fmap. exists y.
  split; [congruence|now apply list_elem_of_In].
Qed.

Lemma length_filter_map_le {A} (q p : A -> bool) (g : A -> A) (l : list A) :
  (forall r, In r l -> q (g r) = true -> p r = true) ->
  (length (List.filter q (map g l)) <= length (List.filter p l))%nat.
Proof.
  induction l as [|x l IH]; simpl; [lia|]. intros H.
  assert (length (List.filter q (map g l)) <= length (List.filter p l))%nat
    by (apply IH; intros r Hr; apply H; now right).
  destruct (q (g x)) eqn:Q.
  - rewrite (H x (or_introl eq_refl) Q). simpl. lia.
  - destruct (p x); simpl; lia.
Qed.

Lemma in_combine_map {A} (g : A -> A) (l : list A) (b a : A) :
  In (b, a) (combine l (map g l)) -> In b l /\ a = g b.
Proof.
  induction l as [|x l IH]; simpl; [tauto|].
  intros [[= -> ->]|H]; [now split; [left|]|].
  destruct (IH H) as [H1 H2]. split; [now right|exact H2].
Qed.

Lemma sql_eq_owner (a b : option string) :
  Pg.sql_eq (Pg.text_or_null a) (Pg.text_or_null b) = true ->
  exists x, a = Some x /\ b = Some x.
Proof.
  destruct a as [x|], b as [y|]; simpl; try discriminate.
  intros H. apply String.eqb_eq in H. subst y. now exists x.
Qed.

(** After the check of the title, the update of a title does not clash:
    when the rows that the statement addresses have one id, the ids are
    distinct, and the check [c] has found no row among those that would
    clash with a row of the new title. *)
Lemma no_title_clash_after_check (multi : bool) (c : Pg.TodoListRow -> bool)
    (wh : list Pg.cond) (ps : list Pg.value) (todoListTitle : string)
    (todoListId : Z) (rs : list Pg.TodoListRow) :
  (forall r, Pg.holds (t := Pg.todolists) wh ps r = true ->
             Pg.tl_id r = todoListId) ->
  (forall b r, Pg.holds (t := Pg.todolists) wh ps b = true ->
               Pg.same_title multi (pg_retitled todoListTitle b) r = true ->
               c r = true) ->
  NoDup (map Pg.tl_id rs) ->
  existsb c rs = false ->
  Pg.title_clash multi wh ps rs
    (retitle_where (Pg.holds (t := Pg.todolists) wh ps) todoListTitle rs) = false.
Proof.
  intros Htarget Hc Hnd Hcheck. apply not_true_is_false. intros Hclash.
  unfold Pg.title_clash in Hclash.
  apply existsb_exists in Hclash as ([b a] & Hin & H).
  apply in_combine_map in Hin as [Hb ->].
  cbn [fst snd] in H. apply andb_true_iff in H as [Hholds Hmany].
  rewrite Hholds in Hmany. apply Nat.ltb_lt in Hmany.
  pose proof (count_key_le_1 Pg.tl_id todoListId rs Hnd) as Hone.
  enough (length (List.filter (Pg.same_title multi (pg_retitled todoListTitle b))
                    (retitle_where (Pg.holds (t := Pg.todolists) wh ps)
                       todoListTitle rs))
          <= length (List.filter (fun r => (Pg.tl_id r =? todoListId)%Z) rs))%nat
    by lia.
  apply length_filter_map_le. intros r Hr Hsame.
  apply Z.eqb_eq.
  destruct (Pg.holds (t := Pg.todolists) wh ps r) eqn:Hr';
    [now apply Htarget|].
  exfalso.
  assert (existsb c rs = true) as Hex; [|congruence].
  apply existsb_exists. exists r. split; [assumption|].
  now apply (Hc b).
Qed.

Lemma single_existsTodoListTitle_run (title_ : string) (w : Pg.World) :
  exists log,
    PgSingleUser.existsTodoListTitle title_ w
    = (JS.Return
         (existsb (fun r => String.eqb (Pg.tl_title r) title_)
            (Pg.todolists_table (Pg.database w))),
       {| Pg.database := Pg.database w; Pg.sent := log |}).
Proof.
  unfold PgSingleUser.existsTodoListTitle, Pg.bind.
  rewrite dbQuery_select by reflexivity.
  unfold Pg.ret, Pg.select. cbn [Pg.rowCount Pg.rows_of Pg.table_of Pg.ordered].
  rewrite count_positive.
  rewrite (existsb_pointwise _ (fun r => String.eqb (Pg.tl_title r) title_))
    by (intros r; unfold Pg.holds; simpl; now rewrite andb_true_r).
  eexists. reflexivity.
Qed.

Lemma multi_existsTodoListTitle_run (self : PgMultiUser.t) (title_ : string)
    (w : Pg.World) :
  exists log,
    PgMultiUser.existsTodoListTitle self title_ w
    = (JS.Return
         (existsb (fun r => String.eqb (Pg.tl_title r) title_
                            && list_owned_by (PgMultiUser.username_ self) r)
            (Pg.todolists_table (Pg.database w))),
       {| Pg.database := Pg.database w; Pg.sent := log |}).
Proof.
  unfold PgMultiUser.existsTodoListTitle, Pg.bind.
  rewrite dbQuery_select by reflexivity.
  unfold Pg.ret, Pg.select. cbn [Pg.rowCount Pg.rows_of Pg.table_of Pg.ordered].
  rewrite count_positive.
  rewrite (existsb_pointwise _ _ _ (holds_title_of self title_)).
  eexists. reflexivity.
Qed.

(** X19.  [setTodoListTitle] in the relational stores.  When the call
    returns, its answer is whether a row of [todolists] has the id (and
    the user name, in the multi-user store); the rows that have are given
    the new title and nothing else changes, so that [loadTodoList] gives
    the list it gave before under its new title.  When the call throws, a
    row was to be renamed, the error is one that
    [isUniqueConstraintViolation] recognises, and the database is as
    before.  The call does not throw after [existsTodoListTitle] has
    answered false for the new title, when the ids of the todo lists are
    distinct.  In no case do the rows of [todos] change. *)
Theorem setTodoListTitle_outcomes :
  (forall todoListId todoListTitle w,
      let out := PgSingleUser.setTodoListTitle todoListId todoListTitle w in
      let d := Pg.database w in
      let target := existsb (is_list todoListId) (Pg.todolists_table d) in
      match fst out with
      | JS.Return updated =>
          updated = target
          /\ Pg.todolists_table (Pg.database (snd out))
             = retitle_where (is_list todoListId) todoListTitle
                 (Pg.todolists_table d)
          /\ (forall b1 b2,
                 exists before,
                   fst (PgSingleUser.loadTodoList b1 todoListId w)
                   = JS.Return before
                   /\ fst (PgSingleUser.loadTodoList b2 todoListId (snd out))
                      = JS.Return (option_map (retitled_list todoListTitle) before))
      | JS.Throw e =>
          PgSingleUser.isUniqueConstraintViolation e = true
          /\ target = true
          /\ Pg.database (snd out) = d
      end
      /\ Pg.todos_table (Pg.database (snd out)) = Pg.todos_table d
      /\ (NoDup (map Pg.tl_id (Pg.todolists_table d)) ->
          fst (PgSingleUser.existsTodoListTitle todoListTitle w) = JS.Return false ->
          fst out = JS.Return target))
  /\ (forall self todoListId todoListTitle w,
         let out := PgMultiUser.setTodoListTitle self todoListId todoListTitle w in
         let u := PgMultiUser.username_ self in
         let d := Pg.database w in
         let target := existsb (is_list_of u todoListId) (Pg.todolists_table d) in
         match fst out with
         | JS.Return updated =>
             updated = target
             /\ Pg.todolists_table (Pg.database (snd out))
                = retitle_where (is_list_of u todoListId) todoListTitle
                    (Pg.todolists_table d)
             /\ (forall b1 b2,
                    exists before,
                      fst (PgMultiUser.loadTodoList self b1 todoListId w)
                      = JS.Return before
                      /\ fst (PgMultiUser.loadTodoList self b2 todoListId (snd out))
                         = JS.Return
                             (option_map (retitled_list todoListTitle) before))
         | JS.Throw e =>
             PgMultiUser.isUniqueConstraintViolation e = true
             /\ target = true
             /\ Pg.database (snd out) = d
         end
         /\ Pg.todos_table (Pg.database (snd out)) = Pg.todos_table d
         /\ (Pg.multi_user d = true ->
             NoDup (map Pg.tl_id (Pg.todolists_table d)) ->
             fst (PgMultiUser.existsTodoListTitle self todoListTitle w)
             = JS.Return false ->
             fst out = JS.Return target)).
Proof.
  split.
  - intros todoListId todoListTitle w. cbv zeta.
    unfold PgSingleUser.setTodoListTitle, Pg.bind.
    rewrite (dbQuery_retitle _ _ todoListTitle) by reflexivity. cbv zeta.
    destruct (Pg.title_clash _ _ _ _ _) eqn:Hclash;
      [|rewrite (retitle_where_pointwise _ _ _ _
                   (holds_retitle_where_single todoListId todoListTitle))].
    + cbn [fst snd Pg.database]. split; [|split; [reflexivity|]].
      * split; [apply unique_violation_recognised|split; [|reflexivity]].
        apply title_clash_has_target in Hclash.
        now rewrite (existsb_pointwise _ _ _
                       (holds_retitle_where_single todoListId todoListTitle))
          in Hclash.
      * intros Hnd Hcheck. exfalso.
        destruct (single_existsTodoListTitle_run todoListTitle w) as [log Hrun].
        rewrite Hrun in Hcheck. cbn [fst] in Hcheck.
        injection Hcheck as Hcheck.
        rewrite (no_title_clash_after_check _
                   (fun r => String.eqb (Pg.tl_title r) todoListTitle)
                   _ _ todoListTitle todoListId) in Hclash;
          [discriminate| | |assumption|assumption].
        -- intros r Hr. rewrite holds_retitle_where_single in Hr.
           now apply Z.eqb_eq in Hr.
        -- intros b r _ Hsame. unfold Pg.same_title in Hsame.
           apply andb_true_iff in Hsame as [Hsame _].
           cbn [pg_retitled Pg.tl_title] in Hsame.
           now rewrite String.eqb_sym.
    + unfold Pg.ret, Pg.count_where.
      cbn [fst snd Pg.database Pg.rowCount Pg.no_rows Pg.todolists_table
             Pg.todos_table Pg.with_todolists].
      rewrite count_positive.
      rewrite (existsb_pointwise _ _ _
                 (holds_retitle_where_single todoListId todoListTitle)).
      split; [|split; [reflexivity|intros _ _; reflexivity]].
      split; [reflexivity|split; [reflexivity|]].
      intros b1 b2.
      destruct (single_loadTodoList_run b1 todoListId w) as [log ->].
      match goal with
      | |- context [PgSingleUser.loadTodoList _ _ ?w'] =>
          destruct (single_loadTodoList_run b2 todoListId w') as [log' ->]
      end.
      cbn [fst Pg.database Pg.todolists_table Pg.with_todolists].
      eexists. split; [reflexivity|]. f_equal.
      rewrite find_retitle_where by reflexivity.
      now destruct (List.find _ _).
  - intros self todoListId todoListTitle w. cbv zeta.
    unfold PgMultiUser.setTodoListTitle, Pg.bind.
    rewrite (dbQuery_retitle _ _ todoListTitle) by reflexivity. cbv zeta.
    destruct (Pg.title_clash _ _ _ _ _) eqn:Hclash;
      [|rewrite (retitle_where_pointwise _ _ _ _
                   (holds_retitle_where self todoListId todoListTitle))].
    + cbn [fst snd Pg.database]. split; [|split; [reflexivity|]].
      * split; [apply unique_violation_recognised|split; [|reflexivity]].
        apply title_clash_has_target in Hclash.
        now rewrite (existsb_pointwise _ _ _
                       (holds_retitle_where self todoListId todoListTitle))
          in Hclash.
      * intros Hmulti Hnd Hcheck. exfalso.
        destruct (multi_existsTodoListTitle_run self todoListTitle w) as [log Hrun].
        rewrite Hrun in Hcheck. cbn [fst] in Hcheck.
        injection Hcheck as Hcheck.
        rewrite Hmulti in Hclash.
        rewrite (no_title_clash_after_check _
                   (fun r => String.eqb (Pg.tl_title r) todoListTitle
                             && list_owned_by (PgMultiUser.username_ self) r)
                   _ _ todoListTitle todoListId) in Hclash;
          [discriminate| | |assumption|assumption].
        -- intros r Hr. rewrite holds_retitle_where in Hr.
           unfold is_list_of, is_list in Hr.
           apply andb_true_iff in Hr as [Hr _]. now apply Z.eqb_eq in Hr.
        -- intros b r Hb Hsame. rewrite holds_retitle_where in Hb.
           unfold is_list_of in Hb. apply andb_true_iff in Hb as [_ Hown].
           unfold Pg.same_title in Hsame.
           cbn [pg_retitled Pg.tl_title Pg.tl_username] in Hsame.
           apply andb_true_iff in Hsame as [Ht Ho].
           rewrite String.eqb_sym, Ht. cbn [andb].
           unfold list_owned_by in *.
           apply sql_eq_owner in Ho as (x & Hbx & Hrx).
           apply sql_eq_owner in Hown as (y & Hby & Huy).
           rewrite Hrx, Huy. simpl. apply String.eqb_eq. congruence.
    + unfold Pg.ret, Pg.count_where.
      cbn [fst snd Pg.database Pg.rowCount Pg.no_rows Pg.todolists_table
             Pg.todos_table Pg.with_todolists].
      rewrite count_positive.
      rewrite (existsb_pointwise _ _ _
                 (holds_retitle_where self todoListId todoListTitle)).
      split; [|split; [reflexivity|intros _ _ _; reflexivity]].
      split; [reflexivity|split; [reflexivity|]].
      intros b1 b2.
      destruct (multi_loadTodoList_run self b1 todoListId w) as [log ->].
      match goal with
      | |- context [PgMultiUser.loadTodoList _ _ _ ?w'] =>
          destruct (multi_loadTodoList_run self b2 todoListId w') as [log' ->]
      end.
      cbn [fst Pg.database Pg.todolists_table Pg.with_todolists].
      eexists. split; [reflexivity|]. f_equal.
      rewrite find_retitle_where by reflexivity.
      now destruct (List.find _ _).
Qed.

(** ** [existsTodoListTitle], then [createdTodoList] *)

Lemma sql_eq_sym (a b : Pg.value) : Pg.sql_eq a b = Pg.sql_eq b a.
Proof.
  destruct a, b; simpl; try reflexivity.
  - apply Z.eqb_sym.
  - apply String.eqb_sym.
  - now destruct b0, b.
Qed.

(** X20.  The check of the title and the insert agree.  In the
    single-user store, when the next id of [todolists] is free,
    [createdTodoList] answers true exactly when [existsTodoListTitle]
    answers false for the title, and throws nothing.  The same holds in
    the multi-user store for a user who has a row in [users]. *)
Theorem createdTodoList_agrees_with_check :
  (forall todoListTitle w existed,
      Pg.multi_user (Pg.database w) = false ->
      next_list_id_free (Pg.database w) = true ->
      fst (PgSingleUser.existsTodoListTitle todoListTitle w) = JS.Return existed ->
      fst (PgSingleUser.createdTodoList todoListTitle w)
      = JS.Return (negb existed))
  /\ (forall self u todoListTitle w existed,
         PgMultiUser.username_ self = Some u ->
         Pg.multi_user (Pg.database w) = true ->
         known_user u (Pg.database w) = true ->
         next_list_id_free (Pg.database w) = true ->
         fst (PgMultiUser.existsTodoListTitle self todoListTitle w)
         = JS.Return existed ->
         fst (PgMultiUser.createdTodoList self todoListTitle w)
         = JS.Return (negb existed)).
Proof.
  split.
  - intros todoListTitle w existed Hsingle Hfree Hcheck.
    destruct (single_existsTodoListTitle_run todoListTitle w) as [log Hrun].
    rewrite Hrun in Hcheck. cbn [fst] in Hcheck. injection Hcheck as Hcheck.
    destruct existed.
    + apply single_duplicate_title; [assumption|assumption|].
      unfold has_title. etransitivity; [|exact Hcheck].
      apply existsb_pointwise. intros r.
      now rewrite andb_true_r, String.eqb_sym.
    + unfold PgSingleUser.createdTodoList, Pg.try_catch, Pg.bind, Pg.dbQuery,
        Pg.execute.
      cbn [length Pg.arity Pg.placeholders seq foldr Nat.max Nat.eqb negb].
      unfold Pg.insert_todolist.
      cbn [Pg.multi_user Pg.nextval Pg.todolists_table Pg.todolists_id_seq
             Pg.users_table Pg.value_at existsb].
      repeat (case_decide; try congruence).
      cbn [orb]. rewrite andb_false_r.
      unfold next_list_id_free in Hfree. apply negb_true_iff in Hfree.
      cbn [Pg.tl_id]. rewrite Hfree, Hsingle.
      rewrite (existsb_pointwise _
                 (fun r => String.eqb (Pg.tl_title r) todoListTitle))
        by (intros r; unfold Pg.same_title; cbn [Pg.tl_title];
            now rewrite andb_true_r, String.eqb_sym).
      rewrite Hcheck. reflexivity.
  - intros self u todoListTitle w existed Hu Hmulti Hknown Hfree Hcheck.
    destruct (multi_existsTodoListTitle_run self todoListTitle w) as [log Hrun].
    rewrite Hrun in Hcheck. cbn [fst] in Hcheck. injection Hcheck as Hcheck.
    destruct existed.
    + apply multi_duplicate_title; [assumption|assumption|].
      unfold has_title. etransitivity; [|exact Hcheck].
      apply existsb_pointwise. intros r.
      unfold list_owned_by_sym, list_owned_by.
      now rewrite String.eqb_sym, sql_eq_sym.
    + unfold PgMultiUser.createdTodoList, Pg.try_catch, Pg.bind, Pg.dbQuery,
        Pg.execute.
      cbn [length Pg.arity Pg.placeholders seq foldr Nat.max Nat.eqb negb].
      unfold Pg.insert_todolist, PgMultiUser.this_username.
      rewrite Hu.
      cbn [Pg.multi_user Pg.nextval Pg.todolists_table Pg.todolists_id_seq
             Pg.users_table Pg.value_at Pg.text_or_null].
      rewrite Hmulti. cbn [negb andb].
      repeat (case_decide; try congruence).
      unfold next_list_id_free in Hfree. apply negb_true_iff in Hfree.
      cbn [Pg.tl_id]. rewrite Hfree.
      rewrite (existsb_pointwise _
                 (fun r => String.eqb (Pg.tl_title r) todoListTitle
                           && list_owned_by (PgMultiUser.username_ self) r))
        by (intros r; unfold Pg.same_title, list_owned_by;
            cbn [Pg.tl_title Pg.tl_username]; rewrite Hu;
            now rewrite String.eqb_sym, sql_eq_sym).
      rewrite Hcheck.
      rewrite (existsb_pointwise _
                 (fun usr => String.eqb (Pg.u_username usr) u))
        by reflexivity.
      unfold known_user in Hknown. rewrite Hknown. reflexivity.
Qed.

(** X20 at sample inputs: the titles Work and Garden in the two sample
    databases. *)
Lemma createdTodoList_agrees_with_check_witness :
  fst (PgSingleUser.createdTodoList "Work" (Sample.world Sample.single_db))
  = JS.Return false
  /\ fst (PgMultiUser.createdTodoList Sample.admin "Garden"
            (Sample.world Sample.multi_db))
     = JS.Return true.
Proof.
  destruct createdTodoList_agrees_with_check as [Hsingle Hmulti]. split.
  - exact (Hsingle "Work"%string (Sample.world Sample.single_db) true
             eq_refl eq_refl eq_refl).
  - exact (Hmulti Sample.admin "admin"%string "Garden"%string
             (Sample.world Sample.multi_db) false
             eq_refl eq_refl eq_refl eq_refl eq_refl).
Defined.

(** ** [compareByTitle] is a consistent comparator *)

Lemma compareByTitle_compare {A} `{Titled A} (a b : A) :
  Sort.compareByTitle a b
  = match String.compare (JS.toLowerCase (title_of a))
            (JS.toLowerCase (title_of b)) with
    | Lt => -1
    | Eq => 0
    | Gt => 1
    end.
Proof.
  unfold Sort.compareByTitle, JS.str_lt.
  rewrite (String.compare_antisym (JS.toLowerCase (title_of b))
             (JS.toLowerCase (title_of a))).
  now destruct (String.compare (JS.toLowerCase (title_of a))
                  (JS.toLowerCase (title_of b))).
Qed.

Lemma string_compare_refl (s : string) : String.compare s s = Eq.
Proof.
  pose proof (String.compare_antisym s s) as H.
  destruct (String.compare s s); simpl in H; congruence.
Qed.

Lemma lower_unit_idempotent (c : ascii) :
  JS.lower_unit (JS.lower_unit c) = JS.lower_unit c.
Proof.
  destruct c as [[] [] [] [] [] [] [] []]; reflexivity.
Qed.

Lemma toLowerCase_idempotent (s : string) :
  JS.toLowerCase (JS.toLowerCase s) = JS.toLowerCase s.
Proof.
  induction s as [|c s IH]; simpl; [reflexivity|].
  now rewrite lower_unit_idempotent, IH.
Qed.

(** X21.  [compareByTitle] is a comparator as [Array.prototype.sort]
    wants one.  Its value is -1, 0 or 1; swapping the arguments negates
    it; it is 0 exactly when the two titles are equal once lower-cased,
    so that a title and the same title in lower case compare equal; and
    "not after" is transitive. *)
Theorem compareByTitle_consistent {A} `{Titled A} :
  (forall a b : A,
      Sort.compareByTitle a b = -1 \/ Sort.compareByTitle a b = 0
      \/ Sort.compareByTitle a b = 1)
  /\ (forall a b : A, Sort.compareByTitle b a = - Sort.compareByTitle a b)
  /\ (forall a b : A,
         Sort.compareByTitle a b = 0
         <-> JS.toLowerCase (title_of a) = JS.toLowerCase (title_of b))
  /\ (forall a b : A,
         title_of b = JS.toLowerCase (title_of a) -> Sort.compareByTitle a b = 0)
  /\ (forall a b c : A,
         Sort.compareByTitle a b <= 0 -> Sort.compareByTitle b c <= 0 ->
         Sort.compareByTitle a c <= 0).
Proof.
  split; [|split; [|split; [|split]]].
  - intros a b. rewrite compareByTitle_compare.
    destruct (String.compare _ _); auto.
  - intros a b. rewrite !compareByTitle_compare.
    rewrite (String.compare_antisym (JS.toLowerCase (title_of b))
               (JS.toLowerCase (title_of a))).
    now destruct (String.compare (JS.toLowerCase (title_of a))
                    (JS.toLowerCase (title_of b))).
  - intros a b. rewrite compareByTitle_compare.
    split.
    + intros E. apply String.compare_eq_iff.
      destruct (String.compare _ _); [reflexivity|lia|lia].
    + intros ->. now rewrite string_compare_refl.
  - intros a b Hb. rewrite compareByTitle_compare, Hb, toLowerCase_idempotent.
    now rewrite string_compare_refl.
  - intros a b c. rewrite !compareByTitle_compare.
    generalize (string_compare_not_gt_trans (JS.toLowerCase (title_of a))
                  (JS.toLowerCase (title_of b)) (JS.toLowerCase (title_of c))).
    destruct (String.compare (JS.toLowerCase (title_of a))
                (JS.toLowerCase (title_of b))),
      (String.compare (JS.toLowerCase (title_of b))
         (JS.toLowerCase (title_of c))),
      (String.compare (JS.toLowerCase (title_of a))
         (JS.toLowerCase (title_of c)));
      intros T Hab Hbc; try lia; exfalso; apply T; congruence.
Qed.

(** ** [sortedTodoLists] against [loadTodoList] *)

Lemma in_partitionTodoLists (L : Pg.TodoList) (todoLists : list Pg.TodoList) :
  In L (Pg._partitionTodoLists todoLists) <-> In L todoLists.
Proof.
  rewrite _partitionTodoLists_filter, in_app_iff, !filter_In.
  destruct (Pg.isDoneTodoList L); simpl; intuition congruence.
Qed.

Lemma in_sort {A} (cmp : A -> A -> Z) (x : A) (l : list A) :
  In x (JS.sort cmp l) <-> In x l.
Proof.
  split; apply Permutation_in; [|symmetry]; apply sort_Permutation.
Qed.

Lemma filter_andb {A} (p q : A -> bool) (l : list A) :
  List.filter (fun x => p x && q x) l = List.filter p (List.filter q l).
Proof.
  induction l as [|x l IH]; simpl; [reflexivity|].
  destruct (q x); simpl.
  - destruct (p x); simpl; now rewrite IH.
  - now rewrite andb_false_r.
Qed.

Lemma NoDup_key_inj {A} (key : A -> Z) (l : list A) (x y : A) :
  NoDup (map key l) -> In x l -> In y l -> key x = key y -> x = y.
Proof.
  intros Hnd Hx Hy Hk.
  apply list_elem_of_In, list_elem_of_lookup in Hx as [i Hi].
  apply list_elem_of_In, list_elem_of_lookup in Hy as [j Hj].
  rewrite NoDup_alt in Hnd.
  assert (i = j) as ->.
  { apply (Hnd i j (key x)); rewrite list_lookup_fmap.
    - now rewrite Hi.
    - rewrite Hj. simpl. congruence. }
  congruence.
Qed.

(** The lists of [sortedTodoLists] are the rows of the table joined with
    their todos, in some order. *)
Lemma single_sortedTodoLists_members (w : Pg.World) :
  exists result,
    fst (PgSingleUser.sortedTodoLists w) = JS.Return result
    /\ forall L,
         In L result
         <-> exists row,
               In row (Pg.todolists_table (Pg.database w))
               /\ L = joined (in_list (Pg.tl_id row)) (Pg.database w) row.
Proof.
  destruct (single_sortedTodoLists_run w) as [log ->].
  eexists. split; [reflexivity|]. intros L.
  rewrite in_partitionTodoLists, in_map_iff.
  split; intros (row & H1 & H2).
  - exists row. rewrite in_sort in H2. now split.
  - exists row. rewrite in_sort. now split.
Qed.

Lemma multi_sortedTodoLists_members (self : PgMultiUser.t) (b_first : bool)
    (w : Pg.World) :
  exists result,
    fst (PgMultiUser.sortedTodoLists self b_first w) = JS.Return result
    /\ forall L,
         In L result
         <-> exists row,
               In row (Pg.todolists_table (Pg.database w))
               /\ list_owned_by (PgMultiUser.username_ self) row = true
               /\ L = joined (in_list_of (PgMultiUser.username_ self) (Pg.tl_id row))
                        (Pg.database w) row.
Proof.
  destruct (multi_sortedTodoLists_run self b_first w) as [log ->].
  eexists. split; [reflexivity|]. intros L.
  rewrite in_partitionTodoLists, in_map_iff.
  unfold joined, in_list_of.
  split.
  - intros (row & H1 & H2). exists row.
    rewrite in_sort, filter_In in H2. destruct H2 as [H2 H3].
    split; [assumption|split; [assumption|]].
    rewrite <- H1. f_equal. symmetry. apply filter_andb.
  - intros (row & H1 & H2 & H3). exists row.
    rewrite in_sort, filter_In. split; [|now split].
    rewrite H3. f_equal. symmetry. apply filter_andb.
Qed.

(** X22.  [sortedTodoLists] and [loadTodoList] of the relational stores
    agree.  Every list that [sortedTodoLists] gives is loaded by
    [loadTodoList] under its id with the same todos, and it is the same
    list when the ids of the todo lists are distinct; and every list that
    [loadTodoList] loads is among the lists of [sortedTodoLists]. *)
Theorem sortedTodoLists_agrees_with_loadTodoList :
  (forall b_first w,
      exists result,
        fst (PgSingleUser.sortedTodoLists w) = JS.Return result
        /\ Forall
             (fun L =>
                exists L',
                  fst (PgSingleUser.loadTodoList b_first
                         (Pg.tl_id (Pg.list_row L)) w)
                  = JS.Return (Some L')
                  /\ Pg.list_todos L' = Pg.list_todos L
                  /\ (NoDup (map Pg.tl_id (Pg.todolists_table (Pg.database w))) ->
                      L' = L))
             result
        /\ (forall todoListId L',
               fst (PgSingleUser.loadTodoList b_first todoListId w)
               = JS.Return (Some L') ->
               In L' result))
  /\ (forall self b b_first w,
         exists result,
           fst (PgMultiUser.sortedTodoLists self b w) = JS.Return result
           /\ Forall
                (fun L =>
                   exists L',
                     fst (PgMultiUser.loadTodoList self b_first
                            (Pg.tl_id (Pg.list_row L)) w)
                     = JS.Return (Some L')
                     /\ Pg.list_todos L' = Pg.list_todos L
                     /\ (NoDup (map Pg.tl_id (Pg.todolists_table (Pg.database w))) ->
                         L' = L))
                result
           /\ (forall todoListId L',
                  fst (PgMultiUser.loadTodoList self b_first todoListId w)
                  = JS.Return (Some L') ->
                  In L' result)).
Proof.
  split.
  - intros b_first w.
    destruct (single_sortedTodoLists_members w) as (result & Hres & Hin).
    exists result. split; [exact Hres|]. split.
    + apply Forall_forall. intros L HL.
      apply list_elem_of_In, Hin in HL as (row & Hrow & ->).
      cbn [joined Pg.list_row].
      destruct (single_loadTodoList_run b_first (Pg.tl_id row) w) as [log ->].
      cbn [fst].
      destruct (List.find (is_list (Pg.tl_id row)) _) as [row'|] eqn:Hfind.
      * apply find_some in Hfind as [Hin' Hid]. apply Z.eqb_eq in Hid.
        eexists. split; [reflexivity|]. split; [reflexivity|].
        intros Hnd. f_equal.
        now apply (NoDup_key_inj Pg.tl_id (Pg.todolists_table (Pg.database w))).
      * exfalso. apply (find_none _ _ Hfind) in Hrow.
        unfold is_list in Hrow. now rewrite Z.eqb_refl in Hrow.
    + intros todoListId L'.
      destruct (single_loadTodoList_run b_first todoListId w) as [log ->].
      cbn [fst].
      destruct (List.find (is_list todoListId) _) as [row'|] eqn:Hfind;
        [|discriminate].
      intros [= <-]. apply Hin. exists row'.
      apply find_some in Hfind as [Hin' Hid]. apply Z.eqb_eq in Hid.
      split; [assumption|]. now rewrite Hid.
  - intros self b b_first w.
    destruct (multi_sortedTodoLists_members self b w) as (result & Hres & Hin).
    exists result. split; [exact Hres|]. split.
    + apply Forall_forall. intros L HL.
      apply list_elem_of_In, Hin in HL as (row & Hrow & Hown & ->).
      cbn [joined Pg.list_row].
      destruct (multi_loadTodoList_run self b_first (Pg.tl_id row) w) as [log ->].
      cbn [fst].
      destruct (List.find (is_list_of _ (Pg.tl_id row)) _) as [row'|] eqn:Hfind.
      * apply find_some in Hfind as [Hin' Hid].
        unfold is_list_of, is_list in Hid.
        apply andb_true_iff in Hid as [Hid _]. apply Z.eqb_eq in Hid.
        eexists. split; [reflexivity|]. split; [reflexivity|].
        intros Hnd. f_equal.
        now apply (NoDup_key_inj Pg.tl_id (Pg.todolists_table (Pg.database w))).
      * exfalso. apply (find_none _ _ Hfind) in Hrow.
        unfold is_list_of, is_list in Hrow.
        now rewrite Z.eqb_refl, Hown in Hrow.
    + intros todoListId L'.
      destruct (multi_loadTodoList_run self b_first todoListId w) as [log ->].
      cbn [fst].
      destruct (List.find (is_list_of _ todoListId) _) as [row'|] eqn:Hfind;
        [|discriminate].
      intros [= <-]. apply Hin. exists row'.
      apply find_some in Hfind as [Hin' Hid].
      unfold is_list_of, is_list in Hid.
      apply andb_true_iff in Hid as [Hid Hown]. apply Z.eqb_eq in Hid.
      split; [assumption|split; [assumption|]]. now rewrite Hid.
Qed.

(** ** The route GET /lists *)

Lemma forallb_count {A} (p : A -> bool) (l : list A) :
  (length (List.filter p l) <= length l)%nat
  /\ forallb p l = (length (List.filter p l) =? length l)%nat.
Proof.
  induction l as [|x l [IH1 IH2]]; simpl; [now split|].
  destruct (p x); simpl.
  - split; [lia|exact IH2].
  - split; [lia|]. symmetry. apply Nat.eqb_neq. lia.
Qed.

Lemma Forall2_map_r {A B} (R : A -> B -> Prop) (f : A -> B) (l : list A) :
  (forall x, R x (f x)) -> Forall2 R l (map f l).
Proof. intros H. induction l; simpl; constructor; auto. Qed.

Lemma map_all {A} (f : A -> bool) (b : bool) (l : list A) :
  Forall (fun x => f x = b) l -> map f l = replicate (length l) b.
Proof.
  induction 1 as [|x l Hx _ IH]; simpl; [reflexivity|]. now rewrite Hx, IH.
Qed.

(** In a sequence that is the undone members, then the done ones, the
    flags are a run of false, then a run of true. *)
Lemma undone_then_done_flags {A} `{Titled A} (is_done : A -> bool)
    (held result : list A) :
  undone_then_done is_done held result ->
  exists k : nat,
    (k <= length result)%nat
    /\ map is_done result
       = replicate k false ++ replicate (length result - k) true.
Proof.
  intros (undone & done_ & -> & Hu & Hd & _).
  exists (length undone). rewrite length_app, map_app.
  split; [lia|].
  replace (length undone + length done_ - length undone)%nat
    with (length done_) by lia.
  f_equal; apply map_all.
  - rewrite Hu. eapply Forall_impl; [apply Forall_filter_bool|].
    intros x. apply negb_true_iff.
  - rewrite Hd. apply Forall_filter_bool.
Qed.

(** X23.  The route GET /lists.  For a session that is not signed in it
    redirects to the sign-in page with status 302 and sends no query.
    For a session that is signed in it renders the view lists with the
    todo lists of the user, those that are not done first, each group in
    ascending case-insensitive title order, and with one entry of
    [todosInfo] for each list, in the same order: [countAllTodos] is the
    number of todos of the list, [countDoneTodos] is at most that, and
    [isDone] is true exactly when the list has a todo and the two counts
    are equal, so that the flags [isDone] are a run of false followed by a
    run of true.  The route leaves the database as it is and the session
    without flash messages. *)
Theorem GET_lists_counts (b_first : bool) (req : Routes.Request)
    (w : Pg.World) :
  let out := Routes.GET_lists b_first req w in
  let req' := {| Routes.session := Routes.session req;
                 Routes.session_flash := [] |} in
  if PgMultiUser.signedIn (Routes.session req) then
    exists todoLists todosInfo,
      fst out = JS.Return (Routes.render (Routes.lists todoLists todosInfo), req')
      /\ undone_then_done Pg.isDoneTodoList
           (multi_held (PgMultiUser.session_username (Routes.session req))
              (Pg.database w))
           todoLists
      /\ Forall2
           (fun L info =>
              Routes.countAllTodos info = length (Pg.list_todos L)
              /\ (Routes.countDoneTodos info <= Routes.countAllTodos info)%nat
              /\ Routes.isDone info
                 = ((0 <? Routes.countAllTodos info)
                    && (Routes.countDoneTodos info =? Routes.countAllTodos info))%nat)
           todoLists todosInfo
      /\ (exists k : nat,
             (k <= length todosInfo)%nat
             /\ map Routes.isDone todosInfo
                = replicate k false ++ replicate (length todosInfo - k) true)
      /\ Pg.database (snd out) = Pg.database w
  else
    out = (JS.Return (Routes.redirect 302 "/users/signin", req'), w).
Proof.
  cbv zeta. unfold Routes.GET_lists, Routes.locals_of, Routes.requiresAuthentication.
  cbn [Routes.signedIn].
  destruct (PgMultiUser.signedIn (Routes.session req)); cbn [negb];
    [|reflexivity].
  unfold Routes.lists_handler, Pg.bind. cbn [Routes.store].
  destruct (multi_sortedTodoLists_run (PgMultiUser.constructor (Routes.session req))
              b_first w) as [log ->].
  unfold Pg.ret. cbn [fst snd Pg.database].
  eexists _, _. split; [reflexivity|].
  assert (undone_then_done Pg.isDoneTodoList
            (multi_held (PgMultiUser.session_username (Routes.session req))
               (Pg.database w))
            (Pg._partitionTodoLists
               (map (fun row =>
                       {| Pg.list_row := row;
                          Pg.list_todos :=
                            List.filter (in_list (Pg.tl_id row))
                              (List.filter
                                 (todo_owned_by
                                    (PgMultiUser.session_username (Routes.session req)))
                                 (Pg.todos_table (Pg.database w))) |})
                  (JS.sort Sort.compareByTitle
                     (List.filter
                        (list_owned_by
                           (PgMultiUser.session_username (Routes.session req)))
                        (Pg.todolists_table (Pg.database w))))))) as Hsorted
    by (apply held_partition_spec; reflexivity).
  split; [exact Hsorted|]. split; [|split; [|reflexivity]].
  - apply Forall2_map_r. intros L. cbn [Routes.countAllTodos Routes.countDoneTodos Routes.isDone].
    destruct (forallb_count Pg.td_done (Pg.list_todos L)) as [Hle Hall].
    split; [reflexivity|split; [exact Hle|]].
    unfold PgMultiUser.isDoneTodoList, Pg.isDoneTodoList. now rewrite Hall.
  - rewrite length_map, map_map. cbn [Routes.isDone].
    apply (undone_then_done_flags _ _ _ Hsorted).
Qed.

(** ** The route POST /lists *)

(** The multi-user [createdTodoList], in terms of the insert. *)
Lemma multi_createdTodoList_run (self : PgMultiUser.t) (todoListTitle : string)
    (w : Pg.World) :
  let q := {| Pg.text := Pg.INSERT_INTO Pg.todolists [Pg.title; Pg.username];
              Pg.parameters :=
                [Pg.VText todoListTitle; PgMultiUser.this_username self] |} in
  PgMultiUser.createdTodoList self todoListTitle w
  = match Pg.insert_todolist [Pg.title; Pg.username]
            [Pg.VText todoListTitle; PgMultiUser.this_username self]
            (Pg.database w) with
    | inr d' =>
        (JS.Return true, {| Pg.database := d'; Pg.sent := Pg.sent w ++ [q] |})
    | inl e =>
        (if Pg.isUniqueConstraintViolation e then JS.Return false else JS.Throw e,
         {| Pg.database := Pg.nextval Pg.todolists (Pg.database w);
            Pg.sent := Pg.sent w ++ [q] |})
    end.
Proof.
  cbv zeta.
  unfold PgMultiUser.createdTodoList, Pg.try_catch, Pg.bind, Pg.dbQuery, Pg.execute.
  cbn [length Pg.arity Pg.placeholders seq foldr Nat.max Nat.eqb negb].
  destruct (Pg.insert_todolist _ _ _) as [e|d']; cbn beta iota zeta.
  - unfold PgMultiUser.isUniqueConstraintViolation.
    now destruct (Pg.isUniqueConstraintViolation e).
  - reflexivity.
Qed.

(** An insert for an absent user name does not go through, and one that
    goes through puts the new row behind the others. *)
Lemma multi_insert_todolist_inr (o : option string) (todoListTitle : string)
    (d d' : Pg.Database) :
  Pg.insert_todolist [Pg.title; Pg.username]
    [Pg.VText todoListTitle; Pg.text_or_null o] d = inr d' ->
  Pg.todolists_table d'
  = Pg.todolists_table d ++ [new_list_row o todoListTitle d]
  /\ Pg.todos_table d' = Pg.todos_table d.
Proof.
  destruct o as [u|].
  - intros H. apply multi_insert_todolist_ok in H as [_ ->]. now split.
  - unfold Pg.insert_todolist.
    cbn [Pg.multi_user Pg.nextval Pg.todolists_table Pg.todolists_id_seq
           Pg.users_table Pg.value_at existsb Pg.text_or_null].
    repeat (case_decide; try congruence).
    change (bool_decide (Pg.title = Pg.username)) with false.
    change (bool_decide (Pg.username = Pg.username)) with true.
    cbn [orb].
    destruct (Pg.multi_user d); cbn [negb andb]; [|discriminate].
    rewrite (existsb_pointwise _ (fun _ => false) (Pg.users_table d))
      by reflexivity.
    assert (forall l : list Pg.UserRow, existsb (fun _ => false) l = false) as ->
      by (induction l; simpl; auto).
    cbn [negb].
    repeat match goal with
           | |- (if ?c then _ else _) = _ -> _ => destruct c; [discriminate|]
           end.
    discriminate.
Qed.

(** X24.  The route POST /lists, for every request and every value of
    the field [todoListTitle].  A session that is not signed in is
    redirected to the sign-in page, and nothing is sent to the database.
    A title that is empty once trimmed, or longer than 100, is answered
    with the form and the message of the test that failed, and nothing is
    sent to the database.  Otherwise the route ends in one of three ways:
    with a redirect to /lists and the flash message of success, and then
    the user had no list of this title and the table has one new row, for
    the user, with the trimmed title; with the form and the message that
    the title must be unique, and then [todolists] is as before; or with
    an error, which is not a uniqueness error, and then [todolists] is as
    before. *)
Theorem POST_lists_outcomes (body_todoListTitle : string)
    (req : Routes.Request) (w : Pg.World) :
  let out := Routes.POST_lists body_todoListTitle req w in
  let d := Pg.database w in
  let u := PgMultiUser.session_username (Routes.session req) in
  let todoListTitle := JS.trim body_todoListTitle in
  let form (message : string) :=
    Routes.render (Routes.new_list todoListTitle [("error"%string, [message])]) in
  if negb (PgMultiUser.signedIn (Routes.session req)) then
    out = (JS.Return (Routes.redirect 302 "/users/signin", without_flash req), w)
  else if (String.length todoListTitle =? 0)%nat then
    out = (JS.Return (form "The list title is required.", without_flash req), w)
  else if (100 <? String.length todoListTitle)%nat then
    out = (JS.Return (form "List title must be between 1 and 100 characters.",
                      without_flash req), w)
  else
    match fst out with
    | JS.Return (Routes.redirect status path, req') =>
        status = 302%nat /\ path = "/lists"%string
        /\ req' = {| Routes.session := Routes.session req;
                     Routes.session_flash :=
                       [("success"%string, ["The todo list has been created."%string])] |}
        /\ owns_title u todoListTitle d = false
        /\ Pg.todolists_table (Pg.database (snd out))
           = Pg.todolists_table d ++ [new_list_row u todoListTitle d]
    | JS.Return (Routes.render view, req') =>
        Routes.render view = form "The list title must be unique."
        /\ req' = without_flash req
        /\ Pg.todolists_table (Pg.database (snd out)) = Pg.todolists_table d
    | JS.Throw e =>
        Pg.isUniqueConstraintViolation e = false
        /\ Pg.todolists_table (Pg.database (snd out)) = Pg.todolists_table d
    end.
Proof.
  cbv zeta. unfold Routes.POST_lists, Routes.locals_of, Routes.requiresAuthentication.
  cbn [Routes.signedIn].
  destruct (PgMultiUser.signedIn (Routes.session req)); cbn [negb];
    [|reflexivity].
  unfold Routes.validated.
  destruct (String.length (JS.trim body_todoListTitle) =? 0)%nat eqn:Hempty.
  { apply Nat.eqb_eq in Hempty. rewrite Hempty. reflexivity. }
  apply Nat.eqb_neq in Hempty.
  destruct (100 <? String.length (JS.trim body_todoListTitle))%nat eqn:Hlong.
  { apply Nat.ltb_lt in Hlong.
    destruct (1 <=? String.length (JS.trim body_todoListTitle))%nat eqn:H1;
      [|apply Nat.leb_gt in H1; lia].
    destruct (String.length (JS.trim body_todoListTitle) <=? 100)%nat eqn:H2;
      [apply Nat.leb_le in H2; lia|].
    reflexivity. }
  apply Nat.ltb_ge in Hlong.
  destruct (1 <=? String.length (JS.trim body_todoListTitle))%nat eqn:H1;
    [|apply Nat.leb_gt in H1; lia].
  destruct (String.length (JS.trim body_todoListTitle) <=? 100)%nat eqn:H2;
    [|apply Nat.leb_gt in H2; lia].
  cbn [app]. unfold Routes.create_list_handler. cbn [Routes.store].
  unfold Pg.bind.
  destruct (multi_existsTodoListTitle_run
              (PgMultiUser.constructor (Routes.session req))
              (JS.trim body_todoListTitle) w) as [log ->].
  change (existsb _ (Pg.todolists_table (Pg.database w)))
    with (owns_title (PgMultiUser.session_username (Routes.session req))
            (JS.trim body_todoListTitle) (Pg.database w)).
  destruct (owns_title _ _ _) eqn:Howns.
  { unfold Pg.ret, without_flash.
    cbn [fst snd Pg.database Routes.req_flash_all Routes.req_flash
           Routes.flash_add Routes.session Routes.session_flash].
    now repeat split. }
  rewrite !multi_createdTodoList_run. cbv zeta.
  cbn [Pg.database Pg.sent].
  destruct (Pg.insert_todolist _ _ _) as [e|d'] eqn:Hins.
  - destruct (Pg.isUniqueConstraintViolation e) eqn:He.
    + unfold Pg.ret, without_flash.
      cbn [fst snd Pg.database negb Routes.req_flash_all Routes.req_flash
             Routes.flash_add Routes.session Routes.session_flash].
      now repeat split.
    + cbn [fst snd Pg.database]. now split.
  - unfold Pg.ret.
    cbn [fst snd Pg.database negb Routes.req_flash Routes.flash_add
           Routes.session Routes.session_flash].
    apply multi_insert_todolist_inr in Hins as [Hlists _].
    now repeat split.
Qed.

(** ** The routes POST /users/signin and POST /users/signout *)

Lemma user_row_known (username_arg : string) (d : Pg.Database) (row : Pg.UserRow) :
  user_row username_arg d = Some row -> known_user username_arg d = true.
Proof.
  unfold user_row, known_user. intros H.
  apply find_some in H as [Hin Hrow].
  apply existsb_exists. now exists row.
Qed.

(** X25.  The routes POST /users/signin and POST /users/signout.  The
    sign-in looks the trimmed user name up in [users].  When the user has
    a row and the password matches its hash, the session is signed in
    under the trimmed name, carries the message of welcome, and the
    response is a redirect to /lists: a session that these routes sign in
    is signed in under a name that has a row in [users].  Otherwise the
    session stays as it was (signed in or not), and the response is the
    sign-in form with the user name as it was typed and the one message
    that the credentials are invalid.  The sign-out leaves the session
    without user name and not signed in.  Neither route changes the
    database. *)
Theorem signin_signs_in_known_users
    (bcrypt_compare : string -> string -> bool)
    (body_username body_password : string) (req : Routes.Request)
    (w : Pg.World) :
  let out := Routes.POST_users_signin bcrypt_compare body_username
               body_password req w in
  let name := JS.trim body_username in
  let valid :=
    match user_row name (Pg.database w) with
    | Some row => bcrypt_compare body_password (Pg.u_password row)
    | None => false
    end in
  fst out
  = JS.Return
      (if valid
       then (Routes.redirect 302 "/lists",
             {| Routes.session :=
                  {| PgMultiUser.session_username := Some name;
                     PgMultiUser.signedIn := true |};
                Routes.session_flash := [("info"%string, ["Welcome!"%string])] |})
       else (Routes.render
               (Routes.signin body_username
                  [("error"%string, ["Invalid credentials."%string])]),
             without_flash req))
  /\ (valid = true -> known_user name (Pg.database w) = true)
  /\ Pg.database (snd out) = Pg.database w
  /\ Routes.POST_users_signout req w
     = (JS.Return
          (Routes.redirect 302 "/users/signin",
           {| Routes.session :=
                {| PgMultiUser.session_username := None;
                   PgMultiUser.signedIn := false |};
              Routes.session_flash := [] |}),
        w).
Proof.
  cbv zeta.
  unfold Routes.POST_users_signin, Routes.locals_of, Routes.signin_handler,
    Pg.bind.
  cbn [Routes.store]. rewrite isValidLogin_run.
  split; [|split; [|split]].
  - destruct (user_row _ _) as [row|]; [|reflexivity].
    now destruct (bcrypt_compare body_password (Pg.u_password row)).
  - destruct (user_row _ _) as [row|] eqn:Hrow; [|discriminate].
    intros _. now apply (user_row_known _ _ row).
  - destruct (user_row _ _) as [row|]; [|reflexivity].
    now destruct (bcrypt_compare body_password (Pg.u_password row)).
  - reflexivity.
Qed.

(** ** Sign in, create a todo list, look at the todo lists *)

Lemma POST_users_signin_run (bcrypt_compare : string -> string -> bool)
    (body_username body_password : string) (req : Routes.Request)
    (w : Pg.World) (row : Pg.UserRow) :
  user_row (JS.trim body_username) (Pg.database w) = Some row ->
  bcrypt_compare body_password (Pg.u_password row) = true ->
  exists log,
    Routes.POST_users_signin bcrypt_compare body_username body_password req w
    = (JS.Return
         (Routes.redirect 302 "/lists",
          {| Routes.session :=
               {| PgMultiUser.session_username := Some (JS.trim body_username);
                  PgMultiUser.signedIn := true |};
             Routes.session_flash := [("info"%string, ["Welcome!"%string])] |}),
       {| Pg.database := Pg.database w; Pg.sent := log |}).
Proof.
  intros Hrow Hpw.
  unfold Routes.POST_users_signin, Routes.locals_of, Routes.signin_handler,
    Pg.bind.
  cbn [Routes.store]. rewrite isValidLogin_run, Hrow, Hpw.
  eexists. reflexivity.
Qed.

Lemma multi_insert_todolist_succeeds (u todoListTitle : string)
    (d : Pg.Database) :
  Pg.multi_user d = true ->
  next_list_id_free d = true ->
  known_user u d = true ->
  owns_title (Some u) todoListTitle d = false ->
  Pg.insert_todolist [Pg.title; Pg.username]
    [Pg.VText todoListTitle; Pg.VText u] d
  = inr (Pg.with_todolists (Pg.nextval Pg.todolists d)
           (Pg.todolists_table d ++ [new_list_row (Some u) todoListTitle d])).
Proof.
  intros Hmulti Hfree Hknown Howns.
  unfold Pg.insert_todolist.
  cbn [Pg.multi_user Pg.nextval Pg.todolists_table Pg.todolists_id_seq
         Pg.users_table Pg.value_at Pg.text_or_null].
  rewrite Hmulti. cbn [negb andb].
  repeat (case_decide; try congruence).
  unfold next_list_id_free in Hfree. apply negb_true_iff in Hfree.
  cbn [Pg.tl_id]. rewrite Hfree.
  rewrite (existsb_pointwise _
             (fun r => String.eqb (Pg.tl_title r) todoListTitle
                       && list_owned_by (Some u) r))
    by (intros r; unfold Pg.same_title, list_owned_by;
        cbn [Pg.tl_title Pg.tl_username];
        now rewrite String.eqb_sym, sql_eq_sym).
  unfold owns_title in Howns. rewrite Howns.
  rewrite (existsb_pointwise _ (fun usr => String.eqb (Pg.u_username usr) u))
    by reflexivity.
  unfold known_user in Hknown. rewrite Hknown. reflexivity.
Qed.

Lemma POST_lists_created (u body_todoListTitle : string)
    (fl : Routes.Flash) (w : Pg.World) :
  let req := {| Routes.session :=
                  {| PgMultiUser.session_username := Some u;
                     PgMultiUser.signedIn := true |};
                Routes.session_flash := fl |} in
  let d := Pg.database w in
  let todoListTitle := JS.trim body_todoListTitle in
  (1 <= String.length todoListTitle <= 100)%nat ->
  Pg.multi_user d = true ->
  next_list_id_free d = true ->
  known_user u d = true ->
  owns_title (Some u) todoListTitle d = false ->
  exists log,
    Routes.POST_lists body_todoListTitle req w
    = (JS.Return
         (Routes.redirect 302 "/lists",
          {| Routes.session := Routes.session req;
             Routes.session_flash :=
               [("success"%string, ["The todo list has been created."%string])] |}),
       {| Pg.database :=
            Pg.with_todolists (Pg.nextval Pg.todolists d)
              (Pg.todolists_table d ++ [new_list_row (Some u) todoListTitle d]);
          Pg.sent := log |}).
Proof.
  cbv zeta. intros [Hmin Hmax] Hmulti Hfree Hknown Howns.
  unfold Routes.POST_lists, Routes.locals_of, Routes.requiresAuthentication,
    Routes.validated.
  cbn [Routes.signedIn Routes.session PgMultiUser.signedIn negb].
  apply Nat.leb_le in Hmin, Hmax. rewrite Hmin, Hmax. cbn [app].
  unfold Routes.create_list_handler, Pg.bind. cbn [Routes.store].
  destruct (multi_existsTodoListTitle_run
              (PgMultiUser.constructor
                 {| PgMultiUser.session_username := Some u;
                    PgMultiUser.signedIn := true |})
              (JS.trim body_todoListTitle) w) as [log ->].
  change (existsb _ (Pg.todolists_table (Pg.database w)))
    with (owns_title (Some u) (JS.trim body_todoListTitle) (Pg.database w)).
  rewrite Howns, multi_createdTodoList_run. cbv zeta.
  cbn [Pg.database Pg.sent].
  change (PgMultiUser.this_username _) with (Pg.VText u).
  rewrite multi_insert_todolist_succeeds by assumption.
  cbn [negb]. eexists. reflexivity.
Qed.

Lemma GET_lists_run (b_first : bool) (req : Routes.Request) (w : Pg.World) :
  PgMultiUser.signedIn (Routes.session req) = true ->
  exists todoLists log,
    Routes.GET_lists b_first req w
    = (JS.Return
         (Routes.render
            (Routes.lists todoLists
               (map (fun todoList =>
                       {| Routes.countAllTodos := length (Pg.list_todos todoList);
                          Routes.countDoneTodos :=
                            length (List.filter Pg.td_done (Pg.list_todos todoList));
                          Routes.isDone := Pg.isDoneTodoList todoList |})
                  todoLists)),
          without_flash req),
       {| Pg.database := Pg.database w; Pg.sent := log |})
    /\ forall row,
         In row (Pg.todolists_table (Pg.database w)) ->
         list_owned_by (PgMultiUser.session_username (Routes.session req)) row
         = true ->
         In row (map Pg.list_row todoLists).
Proof.
  intros Hin.
  unfold Routes.GET_lists, Routes.locals_of, Routes.requiresAuthentication.
  cbn [Routes.signedIn]. rewrite Hin. cbn [negb].
  unfold Routes.lists_handler, Pg.bind. cbn [Routes.store].
  destruct (multi_sortedTodoLists_members
              (PgMultiUser.constructor (Routes.session req)) b_first w)
    as (result & Hres & Hmem).
  destruct (multi_sortedTodoLists_run
              (PgMultiUser.constructor (Routes.session req)) b_first w)
    as [log Hrun].
  rewrite Hrun in Hres |- *. cbn [fst] in Hres. injection Hres as <-.
  eexists _, log. split; [reflexivity|].
  intros row Hrow Hown. apply in_map_iff.
  eexists. split; [|apply Hmem; exists row; split; [exact Hrow|split; [exact Hown|reflexivity]]].
  reflexivity.
Qed.

(** X26.  Sign in, create a todo list, look at the todo lists.  When
    the user has a row in [users] and the password matches its hash, the
    title is between 1 and 100 long once trimmed and the user has no list
    of that title, and the next id of [todolists] is free, then the three
    requests, one after the other in one session, end with a redirect to
    /lists, a redirect to /lists, and the view lists; among the todo
    lists of the view is the new row, with the trimmed title and the
    trimmed user name, and [todosInfo] has one entry for each list. *)
Theorem signin_create_then_listed
    (bcrypt_compare : string -> string -> bool)
    (body_username body_password body_todoListTitle : string)
    (b_first : bool) (req : Routes.Request) (w : Pg.World)
    (row : Pg.UserRow) :
  let d := Pg.database w in
  let name := JS.trim body_username in
  let todoListTitle := JS.trim body_todoListTitle in
  Pg.multi_user d = true ->
  next_list_id_free d = true ->
  user_row name d = Some row ->
  bcrypt_compare body_password (Pg.u_password row) = true ->
  (1 <= String.length todoListTitle <= 100)%nat ->
  owns_title (Some name) todoListTitle d = false ->
  exists todoLists todosInfo,
    fst (signin_create_lists bcrypt_compare body_username body_password
           body_todoListTitle b_first req w)
    = JS.Return (Routes.redirect 302 "/lists", Routes.redirect 302 "/lists",
                 Routes.render (Routes.lists todoLists todosInfo))
    /\ In (new_list_row (Some name) todoListTitle d)
         (map Pg.list_row todoLists)
    /\ length todosInfo = length todoLists.
Proof.
  cbv zeta. intros Hmulti Hfree Hrow Hpw Hlen Howns.
  unfold signin_create_lists, Pg.bind.
  destruct (POST_users_signin_run bcrypt_compare body_username body_password
              req w row Hrow Hpw) as [log1 ->].
  cbn [fst snd].
  destruct (POST_lists_created (JS.trim body_username) body_todoListTitle
              [("info"%string, ["Welcome!"%string])]
              {| Pg.database := Pg.database w; Pg.sent := log1 |}
              Hlen Hmulti Hfree (user_row_known _ _ _ Hrow) Howns)
    as [log2 ->].
  cbn [fst snd Routes.session].
  match goal with
  | |- context [Routes.GET_lists b_first ?r ?w'] =>
      destruct (GET_lists_run b_first r w' eq_refl)
        as (todoLists & log3 & -> & Hmem)
  end.
  unfold Pg.ret. cbn [fst snd].
  eexists _, _. split; [reflexivity|]. split; [|apply length_map].
  apply Hmem.
  - cbn [Pg.database Pg.todolists_table Pg.with_todolists].
    apply in_or_app. right. now left.
  - unfold list_owned_by, new_list_row.
    cbn [Routes.session PgMultiUser.session_username Pg.tl_username
           Pg.text_or_null].
    apply sql_eq_text_refl.
Qed.

(** X26 at a sample input: admin signs in to [multi_db] and creates the
    list Garden. *)
Lemma signin_create_then_listed_witness :
  exists todoLists todosInfo,
    fst (signin_create_lists Sample.compare_by_prefix " admin" "secret"
           "  Garden " false
           {| Routes.session :=
                {| PgMultiUser.session_username := None;
                   PgMultiUser.signedIn := false |};
              Routes.session_flash := [] |}
           (Sample.world Sample.multi_db))
    = JS.Return (Routes.redirect 302 "/lists", Routes.redirect 302 "/lists",
                 Routes.render (Routes.lists todoLists todosInfo))
    /\ In {| Pg.tl_id := 3; Pg.tl_title := "Garden";
             Pg.tl_username := Some "admin"%string |}
         (map Pg.list_row todoLists)
    /\ length todosInfo = length todoLists.
Proof.
  apply (signin_create_then_listed Sample.compare_by_prefix " admin" "secret"
           "  Garden " false _ (Sample.world Sample.multi_db)
           {| Pg.u_username := "admin"; Pg.u_password := "hash-of-secret" |});
    try reflexivity.
  simpl. lia.
Defined.

(** ** [loadTodoList], then [sortedTodos] *)





